(** * Inventory analysis and cleanup: a shallow embedding

    The development follows the two Python modules of the repository,
    [analyze_inventory.py] and [clean_inventory.py].

    - Python text is a Rocq string, its characters the code points below
      256.  The membership file is the text that text mode reads and
      writes; the line ends kept on disk are not part of it.
    - A Python dictionary is an association list in insertion order, a
      key occurring once.
    - The file system is one inventory root, which
      [inventory_base_path] names: the membership file and the two
      variable directories, which are flat and hold regular files.
      The lookups answer for file names, see [is_file_name].  What the
      operating system does with an identifier that holds a path
      separator (the path is resolved, may lead out of the directory, or
      fail on the way with an error other than [FileNotFoundError]) is
      not modelled.
    - A variable file is what the YAML reader makes of it, and a document
      written with [yaml.safe_dump] is read back as it was written.
      [yaml.safe_dump] sorts the keys of what it writes; the association
      list keeps them in place, and no statement below speaks of the
      order of the keys of a rewritten file.
    - [print] appends a line to the output kept with the file system.
    - Exceptions are results; the functions are in a state monad over the
      file system. *)

From Stdlib Require Import String Ascii List Bool Arith NArith ZArith Lia.
From Stdlib Require Import DecimalString.
Import ListNotations.
Open Scope string_scope.

(* ------------------------------------------------------------------ *)
(** ** Python string primitives *)
(* ------------------------------------------------------------------ *)

Module PyStr.

(** [str.isspace] on one character below code point 256: the ASCII
    controls 9..13 and 28..31, the blank, NEL (133) and NBSP (160). *)
Definition is_space (c : ascii) : bool :=
  let n := N_of_ascii c in
  ((9 <=? n) && (n <=? 13) || (28 <=? n) && (n <=? 32)
   || (n =? 133) || (n =? 160))%N.

Fixpoint lstrip (s : string) : string :=
  match s with
  | String c s' => if is_space c then lstrip s' else s
  | EmptyString => EmptyString
  end.

Fixpoint rstrip (s : string) : string :=
  match s with
  | String c s' =>
      match rstrip s' with
      | EmptyString => if is_space c then EmptyString else String c EmptyString
      | r => String c r
      end
  | EmptyString => EmptyString
  end.

(** [s.strip()] *)
Definition strip (s : string) : string := rstrip (lstrip s).

(** [s.startswith(p)] *)
Definition startswith (p s : string) : bool := String.prefix p s.

(** [s.endswith(p)] *)
Fixpoint endswith (p s : string) : bool :=
  if String.eqb s p then true
  else match s with
       | String _ s' => endswith p s'
       | EmptyString => false
       end.

(** [c in s] for a single character [c] *)
Fixpoint contains_char (c : ascii) (s : string) : bool :=
  match s with
  | String d s' => Ascii.eqb c d || contains_char c s'
  | EmptyString => false
  end.

Fixpoint take_token (s : string) : string :=
  match s with
  | String c s' => if is_space c then EmptyString else String c (take_token s')
  | EmptyString => EmptyString
  end.

(** [s.split()[0]] for a string holding at least one token: the run of
    non-blank characters after the leading blanks. *)
Definition first_token (s : string) : string := take_token (lstrip s).

(** [s.split(sep)] for a non-empty separator: [skip] counts the
    characters of a separator occurrence still to be passed over, [cur]
    is the piece being collected. *)
Fixpoint split_go (sep s : string) (skip : nat) (cur : string) : list string :=
  match s with
  | EmptyString => [cur]
  | String c s' =>
      match skip with
      | S k => split_go sep s' k cur
      | O =>
          if String.prefix sep s
          then cur :: split_go sep s' (String.length sep - 1) EmptyString
          else split_go sep s' 0 (cur ++ String c EmptyString)
      end
  end.

Definition split (sep s : string) : list string := split_go sep s 0 EmptyString.

(** [s.split(sep)[0]] *)
Definition before (sep s : string) : string := hd EmptyString (split sep s).

(** [sep.join(l)] *)
Definition join (sep : string) (l : list string) : string := String.concat sep l.

(** [str.lower] on one character below code point 256: the letters A..Z
    and the Latin-1 capitals 192..222 except the multiplication sign. *)
Definition lower_char (c : ascii) : ascii :=
  let n := N_of_ascii c in
  if ((65 <=? n) && (n <=? 90)
      || (192 <=? n) && (n <=? 222) && negb (n =? 215))%N
  then ascii_of_N (n + 32) else c.

Fixpoint lower (s : string) : string :=
  match s with
  | String c s' => String (lower_char c) (lower s')
  | EmptyString => EmptyString
  end.

(** Cut a name at its last dot: [Some (before, from the dot on)]. *)
Fixpoint rsplit_dot (s : string) : option (string * string) :=
  match s with
  | EmptyString => None
  | String c s' =>
      match rsplit_dot s' with
      | Some (p, e) => Some (String c p, e)
      | None => if Ascii.eqb c "." then Some (EmptyString, s) else None
      end
  end.

Fixpoint all_dots (s : string) : bool :=
  match s with
  | String c s' => Ascii.eqb c "." && all_dots s'
  | EmptyString => true
  end.

(** [os.path.splitext(name)] for a name without a path separator, as
    [os.listdir] returns them: the name is cut at its last dot unless
    only dots come before it. *)
Definition splitext (name : string) : string * string :=
  match rsplit_dot name with
  | Some (p, e) => if all_dots p then (name, EmptyString) else (p, e)
  | None => (name, EmptyString)
  end.

Definition newline : ascii := "010"%char.

(** Lines of a text as iteration over the open file and [readlines]
    give them: each one with its terminating newline, the last one
    possibly without. *)
Fixpoint lines_go (s cur : string) : list string :=
  match s with
  | EmptyString => match cur with EmptyString => [] | _ => [cur] end
  | String c s' =>
      if Ascii.eqb c newline
      then (cur ++ String c EmptyString) :: lines_go s' EmptyString
      else lines_go s' (cur ++ String c EmptyString)
  end.

Definition readlines (s : string) : list string := lines_go s EmptyString.

(** [os.path.join(a, b)] for two components *)
Definition path_join (a b : string) : string :=
  if startswith "/" b then b
  else if String.eqb a "" || endswith "/" a then a ++ b
  else a ++ "/" ++ b.

End PyStr.


(* ------------------------------------------------------------------ *)
(** ** Dictionaries in insertion order *)
(* ------------------------------------------------------------------ *)

Module Dict.
Section Ops.
Context {V : Type}.

Definition t := list (string * V).

(** [d.get(k)] *)
Fixpoint get (k : string) (d : t) : option V :=
  match d with
  | (k', v) :: d' => if String.eqb k k' then Some v else get k d'
  | [] => None
  end.

(** [k in d] *)
Definition mem (k : string) (d : t) : bool :=
  match get k d with Some _ => true | None => false end.

(** [d[k] = v]: an existing key keeps its place, a new one goes last. *)
Fixpoint set (k : string) (v : V) (d : t) : t :=
  match d with
  | (k', v') :: d' =>
      if String.eqb k k' then (k', v) :: d' else (k', v') :: set k v d'
  | [] => [(k, v)]
  end.

(** [del d[k]] for a key that is present *)
Fixpoint del (k : string) (d : t) : t :=
  match d with
  | (k', v') :: d' => if String.eqb k k' then d' else (k', v') :: del k d'
  | [] => []
  end.

Definition keys (d : t) : list string := map fst d.
End Ops.

(** [d[k].append(x)] on a [defaultdict(list)] *)
Fixpoint append {X : Type} (k : string) (x : X) (d : list (string * list X))
  : list (string * list X) :=
  match d with
  | (k', l) :: d' =>
      if String.eqb k k' then (k', (l ++ [x])%list) :: d' else (k', l) :: append k x d'
  | [] => [(k, [x])]
  end.

(** [d[k]] on a [defaultdict(list)], read only *)
Definition get_list {X : Type} (k : string) (d : list (string * list X)) : list X :=
  match get k d with Some l => l | None => [] end.
End Dict.

(* ------------------------------------------------------------------ *)
(** ** Values, files and the inventory on disk *)
(* ------------------------------------------------------------------ *)

#[local] Set Warnings "-register-all".

(** What [yaml.safe_load] yields.  Mapping keys are strings, as the
    variable names of an inventory are; floats, dates and non-string keys
    are left out. *)
Inductive value : Type :=
| VNone
| VBool (b : bool)
| VInt (z : Z)
| VStr (s : string)
| VList (l : list value)
| VMap (m : list (string * value)).

Definition mapping := list (string * value).

(** Truth value of a Python object, as [x or {}] tests it. *)
Definition truthy (v : value) : bool :=
  match v with
  | VNone => false
  | VBool b => b
  | VInt z => negb (z =? 0)%Z
  | VStr s => negb (String.eqb s "")
  | VList l => match l with [] => false | _ => true end
  | VMap m => match m with [] => false | _ => true end
  end.

(** Python [==]: booleans compare as the integers 0 and 1, sequences
    element by element, mappings as sets of items. *)
Fixpoint value_eqb (a b : value) {struct a} : bool :=
  match a, b with
  | VNone, VNone => true
  | VBool x, VBool y => Bool.eqb x y
  | VBool x, VInt y => (Z.b2z x =? y)%Z
  | VInt x, VBool y => (x =? Z.b2z y)%Z
  | VInt x, VInt y => (x =? y)%Z
  | VStr s, VStr t => String.eqb s t
  | VList l, VList l' =>
      (fix go (l l' : list value) : bool :=
         match l, l' with
         | [], [] => true
         | x :: xs, y :: ys => value_eqb x y && go xs ys
         | _, _ => false
         end) l l'
  | VMap m, VMap m' =>
      (length m =? length m')%nat &&
      (fix go (m : list (string * value)) : bool :=
         match m with
         | [] => true
         | (k, v) :: r =>
             match Dict.get k m' with
             | Some v' => value_eqb v v'
             | None => false
             end && go r
         end) m
  | _, _ => false
  end.

(** A variable file stands for what [yaml.safe_load] makes of it: the
    reader fails with [yaml.YAMLError] (the text of the exception is
    kept), or it yields a value, or it raises an exception that is no
    [yaml.YAMLError] -- the [ValueError] of a date such as [2001-02-30],
    with its text.  Writing a document with [yaml.safe_dump] stores the
    document, read back unchanged. *)
Inductive file : Type :=
| FUnparsable (exc : string)
| FDoc (v : value)
| FValueError (msg : string).

Definition directory := list (string * file).

Inductive vars_dir : Type := GroupVars | HostVars.

Definition dir_name (d : vars_dir) : string :=
  match d with GroupVars => "group_vars" | HostVars => "host_vars" end.

(** One inventory root: the membership file [hosts], the two variable
    directories (flat, holding regular files only), and what has been
    printed so far.  [None] is a file or directory that does not exist. *)
Record world : Type := mkWorld {
  fs_hosts : option string;
  fs_group_vars : option directory;
  fs_host_vars : option directory;
  fs_stdout : list string
}.

Definition dir_of (d : vars_dir) (w : world) : option directory :=
  match d with GroupVars => fs_group_vars w | HostVars => fs_host_vars w end.

Definition with_dir (d : vars_dir) (c : option directory) (w : world) : world :=
  match d with
  | GroupVars => mkWorld (fs_hosts w) c (fs_host_vars w) (fs_stdout w)
  | HostVars => mkWorld (fs_hosts w) (fs_group_vars w) c (fs_stdout w)
  end.

(** A name the operating system takes for one path component, with
    room for an extension: it holds no separator and no NUL, and is at
    most 120 characters long, so that [<name>.yaml], at two bytes a
    character at most, stays within the 255 bytes of a directory entry.
    For such a name [os.path.join(dir, name)] is the entry [name] of
    [dir], and the lookups below are what the operating system does; for
    any other name they are not. *)
Definition is_file_name (name : string) : bool :=
  negb (PyStr.contains_char "/" name)
  && negb (PyStr.contains_char Ascii.zero name)
  && (String.length name <=? 120)%nat.

(** [os.path.exists(os.path.join(dir, name))], for a file name *)
Definition file_exists (c : option directory) (name : string) : bool :=
  match c with
  | Some files => Dict.mem name files
  | None => false
  end.

(* ------------------------------------------------------------------ *)
(** ** Exceptions and the monad of the two modules *)
(* ------------------------------------------------------------------ *)

(** [NotAMapping] marks the edge of the embedding: a loaded document that
    is not a mapping.  What Python does with one (iterating a sequence or
    a string, [AttributeError] on [.items()]) is not modelled, and nothing
    below is concluded from this outcome. *)
Inductive exn : Type :=
| FileNotFoundError (path : string)
| NameError (name : string)
| ValueError (msg : string)
| NotAMapping (file_name : string).

Inductive result (A : Type) : Type :=
| Ok (a : A)
| Raise (e : exn).
Arguments Ok {A} a.
Arguments Raise {A} e.

Definition M (A : Type) : Type := world -> world * result A.

Definition ret {A} (a : A) : M A := fun w => (w, Ok a).

Definition bind {A B} (m : M A) (f : A -> M B) : M B :=
  fun w =>
    match m w with
    | (w', Ok a) => f a w'
    | (w', Raise e) => (w', Raise e)
    end.

Definition raise {A} (e : exn) : M A := fun w => (w, Raise e).

Declare Scope py_scope.
Delimit Scope py_scope with py.
Notation "x <- c1 ;; c2" := (bind c1 (fun x => c2))
  (at level 61, c1 at next level, right associativity) : py_scope.
Notation "' pat <- c1 ;; c2" := (bind c1 (fun x => match x with pat => c2 end))
  (at level 61, pat pattern, c1 at next level, right associativity) : py_scope.
Notation "c1 ;; c2" := (bind c1 (fun _ => c2))
  (at level 61, right associativity) : py_scope.
Open Scope py_scope.

(** [for x in l: body] *)
Fixpoint for_each {A} (l : list A) (body : A -> M unit) : M unit :=
  match l with
  | [] => ret tt
  | x :: l' => body x ;; for_each l' body
  end.

(** A loop that builds up a local variable. *)
Fixpoint fold_m {A S} (l : list A) (body : S -> A -> M S) (s : S) : M S :=
  match l with
  | [] => ret s
  | x :: l' => s' <- body s x ;; fold_m l' body s'
  end.

(** [try: m  except FileNotFoundError: h] *)
Definition try_file_not_found {A} (m : M A) (h : M A) : M A :=
  fun w =>
    match m w with
    | (w', Raise (FileNotFoundError _)) => h w'
    | r => r
    end.

Definition print (s : string) : M unit :=
  fun w => (mkWorld (fs_hosts w) (fs_group_vars w) (fs_host_vars w) (fs_stdout w ++ [s])%list, Ok tt).

(** [os.listdir(path)] *)
Definition listdir (base : string) (d : vars_dir) : M (list string) :=
  fun w =>
    match dir_of d w with
    | Some files => (w, Ok (Dict.keys files))
    | None => (w, Raise (FileNotFoundError (PyStr.path_join base (dir_name d))))
    end.

(** [os.path.exists] of a file of a variable directory *)
Definition path_exists (d : vars_dir) (name : string) : M bool :=
  fun w => (w, Ok (file_exists (dir_of d w) name)).

(** [open(path, 'r')] on a variable file, handing over its content; the
    path is [os.path.join] of the directory and a file name *)
Definition open_var_file (base : string) (d : vars_dir) (name : string) : M file :=
  fun w =>
    match dir_of d w with
    | Some files =>
        match Dict.get name files with
        | Some f => (w, Ok f)
        | None =>
            (w, Raise (FileNotFoundError
                         (PyStr.path_join (PyStr.path_join base (dir_name d)) name)))
        end
    | None =>
        (w, Raise (FileNotFoundError
                     (PyStr.path_join (PyStr.path_join base (dir_name d)) name)))
    end.

(** [open(path, 'w')] then [yaml.safe_dump(data, file)] on a file of an
    existing variable directory, named by a file name *)
Definition write_var_file (d : vars_dir) (name : string) (f : file) : M unit :=
  fun w =>
    match dir_of d w with
    | Some files => (with_dir d (Some (Dict.set name f files)) w, Ok tt)
    | None => (w, Raise (FileNotFoundError (dir_name d)))
    end.

(** [open(hosts_ini_path, 'r')] and reading the whole text *)
Definition read_hosts (base : string) : M string :=
  fun w =>
    match fs_hosts w with
    | Some text => (w, Ok text)
    | None => (w, Raise (FileNotFoundError (PyStr.path_join base "hosts")))
    end.

(** [open(hosts_ini_path, 'w')]: the file is created or emptied *)
Definition truncate_hosts : M unit :=
  fun w => (mkWorld (Some "") (fs_group_vars w) (fs_host_vars w) (fs_stdout w), Ok tt).

(** [file.write(line)] on the membership file opened for writing *)
Definition write_hosts (line : string) : M unit :=
  fun w =>
    (mkWorld (Some (match fs_hosts w with Some t => t ++ line | None => line end))
             (fs_group_vars w) (fs_host_vars w) (fs_stdout w), Ok tt).

(** A loaded document as the mapping the later passes take it for. *)
Definition as_mapping (file_name : string) (v : value) : M mapping :=
  match v with
  | VMap m => ret m
  | _ => raise (NotAMapping file_name)
  end.

Definition as_mappings (vars : list (string * value)) : M (list (string * mapping)) :=
  fold_m vars
    (fun acc '(name, v) => m <- as_mapping name v ;; ret (acc ++ [(name, m)])%list) [].

(** The variable directory as the [os.path.exists] probes of a loop see
    it; no loop that probes writes to it. *)
Definition probe_dir (d : vars_dir) : M (option directory) :=
  fun w => (w, Ok (dir_of d w)).

(** [os.path.exists(<host>.yaml) or os.path.exists(<host>.yml)], for a
    host whose name is a file name *)
Definition host_has_file (hv : option directory) (host : string) : bool :=
  file_exists hv (host ++ ".yaml") || file_exists hv (host ++ ".yml").

(** The per-host record of the report, keyed in Python by "Groups",
    "Duplicated Variables", "Inconsistent Variables", "Duplicated Host",
    "Missing File in host_vars" and "Orphaned Host Var". *)
Record defect : Type := mkDefect {
  Groups : string;
  Duplicated_Variables : string;
  Inconsistent_Variables : string;
  Duplicated_Host : string;
  Missing_File_in_host_vars : string;
  Orphaned_Host_Var : string
}.

Definition report := list (string * defect).

(* ------------------------------------------------------------------ *)
(** ** analyze_inventory.py *)
(* ------------------------------------------------------------------ *)

Module Analyze.

(** Names bound at module level: the four imports and the functions. *)
Definition module_globals : list string :=
  ["os"; "yaml"; "defaultdict"; "csv"; "save_analysis_to_csv";
   "load_yaml_file"; "load_all_vars"; "check_duplicate_vars";
   "check_inconsistent_values"; "find_duplicates"; "find_inconsistent_hosts";
   "find_orphaned_host_vars"; "parse_hosts_ini"; "analyze_inventory"].

(** Evaluating a global name that is no builtin. *)
Definition global_name (name : string) : M unit :=
  if existsb (String.eqb name) module_globals then ret tt
  else raise (NameError name).

Definition load_yaml_file (base : string) (d : vars_dir) (file_name : string)
  : M value :=
  let file_path := PyStr.path_join (PyStr.path_join base (dir_name d)) file_name in
  f <- open_var_file base d file_name ;;
  match f with
  | FDoc v => ret (if truthy v then v else VMap [])
  | FUnparsable exc =>
      print ("Error loading " ++ file_path ++ ": " ++ exc) ;; ret (VMap [])
  | FValueError msg => raise (ValueError msg)
  end.

Definition is_var_file (file_name : string) : bool :=
  PyStr.endswith ".yaml" file_name || PyStr.endswith ".yml" file_name.

Definition load_all_vars (base : string) (d : vars_dir)
  : M (list (string * value)) :=
  names <- listdir base d ;;
  fold_m names
    (fun vars_data file_name =>
       if is_var_file file_name
       then v <- load_yaml_file base d file_name ;;
            ret (Dict.set file_name v vars_data)
       else ret vars_data)
    [].

Definition check_duplicate_vars (group_vars host_vars : list (string * mapping))
  : list (string * list (string * string)) :=
  fold_left
    (fun duplicates '(group_file, group_data) =>
       fold_left
         (fun duplicates '(host_file, host_data) =>
            let host_name := fst (PyStr.splitext host_file) in
            fold_left
              (fun duplicates var =>
                 if Dict.mem var host_data
                 then Dict.append var (group_file, host_name) duplicates
                 else duplicates)
              (Dict.keys group_data) duplicates)
         host_vars duplicates)
    group_vars [].

Record conflict : Type := mkConflict {
  cf_group_file : string;
  cf_host_file : string;
  cf_group_value : value;
  cf_host_value : value
}.

Definition check_inconsistent_values
  (group_vars host_vars : list (string * mapping))
  : list (string * list conflict) :=
  fold_left
    (fun inconsistencies '(group_file, group_data) =>
       fold_left
         (fun inconsistencies '(host_file, host_data) =>
            let host_name := fst (PyStr.splitext host_file) in
            fold_left
              (fun inconsistencies '(var, group_value) =>
                 match Dict.get var host_data with
                 | Some host_value =>
                     if negb (value_eqb host_value group_value)
                     then Dict.append var
                            (mkConflict group_file host_name group_value host_value)
                            inconsistencies
                     else inconsistencies
                 | None => inconsistencies
                 end)
              group_data inconsistencies)
         host_vars inconsistencies)
    group_vars [].

(** [collections.Counter(hosts)], were the name bound. *)
Definition counter (hosts : list string) : list (string * nat) :=
  fold_left
    (fun c host =>
       Dict.set host (S (match Dict.get host c with Some n => n | None => 0 end)) c)
    hosts [].

Definition find_duplicates (groups : list (string * list string))
  : M (list (string * list string)) :=
  duplicated_hosts <-
    fold_m groups
      (fun duplicated_hosts '(group, hosts) =>
         global_name "Counter" ;;
         let host_counts := counter hosts in
         ret (fold_left
                (fun duplicated_hosts '(host, count) =>
                   if (1 <? count)%nat then Dict.append host group duplicated_hosts
                   else duplicated_hosts)
                host_counts duplicated_hosts))
      [] ;;
  ret (filter (fun '(host, group_list) =>
                 match group_list with [] => false | _ => true end)
              duplicated_hosts).

(** [line[1:-1]] *)
Definition inner (line : string) : string :=
  match line with
  | String _ s => String.substring 0 (String.length s - 1) s
  | EmptyString => EmptyString
  end.

(** The loop state of [parse_hosts_ini]: [hosts] (each host with its
    'groups' list), [groups], and [current_group]. *)
Definition parse_state : Type :=
  list (string * list string) * list (string * list string) * option string.

Definition parse_line (hv : option directory) (st : parse_state) (raw : string)
  : parse_state :=
  let '(hosts, groups, current_group) := st in
  let line := PyStr.strip raw in
  if String.eqb line "" || PyStr.startswith "#" line then st
  else if PyStr.startswith "[" line && PyStr.endswith "]" line then
    let g := PyStr.strip (inner line) in
    (hosts, Dict.set g [] groups, Some g)
  else
    match current_group with
    | Some g =>
        if String.eqb g "" then st
        else
          let host_name :=
            if PyStr.contains_char " " line
            then PyStr.strip (PyStr.first_token line)
            else line in
          if host_has_file hv host_name
          then (Dict.append host_name g hosts, Dict.append g host_name groups, current_group)
          else st
    | None => st
    end.

Definition parse_hosts_ini (inventory_base_path : string)
  : M (list (string * list string) * list (string * list string)) :=
  text <- read_hosts inventory_base_path ;;
  hv <- probe_dir HostVars ;;
  let '(hosts, groups, _) :=
    fold_left (parse_line hv) (PyStr.readlines text) ([], [], None) in
  ret (hosts, groups).

(** The record of an orphaned variable file. *)
Definition orphan_record : defect :=
  mkDefect "No group assigned" "N/A" "N/A" "No duplication in groups" "No" "Yes".

(** [host_name] of every variable file whose stem is no defined host *)
Definition orphans (defined_hosts names : list string) : list string :=
  fold_left
    (fun orphaned_files file_name =>
       if is_var_file file_name
       then
         let host_name := fst (PyStr.splitext file_name) in
         if negb (existsb (String.eqb host_name) defined_hosts)
         then (orphaned_files ++ [host_name])%list
         else orphaned_files
       else orphaned_files)
    names [].

Section Rendering.

(** Python's [str()] of a value, as the f-strings apply it.  It is a
    built-in of the language, taken as given: the cleanup only cuts
    the rendered text up again. *)
Variable py_str : value -> string.

Definition duplicated_vars_of (host : string)
  (duplicate_vars : list (string * list (string * string))) : list string :=
  fold_left
    (fun duplicated_vars '(var, files) =>
       fold_left
         (fun duplicated_vars '(group_file, host_file) =>
            if String.eqb host_file host
            then List.app duplicated_vars
                   [var ++ " (in " ++ group_file ++ " and " ++ host_file ++ ")"]
            else duplicated_vars)
         files duplicated_vars)
    duplicate_vars [].

Definition inconsistent_vars_of (host : string)
  (inconsistent_values : list (string * list conflict)) : list string :=
  fold_left
    (fun inconsistent_vars '(var, conflicts) =>
       fold_left
         (fun inconsistent_vars c =>
            if String.eqb (cf_host_file c) host
            then List.app inconsistent_vars
                   [var ++ " (" ++ cf_group_file c ++ " value = "
                    ++ py_str (cf_group_value c) ++ ", "
                    ++ host ++ " value = " ++ py_str (cf_host_value c) ++ ")"]
            else inconsistent_vars)
         conflicts inconsistent_vars)
    inconsistent_values [].

(** The record of a host of the model. *)
Definition host_record (host : string) (related_groups : list string)
  (duplicate_vars : list (string * list (string * string)))
  (inconsistent_values : list (string * list conflict))
  (duplicated_hosts : list (string * list string))
  (missing_files : list string) : defect :=
  let duplicated_vars := duplicated_vars_of host duplicate_vars in
  let inconsistent_vars := inconsistent_vars_of host inconsistent_values in
  mkDefect
    (PyStr.join ", " related_groups)
    (match duplicated_vars with
     | [] => "No duplicated variables"
     | _ => PyStr.join "; " duplicated_vars
     end)
    (match inconsistent_vars with
     | [] => "No inconsistent variables"
     | _ => PyStr.join "; " inconsistent_vars
     end)
    (match Dict.get host duplicated_hosts with
     | Some gs => PyStr.join ", " gs
     | None => "No duplication in groups"
     end)
    (if existsb (String.eqb host) missing_files then "Yes" else "No")
    "No".

(** [analyze_inventory(inventory_base_path)], with [save_csv] left at
    its default [False]. *)
Definition analyze_inventory (inventory_base_path : string) : M report :=
  '(hosts, groups) <- parse_hosts_ini inventory_base_path ;;
  group_vars <- load_all_vars inventory_base_path GroupVars ;;
  host_vars <- load_all_vars inventory_base_path HostVars ;;
  group_vars <- as_mappings group_vars ;;
  host_vars <- as_mappings host_vars ;;
  let duplicate_vars := check_duplicate_vars group_vars host_vars in
  let inconsistent_values := check_inconsistent_values group_vars host_vars in
  let duplicated_hosts :=
    filter (fun '(host, gs) => (1 <? List.length gs)%nat) hosts in
  hv <- probe_dir HostVars ;;
  let missing_files :=
    filter (fun host => negb (host_has_file hv host)) (Dict.keys hosts) in
  names <- listdir inventory_base_path HostVars ;;
  let orphaned_files := orphans (Dict.keys hosts) names in
  let analysis_results :=
    fold_left
      (fun analysis_results '(host, related_groups) =>
         Dict.set host
           (host_record host related_groups duplicate_vars inconsistent_values
              duplicated_hosts missing_files)
           analysis_results)
      hosts [] in
  let analysis_results :=
    fold_left
      (fun analysis_results orphaned_host =>
         Dict.set orphaned_host orphan_record analysis_results)
      orphaned_files analysis_results in
  ret analysis_results.

End Rendering.

End Analyze.

(* ------------------------------------------------------------------ *)
(** ** clean_inventory.py *)
(* ------------------------------------------------------------------ *)

Module Clean.

Definition load_yaml_file (base : string) (d : vars_dir) (file_name : string)
  : M value :=
  let file_path := PyStr.path_join (PyStr.path_join base (dir_name d)) file_name in
  f <- open_var_file base d file_name ;;
  match f with
  | FDoc v => ret (if truthy v then v else VMap [])
  | FUnparsable exc =>
      print ("Error loading " ++ file_path ++ ": " ++ exc) ;; ret (VMap [])
  | FValueError msg => raise (ValueError msg)
  end.

(** [yaml.safe_dump] writes the keys of a mapping sorted; the document
    is kept here with its keys in place, see the head of the file. *)
Definition save_yaml_file (d : vars_dir) (file_name : string) (data : value)
  : M unit :=
  write_var_file d file_name (FDoc data).

(** The lines [clean_hosts] writes through without looking at them:
    blank ones, comments, and whatever starts with a bracket. *)
Definition passes_through (stripped_line : string) : bool :=
  String.eqb stripped_line "" || PyStr.startswith "#" stripped_line
  || PyStr.startswith "[" stripped_line.

(** The body of the loop of [clean_hosts] for one line of the file. *)
Definition clean_line (analysis_results : report) (line : string) : M unit :=
  let stripped_line := PyStr.strip line in
  if passes_through stripped_line then write_hosts line
  else
    let host_name := PyStr.first_token stripped_line in
    match Dict.get host_name analysis_results with
    | Some r =>
        if negb (String.eqb (Duplicated_Host r) "No duplication in groups")
        then print ("Removing duplicated host '" ++ host_name
                    ++ "' from group definitions in hosts.ini")
        else if String.eqb (Missing_File_in_host_vars r) "Yes"
        then print ("Removing host '" ++ host_name
                    ++ "' without corresponding file in host_vars")
        else write_hosts line
    | None => write_hosts line
    end.

Definition clean_hosts (inventory_base_path : string) (analysis_results : report)
  : M unit :=
  text <- read_hosts inventory_base_path ;;
  let lines := PyStr.readlines text in
  truncate_hosts ;;
  for_each lines (clean_line analysis_results) ;;
  print "Completed cleaning hosts.ini for duplicated and inconsistent entries.".

(** [[var.split(" (")[0].lower() for var in field.split("; ")]] *)
Definition flagged_names (field : string) : list string :=
  map (fun var => PyStr.lower (PyStr.before " (" var)) (PyStr.split "; " field).

(** [{key.lower(): key for key in host_data}] *)
Definition lower_index (host_data : mapping) : list (string * string) :=
  fold_left (fun ci key => Dict.set (PyStr.lower key) key ci) (Dict.keys host_data) [].

(** The body of the two removal loops; [kind] is the word of the
    message. *)
Definition remove_var (kind host_file_path : string)
  (host_data_ci : list (string * string)) (host_data : mapping) (var : string)
  : M mapping :=
  match Dict.get var host_data_ci with
  | Some original_var =>
      if negb (String.eqb original_var "") && Dict.mem original_var host_data
      then print ("Removing " ++ kind ++ " variable '" ++ original_var
                  ++ "' from " ++ host_file_path) ;;
           ret (Dict.del original_var host_data)
      else ret host_data
  | None => ret host_data
  end.

Definition remove_vars (kind host_file_path : string)
  (host_data_ci : list (string * string)) (vars : list string)
  (host_data : mapping) : M mapping :=
  fold_m vars (remove_var kind host_file_path host_data_ci) host_data.

(** The body of the loop of [clean_host_vars] for one host. *)
Definition clean_one_host (inventory_base_path host : string) (analysis : defect)
  : M unit :=
  let file_name := host ++ ".yml" in
  let host_file_path :=
    PyStr.path_join (PyStr.path_join inventory_base_path "host_vars") file_name in
  loaded <-
    try_file_not_found
      (v <- load_yaml_file inventory_base_path HostVars file_name ;; ret (Some v))
      (print ("Warning: Host file '" ++ host_file_path
              ++ "' not found. Skipping this host.") ;;
       ret None) ;;
  match loaded with
  | None => ret tt
  | Some v =>
      host_data <- as_mapping file_name v ;;
      let host_data_ci := lower_index host_data in
      host_data <-
        (if negb (String.eqb (Duplicated_Variables analysis) "No duplicated variables")
         then remove_vars "duplicated" host_file_path host_data_ci
                (flagged_names (Duplicated_Variables analysis)) host_data
         else ret host_data) ;;
      host_data <-
        (if negb (String.eqb (Inconsistent_Variables analysis)
                    "No inconsistent variables")
         then remove_vars "inconsistent" host_file_path host_data_ci
                (flagged_names (Inconsistent_Variables analysis)) host_data
         else ret host_data) ;;
      save_yaml_file HostVars file_name (VMap host_data)
  end.

Definition clean_host_vars (inventory_base_path : string) (analysis_results : report)
  : M unit :=
  for_each analysis_results
    (fun '(host, analysis) => clean_one_host inventory_base_path host analysis).

Definition clean_inventory (inventory_base_path : string) (analysis_results : report)
  : M unit :=
  clean_hosts inventory_base_path analysis_results ;;
  clean_host_vars inventory_base_path analysis_results.

End Clean.

(* ------------------------------------------------------------------ *)
(** ** Vocabulary of the statements *)
(* ------------------------------------------------------------------ *)

(** The world after some more lines were printed. *)
Definition printed (w : world) (out : list string) : world :=
  mkWorld (fs_hosts w) (fs_group_vars w) (fs_host_vars w) (fs_stdout w ++ out)%list.

(** Every host of the model and every member of a group has a variable
    file, and no host is keyed twice. *)
Definition backed (hv : option directory) (st : Analyze.parse_state) : Prop :=
  let '(hosts, groups, _) := st in
  (forall h, In h (Dict.keys hosts) -> host_has_file hv h = true)
  /\ (forall g l h, In (g, l) groups -> In h l -> host_has_file hv h = true)
  /\ NoDup (Dict.keys hosts).

(** What the loader makes of a file, and what it prints about it.  Of a
    file the reader raises [ValueError] on it makes nothing and prints
    nothing: the exception leaves the loader, and [VNone] only fills the
    place. *)
Definition loaded (f : file) : value :=
  match f with
  | FUnparsable _ => VMap []
  | FDoc v => if truthy v then v else VMap []
  | FValueError _ => VNone
  end.

Definition load_report (base : string) (d : vars_dir) (file_name : string) (f : file)
  : list string :=
  match f with
  | FUnparsable exc =>
      ["Error loading "
       ++ PyStr.path_join (PyStr.path_join base (dir_name d)) file_name
       ++ ": " ++ exc]
  | FDoc _ => []
  | FValueError _ => []
  end.

(** The text of the [ValueError] that ends the loop of [load_all_vars]
    over these names, if a file makes the reader raise one, and the names
    the loop gets through before. *)
Fixpoint first_value_error (files : directory) (names : list string) : option string :=
  match names with
  | [] => None
  | file_name :: rest =>
      if Analyze.is_var_file file_name
      then match Dict.get file_name files with
           | Some (FValueError msg) => Some msg
           | _ => first_value_error files rest
           end
      else first_value_error files rest
  end.

Fixpoint read_names (files : directory) (names : list string) : list string :=
  match names with
  | [] => []
  | file_name :: rest =>
      if Analyze.is_var_file file_name
      then match Dict.get file_name files with
           | Some (FValueError _) => []
           | _ => file_name :: read_names files rest
           end
      else file_name :: read_names files rest
  end.

(** The loop of [load_all_vars] over the names of a directory, without
    its effects. *)
Definition load_step (files : directory) (vars_data : list (string * value))
  (file_name : string) : list (string * value) :=
  if Analyze.is_var_file file_name
  then match Dict.get file_name files with
       | Some f => Dict.set file_name (loaded f) vars_data
       | None => vars_data
       end
  else vars_data.

Definition load_output (base : string) (d : vars_dir) (files : directory)
  (names : list string) : list string :=
  flat_map
    (fun file_name =>
       if Analyze.is_var_file file_name
       then match Dict.get file_name files with
            | Some f => load_report base d file_name f
            | None => []
            end
       else [])
    names.

(** The lines of the membership file as [clean_hosts] sorts them, by
    their text without the surrounding blanks: blank when empty, a
    comment when starting with [#], and taken for a header when starting
    with a bracket -- closed or not, where the parser asks for both
    brackets, see [is_group_header].  Any other line it takes for a host
    line, named by its first token. *)
Definition is_blank (line : string) : bool := String.eqb (PyStr.strip line) "".
Definition is_comment (line : string) : bool := PyStr.startswith "#" (PyStr.strip line).
Definition is_header (line : string) : bool := PyStr.startswith "[" (PyStr.strip line).
Definition is_host_line (line : string) : bool :=
  negb (is_blank line || is_comment line || is_header line).

(** The record of the host has a "Duplicated Host" other than the
    sentinel, or "Missing File in host_vars" at "Yes". *)
Definition flagged (analysis_results : report) (host_name : string) : bool :=
  match Dict.get host_name analysis_results with
  | Some r =>
      negb (String.eqb (Duplicated_Host r) "No duplication in groups")
      || String.eqb (Missing_File_in_host_vars r) "Yes"
  | None => false
  end.

Definition kept_line (analysis_results : report) (line : string) : bool :=
  if is_host_line line
  then negb (flagged analysis_results (PyStr.first_token (PyStr.strip line)))
  else true.

(** The text of lines written one after the other. *)
Definition written (lines : list string) : string :=
  fold_right String.append "" lines.

(** The file of that name in [host_vars], if there is one. *)
Definition host_var_file (w : world) (file_name : string) : option file :=
  match fs_host_vars w with
  | Some files => Dict.get file_name files
  | None => None
  end.

(** The line [clean_host_vars] prints for a host it skips. *)
Definition skip_warning (base host : string) : string :=
  "Warning: Host file '"
  ++ PyStr.path_join (PyStr.path_join base "host_vars") (host ++ ".yml")
  ++ "' not found. Skipping this host.".

(* ------------------------------------------------------------------ *)
(** ** Sample inventories *)
(* ------------------------------------------------------------------ *)

(** A rendering to run the samples with: Python's [str()] on the scalars;
    the samples render no sequence and no mapping. *)
Definition scalar_str (v : value) : string :=
  match v with
  | VNone => "None"
  | VBool true => "True"
  | VBool false => "False"
  | VInt z => NilZero.string_of_int (Z.to_int z)
  | VStr s => s
  | VList _ => "[...]"
  | VMap _ => "{...}"
  end.

Definition nl : string := String PyStr.newline "".

(** [hosts] lists [web] twice under [[web]]; [host_vars/web.yml] exists. *)
Definition twice_listed : world :=
  mkWorld (Some ("[web]" ++ nl ++ "web" ++ nl ++ "web" ++ nl))
          (Some [])
          (Some [("web.yml", FDoc (VMap []))])
          [].

Definition twice_listed_report : report :=
  [("web", mkDefect "web, web" "No duplicated variables" "No inconsistent variables"
             "web, web" "No" "No")].

(** [host_vars/ghost.yml] has no line in [hosts]; [phantom] has a line
    under [[db]] and no file. *)
Definition ghost_and_phantom : world :=
  mkWorld (Some ("[web]" ++ nl ++ "app1 ansible_host=10.0.0.1" ++ nl
                 ++ "[db]" ++ nl ++ "phantom" ++ nl))
          (Some [("web.yml", FDoc (VMap [("port", VInt 80)]))])
          (Some [("app1.yml", FDoc (VMap [("port", VInt 8080)]));
                 ("ghost.yml", FDoc (VMap [("port", VInt 80)]))])
          [].

Definition ghost_and_phantom_report : report :=
  [("app1", mkDefect "web" "port (in web.yml and app1)"
              "port (web.yml value = 80, app1 value = 8080)"
              "No duplication in groups" "No" "No");
   ("ghost", mkDefect "No group assigned" "N/A" "N/A" "No duplication in groups"
               "No" "Yes")].

(** [db1] has its variables in [db1.yaml] only. *)
Definition yaml_only : world :=
  mkWorld (Some ("[db]" ++ nl ++ "db1" ++ nl))
          (Some [("db.yml", FDoc (VMap [("port", VInt 5432)]))])
          (Some [("db1.yaml", FDoc (VMap [("port", VInt 5432)]))])
          [].

Definition yaml_only_report : report :=
  [("db1", mkDefect "db" "port (in db.yml and db1)" "No inconsistent variables"
             "No duplication in groups" "No" "No")].

(** A [host_vars] with a file the YAML reader rejects, a file holding a
    sequence, an empty file, a mapping, and a file that is no variable
    file. *)
Definition mixed_files : world :=
  mkWorld None None
          (Some [("bad.yml", FUnparsable "mapping values are not allowed here");
                 ("list.yml", FDoc (VList [VStr "a"]));
                 ("empty.yaml", FDoc VNone);
                 ("ok.yml", FDoc (VMap [("port", VInt 80)]));
                 ("README", FDoc (VStr "notes"))])
          [].

(** [host_vars] holds a file named [.yml], and [hosts] has a line [.yml]
    under [[db]]; there is no [.yml.yml] and no [.yml.yaml]. *)
Definition dot_file : world :=
  mkWorld (Some ("[db]" ++ nl ++ ".yml" ++ nl))
          (Some [])
          (Some [(".yml", FDoc (VMap []))])
          [].

(** [app1.yml] has the keys [Port] and [port]; [group_vars/web.yml] has
    [port]. *)
Definition case_collision : world :=
  mkWorld (Some ("[web]" ++ nl ++ "app1" ++ nl))
          (Some [("web.yml", FDoc (VMap [("port", VInt 80)]))])
          (Some [("app1.yml", FDoc (VMap [("Port", VInt 1); ("port", VInt 8080)]))])
          [].

Definition case_collision_report : report :=
  [("app1", mkDefect "web" "port (in web.yml and app1)"
              "port (web.yml value = 80, app1 value = 8080)"
              "No duplication in groups" "No" "No")].

(** The inventory after one cleanup of [case_collision], and after two. *)
Definition once_cleaned : world :=
  fst (Clean.clean_inventory "inv" case_collision_report case_collision).

Definition twice_cleaned : world :=
  fst (Clean.clean_inventory "inv" case_collision_report once_cleaned).

(* ------------------------------------------------------------------ *)
(** ** analyze_inventory.py, the two stand-alone checks *)
(* ------------------------------------------------------------------ *)

Module Checks.

(** [find_inconsistent_hosts(host_groups, inventory_base_path)]: the
    hosts of [host_groups] with neither [<host>.yaml] nor [<host>.yml]
    in [host_vars]. *)
Definition find_inconsistent_hosts (host_groups : list (string * list string))
  (inventory_base_path : string) : M (list string) :=
  hv <- probe_dir HostVars ;;
  ret (fold_left
         (fun inconsistent_hosts host =>
            if negb (host_has_file hv host)
            then (inconsistent_hosts ++ [host])%list
            else inconsistent_hosts)
         (Dict.keys host_groups) []).

(** [find_orphaned_host_vars(host_groups, inventory_base_path)]: the stem
    of every variable file of [host_vars] that is no key of
    [host_groups]; the loop is the one of [analyze_inventory]. *)
Definition find_orphaned_host_vars (host_groups : list (string * list string))
  (inventory_base_path : string) : M (list string) :=
  names <- listdir inventory_base_path HostVars ;;
  ret (Analyze.orphans (Dict.keys host_groups) names).

End Checks.

(* ------------------------------------------------------------------ *)
(** ** Further vocabulary *)
(* ------------------------------------------------------------------ *)

(** A line that ends in its only newline, and a last line without one. *)
Fixpoint no_newline (s : string) : bool :=
  match s with
  | String c s' => negb (Ascii.eqb c PyStr.newline) && no_newline s'
  | EmptyString => true
  end.

Fixpoint is_full_line (l : string) : bool :=
  match l with
  | EmptyString => false
  | String c EmptyString => Ascii.eqb c PyStr.newline
  | String c r => negb (Ascii.eqb c PyStr.newline) && is_full_line r
  end.

Definition is_partial_line (l : string) : bool :=
  negb (String.eqb l "") && no_newline l.

(** The lines of a text: all full, but for the last one maybe. *)
Fixpoint lines_ok (ls : list string) : bool :=
  match ls with
  | [] => true
  | l :: r =>
      match r with
      | [] => is_full_line l || is_partial_line l
      | _ => is_full_line l && lines_ok r
      end
  end.

(** A header as the parser takes it: brackets at both ends. *)
Definition is_group_header (raw : string) : bool :=
  PyStr.startswith "[" (PyStr.strip raw) && PyStr.endswith "]" (PyStr.strip raw).

(** A line the parser passes over: blank or a comment. *)
Definition is_skipped (raw : string) : bool :=
  String.eqb (PyStr.strip raw) "" || PyStr.startswith "#" (PyStr.strip raw).


(** The names the two removal loops of [clean_host_vars] run over: those
    of a field are left out when the field is its sentinel. *)
Definition flagged_vars (analysis : defect) : list string :=
  ((if negb (String.eqb (Duplicated_Variables analysis) "No duplicated variables")
    then Clean.flagged_names (Duplicated_Variables analysis) else [])
   ++ (if negb (String.eqb (Inconsistent_Variables analysis) "No inconsistent variables")
       then Clean.flagged_names (Inconsistent_Variables analysis) else []))%list.

(** The keys the lower-case index holds for these names, the empty key
    left out. *)
Definition targets (ci : list (string * string)) (vars : list string) : list string :=
  flat_map
    (fun var =>
       match Dict.get var ci with
       | Some k => if String.eqb k "" then [] else [k]
       | None => []
       end)
    vars.

(** A mapping without some keys, the rest in place. *)
Definition without (ks : list string) (m : mapping) : mapping :=
  filter (fun kv => negb (existsb (String.eqb (fst kv)) ks)) m.

(** No two keys of the mapping differ in letter case only. *)
Definition case_distinct (m : mapping) : Prop :=
  forall k1 k2,
    In k1 (Dict.keys m) -> In k2 (Dict.keys m) ->
    PyStr.lower k1 = PyStr.lower k2 -> k1 = k2.

(** [app1.yml] with keys of distinct lower-case forms, two of them
    flagged in other letter case. *)
Definition mixed_case : world :=
  mkWorld (Some ("[web]" ++ nl ++ "app1" ++ nl))
          (Some [("web.yml", FDoc (VMap [("port", VInt 80); ("user", VStr "www")]))])
          (Some [("app1.yml",
                  FDoc (VMap [("Port", VInt 8080); ("name", VStr "app1");
                              ("USER", VStr "www")]))])
          [].

Definition mixed_case_record : defect :=
  mkDefect "web" "port (in web.yml and app1); user (in web.yml and app1)"
    "port (web.yml value = 80, app1 value = 8080)" "No duplication in groups" "No" "No".


(** [ghost.yml] has no line in [hosts] and holds a variable named
    [N/A]. *)
Definition orphan_with_na : world :=
  mkWorld (Some ("[web]" ++ nl))
          (Some [])
          (Some [("ghost.yml", FDoc (VMap [("N/A", VInt 1); ("port", VInt 80)]))])
          [].


(** The world with another text in the membership file. *)
Definition with_hosts_text (w : world) (text : string) : world :=
  mkWorld (Some text) (fs_group_vars w) (fs_host_vars w) (fs_stdout w).

(** A membership file with a comment, a blank line, and a host line
    before the first header. *)
Definition with_preamble : world :=
  mkWorld (Some ("# inventory" ++ nl ++ "app1" ++ nl ++ nl
                 ++ "[web]" ++ nl ++ "  # front" ++ nl ++ "app1 ansible_port=22" ++ nl))
          (Some [])
          (Some [("app1.yml", FDoc (VMap [("port", VInt 8080)]))])
          [].


(** The host model and the groups hang together: a host has a group list
    that is not empty, made of names of groups that are not empty; a
    member of a group has that group in its list; and the group being
    filled is a group. *)
Definition linked (st : Analyze.parse_state) : Prop :=
  let '(hosts, groups, current_group) := st in
  (forall h gs, Dict.get h hosts = Some gs ->
                gs <> [] /\ forall g, In g gs -> g <> "" /\ In g (Dict.keys groups))
  /\ (forall g l h, Dict.get g groups = Some l -> In h l ->
                    In g (Dict.get_list h hosts))
  /\ (forall g, current_group = Some g -> In g (Dict.keys groups))
  /\ NoDup (Dict.keys groups).


(** Both [ghost.yaml] and [ghost.yml] lie in [host_vars], and [hosts]
    names no [ghost]. *)
Definition twin_orphan : world :=
  mkWorld (Some ("[web]" ++ nl ++ "app1" ++ nl))
          (Some [])
          (Some [("app1.yml", FDoc (VMap []));
                 ("ghost.yaml", FDoc (VMap []));
                 ("ghost.yml", FDoc (VMap []))])
          [].

(** An inventory root without [host_vars]. *)
Definition no_host_vars : world :=
  mkWorld (Some ("[web]" ++ nl ++ "app1" ++ nl))
          (Some [("web.yml", FUnparsable "bad indentation")])
          None
          [].


(** The loader yields this mapping for the file of that name: the name
    ends in [.yaml] or [.yml], and the file is a mapping, or is rejected
    by the YAML reader or falsy and the mapping is empty. *)
Definition loads_as (files : directory) (file_name : string) (m : mapping) : Prop :=
  Analyze.is_var_file file_name = true
  /\ exists f, Dict.get file_name files = Some f /\ loaded f = VMap m.

(** [app1] is in no group that shares a variable with it, yet
    [group_vars/db.yml] and [host_vars/app1.yml] both set [port]. *)
Definition unrelated_group : world :=
  mkWorld (Some ("[web]" ++ nl ++ "app1" ++ nl ++ "[db]" ++ nl))
          (Some [("db.yml", FDoc (VMap [("port", VInt 5432)]))])
          (Some [("app1.yml", FDoc (VMap [("port", VInt 8080)]))])
          [].

Definition unrelated_group_report : report :=
  [("app1", mkDefect "web" "port (in db.yml and app1)"
              "port (db.yml value = 5432, app1 value = 8080)"
              "No duplication in groups" "No" "No")].


(** The host has more than one entry in its group list. *)
Definition listed_more_than_once (hosts : list (string * list string))
  (host : string) : bool :=
  match Dict.get host hosts with
  | Some gs => (1 <? List.length gs)%nat
  | None => false
  end.


(** The host file holds nothing the record flags: no non-empty key whose
    lower-case form is a flagged name. *)
Definition unflagged (analysis : defect) (m : mapping) : Prop :=
  forall k, In k (Dict.keys m) -> k <> "" ->
            ~ In (PyStr.lower k) (flagged_vars analysis).

(** Every [<host>.yml] of a host of the report holds a mapping with
    nothing left that the record of the host flags. *)
Definition settled (analysis_results : report) (w : world) : Prop :=
  forall host analysis f,
    In (host, analysis) analysis_results ->
    host_var_file w (host ++ ".yml") = Some f ->
    exists m, f = FDoc (VMap m) /\ NoDup (Dict.keys m) /\ unflagged analysis m.

(** Every [<host>.yml] of a host of the report loads as a mapping, no two
    keys of which differ in letter case only. *)
Definition plain_docs (analysis_results : report) (w : world) : Prop :=
  forall host f,
    In host (Dict.keys analysis_results) ->
    host_var_file w (host ++ ".yml") = Some f ->
    exists m, loaded f = VMap m /\ NoDup (Dict.keys m) /\ case_distinct m.


(** [[a], a line with an opening bracket and no closing one, listed twice
    under [[web]]; [host_vars] holds [[a.yml]. *)
Definition bracket_host : world :=
  mkWorld (Some ("[web]" ++ nl ++ "[a" ++ nl ++ "[a" ++ nl))
          (Some [])
          (Some [("[a.yml", FDoc (VMap [("port", VInt 80)]))])
          [].

Definition bracket_host_report : report :=
  [("[a",
    mkDefect "web, web" "No duplicated variables" "No inconsistent variables"
      "web, web" "No" "No")].

(** [group_vars/web.yml] holds [d: 2001-02-30], a date that does not
    exist: [yaml.safe_load] raises [ValueError] on it, which is no
    [yaml.YAMLError]. *)
Definition invalid_date : world :=
  mkWorld (Some ("[web]" ++ nl ++ "app1" ++ nl))
          (Some [("all.yml", FDoc (VMap [("user", VStr "www")]));
                 ("web.yml", FValueError "day is out of range for month");
                 ("db.yml", FDoc (VMap [("port", VInt 5432)]))])
          (Some [("app1.yml", FDoc (VMap [("port", VInt 8080)]))])
          [].

(** The same inventory with a [web.yml] the parser rejects. *)
Definition rejected_instead : world :=
  mkWorld (Some ("[web]" ++ nl ++ "app1" ++ nl))
          (Some [("all.yml", FDoc (VMap [("user", VStr "www")]));
                 ("web.yml", FUnparsable "mapping values are not allowed here");
                 ("db.yml", FDoc (VMap [("port", VInt 5432)]))])
          (Some [("app1.yml", FDoc (VMap [("port", VInt 8080)]))])
          [].




(* ================================================================== *)
(** * Properties *)
(* ================================================================== *)

(** ** The string primitives on sample inputs *)

Example strip_ex : PyStr.strip "  web ansible_host=1
" = "web ansible_host=1".
Proof. reflexivity. Qed.

Example split_ex : PyStr.split "; " "a (x); b (y); c" = ["a (x)"; "b (y)"; "c"].
Proof. reflexivity. Qed.

Example splitext_ex :
  map PyStr.splitext ["web.yml"; "a.b.yaml"; ".yml"; "..yml"; "x"; ".a.yml"]
  = [("web", ".yml"); ("a.b", ".yaml"); (".yml", ""); ("..yml", ""); ("x", "");
     (".a", ".yml")].
Proof. reflexivity. Qed.

Example lines_ex :
  PyStr.readlines "[web]
web
web" = ["[web]
"; "web
"; "web"].
Proof. reflexivity. Qed.

Example first_token_ex : PyStr.first_token "web	a=1 b" = "web".
Proof. reflexivity. Qed.

Example lower_ex : PyStr.lower "Port_A1" = "port_a1".
Proof. reflexivity. Qed.

Example before_ex : PyStr.before " (" "port (web.yml value = 80, a (b))" = "port".
Proof. reflexivity. Qed.

(** ** Dictionaries *)

Section DictFacts.
Context {V : Type}.
Implicit Types (d : list (string * V)) (k : string) (v : V).

Lemma get_In d k v : Dict.get k d = Some v -> In (k, v) d.
Proof.
  induction d as [|[k' v'] d IH]; simpl; [discriminate|].
  destruct (String.eqb_spec k k') as [->|Hne]; intros H.
  - injection H as ->. now left.
  - right. now apply IH.
Qed.

Lemma get_None_keys d k : Dict.get k d = None <-> ~ In k (Dict.keys d).
Proof.
  induction d as [|[k' v'] d IH]; simpl.
  - split; [intros _ []|reflexivity].
  - destruct (String.eqb_spec k k') as [->|Hne].
    + split; [discriminate|]. intros H. exfalso. apply H. now left.
    + rewrite IH. split; intros H.
      * intros [E|E]; [now apply Hne|now apply H].
      * intros E. apply H. now right.
Qed.

Lemma get_Some_keys d k v : Dict.get k d = Some v -> In k (Dict.keys d).
Proof.
  intros H. apply get_In in H. unfold Dict.keys.
  now apply (in_map fst) in H.
Qed.

Lemma keys_get d k : In k (Dict.keys d) -> exists v, Dict.get k d = Some v.
Proof.
  intros H. destruct (Dict.get k d) as [v|] eqn:E; [now exists v|].
  apply get_None_keys in E. contradiction.
Qed.

Lemma In_get_nodup d k v :
  NoDup (Dict.keys d) -> In (k, v) d -> Dict.get k d = Some v.
Proof.
  induction d as [|[k' v'] d IH]; simpl; [intros _ []|].
  intros Hnd [E|E].
  - injection E as -> ->. now rewrite String.eqb_refl.
  - inversion Hnd as [|? ? Hnot Hnd']; subst.
    destruct (String.eqb_spec k k') as [->|Hne].
    + exfalso. apply Hnot. now apply (in_map fst) in E.
    + now apply IH.
Qed.

Lemma mem_keys d k : Dict.mem k d = true <-> In k (Dict.keys d).
Proof.
  unfold Dict.mem. destruct (Dict.get k d) as [v|] eqn:E.
  - split; [intros _; now apply get_Some_keys in E|reflexivity].
  - split; [discriminate|]. apply get_None_keys in E. contradiction.
Qed.

Lemma get_set_same d k v : Dict.get k (Dict.set k v d) = Some v.
Proof.
  induction d as [|[k' v'] d IH]; simpl.
  - now rewrite String.eqb_refl.
  - destruct (String.eqb_spec k k') as [->|Hne]; simpl.
    + now rewrite String.eqb_refl.
    + destruct (String.eqb_spec k k'); [contradiction|exact IH].
Qed.

Lemma get_set_other d k k' v :
  k' <> k -> Dict.get k' (Dict.set k v d) = Dict.get k' d.
Proof.
  intros Hne. induction d as [|[k0 v0] d IH]; simpl.
  - destruct (String.eqb_spec k' k); [contradiction|reflexivity].
  - destruct (String.eqb_spec k k0) as [->|Hk]; simpl.
    + destruct (String.eqb_spec k' k0); [contradiction|reflexivity].
    + now rewrite IH.
Qed.

Lemma keys_set_In d k v k' :
  In k' (Dict.keys (Dict.set k v d)) <-> k' = k \/ In k' (Dict.keys d).
Proof.
  induction d as [|[k0 v0] d IH]; simpl.
  - intuition.
  - destruct (String.eqb_spec k k0) as [->|Hk]; simpl.
    + intuition.
    + rewrite IH. intuition.
Qed.

Lemma keys_set_nodup d k v :
  NoDup (Dict.keys d) -> NoDup (Dict.keys (Dict.set k v d)).
Proof.
  induction d as [|[k0 v0] d IH]; simpl; intros Hnd.
  - constructor; [intros []|constructor].
  - inversion Hnd as [|? ? Hnot Hnd']; subst.
    destruct (String.eqb_spec k k0) as [->|Hk]; simpl.
    + now constructor.
    + constructor; [|now apply IH].
      intros Hin. apply (keys_set_In d k v k0) in Hin.
      destruct Hin as [E|E]; [now apply Hk|now apply Hnot].
Qed.

Lemma In_set d k v k' v' :
  In (k', v') (Dict.set k v d) -> (k' = k /\ v' = v) \/ In (k', v') d.
Proof.
  induction d as [|[k0 v0] d IH]; simpl.
  - intros [E|[]]. injection E as <- <-. now left.
  - destruct (String.eqb_spec k k0) as [->|Hk]; simpl.
    + intros [E|E]; [injection E as <- <-; now left|right; now right].
    + intros [E|E]; [right; now left|].
      destruct (IH E) as [H|H]; [now left|right; now right].
Qed.

Lemma get_del_other d k k' :
  k' <> k -> Dict.get k' (Dict.del k d) = Dict.get k' d.
Proof.
  intros Hne. induction d as [|[k0 v0] d IH]; simpl; [reflexivity|].
  destruct (String.eqb_spec k k0) as [->|Hk]; simpl.
  - destruct (String.eqb_spec k' k0); [contradiction|reflexivity].
  - now rewrite IH.
Qed.
End DictFacts.

Section AppendFacts.
Context {X : Type}.
Implicit Types (d : list (string * list X)) (k : string) (x : X).

Lemma get_list_append_same d k x :
  Dict.get_list k (Dict.append k x d) = (Dict.get_list k d ++ [x])%list.
Proof.
  unfold Dict.get_list. induction d as [|[k' l] d IH]; simpl.
  - now rewrite String.eqb_refl.
  - destruct (String.eqb_spec k k') as [->|Hne]; simpl.
    + now rewrite String.eqb_refl.
    + destruct (String.eqb_spec k k'); [contradiction|exact IH].
Qed.

Lemma get_append_other d k k' x :
  k' <> k -> Dict.get k' (Dict.append k x d) = Dict.get k' d.
Proof.
  intros Hne. induction d as [|[k0 l] d IH]; simpl.
  - destruct (String.eqb_spec k' k); [contradiction|reflexivity].
  - destruct (String.eqb_spec k k0) as [->|Hk]; simpl.
    + destruct (String.eqb_spec k' k0); [contradiction|reflexivity].
    + now rewrite IH.
Qed.

Lemma get_append_same d k x :
  Dict.get k (Dict.append k x d) = Some (Dict.get_list k d ++ [x])%list.
Proof.
  unfold Dict.get_list. induction d as [|[k' l] d IH]; simpl.
  - now rewrite String.eqb_refl.
  - destruct (String.eqb_spec k k') as [->|Hne]; simpl.
    + now rewrite String.eqb_refl.
    + destruct (String.eqb_spec k k'); [contradiction|exact IH].
Qed.

Lemma keys_append_In d k x k' :
  In k' (Dict.keys (Dict.append k x d)) <-> k' = k \/ In k' (Dict.keys d).
Proof.
  induction d as [|[k0 l] d IH]; simpl.
  - intuition.
  - destruct (String.eqb_spec k k0) as [->|Hk]; simpl.
    + intuition.
    + rewrite IH. intuition.
Qed.

Lemma keys_append_nodup d k x :
  NoDup (Dict.keys d) -> NoDup (Dict.keys (Dict.append k x d)).
Proof.
  induction d as [|[k0 l] d IH]; simpl; intros Hnd.
  - constructor; [intros []|constructor].
  - inversion Hnd as [|? ? Hnot Hnd']; subst.
    destruct (String.eqb_spec k k0) as [->|Hk]; simpl.
    + now constructor.
    + constructor; [|now apply IH].
      intros Hin. apply (keys_append_In d k x k0) in Hin.
      destruct Hin as [E|E]; [now apply Hk|now apply Hnot].
Qed.

Lemma In_get_list_append d k x k' y :
  In y (Dict.get_list k' (Dict.append k x d))
  <-> (k' = k /\ y = x) \/ In y (Dict.get_list k' d).
Proof.
  destruct (String.eqb_spec k' k) as [->|Hne].
  - rewrite get_list_append_same, in_app_iff. simpl. intuition.
  - unfold Dict.get_list. rewrite get_append_other by assumption. intuition.
Qed.
End AppendFacts.

(** ** The cross-reference engine *)

Section Collect.
Context {A X : Type}.
Variable step : list (string * list X) -> A -> list (string * list X).
Variable emits : A -> string -> X -> Prop.
Hypothesis step_spec :
  forall acc a k y,
    In y (Dict.get_list k (step acc a)) <-> In y (Dict.get_list k acc) \/ emits a k y.

(** A loop whose body adds the items [emits] describes adds them for
    every element it runs over, and nothing else. *)
Lemma fold_left_collect l : forall acc k y,
  In y (Dict.get_list k (fold_left step l acc))
  <-> In y (Dict.get_list k acc) \/ exists a, In a l /\ emits a k y.
Proof.
  induction l as [|a l IH]; intros acc k y; simpl.
  - split; [now left|]. intros [H|[a [[] _]]]. exact H.
  - rewrite IH, step_spec. split.
    + intros [[H|H]|[b [Hb He]]].
      * now left.
      * right. exists a. split; [now left|exact H].
      * right. exists b. split; [now right|exact He].
    + intros [H|[b [[<-|Hb] He]]].
      * left. now left.
      * left. now right.
      * right. now exists b.
Qed.
End Collect.

Lemma check_duplicate_vars_spec (group_vars host_vars : list (string * mapping))
  (var group_file host_name : string) :
  In (group_file, host_name)
     (Dict.get_list var (Analyze.check_duplicate_vars group_vars host_vars))
  <-> exists group_data host_file host_data,
        In (group_file, group_data) group_vars
        /\ In (host_file, host_data) host_vars
        /\ host_name = fst (PyStr.splitext host_file)
        /\ In var (Dict.keys group_data)
        /\ In var (Dict.keys host_data).
Proof.
  unfold Analyze.check_duplicate_vars.
  rewrite (fold_left_collect _
    (fun (g : string * mapping) k (y : string * string) =>
       exists host_file host_data,
         In (host_file, host_data) host_vars
         /\ y = (fst g, fst (PyStr.splitext host_file))
         /\ In k (Dict.keys (snd g)) /\ In k (Dict.keys host_data))).
  - simpl. split.
    + intros [[]|[[gf gd] [Hg [hf [hd [Hh [E [Hk1 Hk2]]]]]]]].
      simpl in *. injection E as -> ->. exists gd, hf, hd. auto.
    + intros [gd [hf [hd [Hg [Hh [-> [Hk1 Hk2]]]]]]]. right.
      exists (group_file, gd). split; [exact Hg|]. exists hf, hd. auto.
  - intros acc [gf gd] k y.
    rewrite (fold_left_collect _
      (fun (h : string * mapping) k (y : string * string) =>
         y = (gf, fst (PyStr.splitext (fst h)))
         /\ In k (Dict.keys gd) /\ In k (Dict.keys (snd h)))).
    + simpl. split.
      * intros [H|[[hf hd] [Hh [E [Hk1 Hk2]]]]]; [now left|].
        right. exists hf, hd. auto.
      * intros [H|[hf [hd [Hh [E [Hk1 Hk2]]]]]]; [now left|].
        right. exists (hf, hd). auto.
    + clear acc k y. intros acc [hf hd] k y.
      rewrite (fold_left_collect _
        (fun (v : string) k (y : string * string) =>
           k = v /\ y = (gf, fst (PyStr.splitext hf)) /\ In v (Dict.keys hd))).
      * simpl. split.
        -- intros [H|[v [Hv [-> [E Hk]]]]]; [now left|]. right. auto.
        -- intros [H|[E [Hk1 Hk2]]]; [now left|]. right. exists k. auto.
      * clear acc k y. intros acc v k y.
        destruct (Dict.mem v hd) eqn:Hmem.
        -- rewrite In_get_list_append. apply mem_keys in Hmem. tauto.
        -- split; [now left|]. intros [H|[_ [_ H]]]; [exact H|].
           apply mem_keys in H. congruence.
Qed.

Lemma check_inconsistent_values_spec (group_vars host_vars : list (string * mapping))
  (var : string) (c : Analyze.conflict) :
  In c (Dict.get_list var (Analyze.check_inconsistent_values group_vars host_vars))
  <-> exists group_data host_file host_data,
        In (Analyze.cf_group_file c, group_data) group_vars
        /\ In (host_file, host_data) host_vars
        /\ Analyze.cf_host_file c = fst (PyStr.splitext host_file)
        /\ In (var, Analyze.cf_group_value c) group_data
        /\ Dict.get var host_data = Some (Analyze.cf_host_value c)
        /\ value_eqb (Analyze.cf_host_value c) (Analyze.cf_group_value c) = false.
Proof.
  unfold Analyze.check_inconsistent_values.
  rewrite (fold_left_collect _
    (fun (g : string * mapping) k (y : Analyze.conflict) =>
       exists host_file host_data,
         In (host_file, host_data) host_vars
         /\ Analyze.cf_group_file y = fst g
         /\ Analyze.cf_host_file y = fst (PyStr.splitext host_file)
         /\ In (k, Analyze.cf_group_value y) (snd g)
         /\ Dict.get k host_data = Some (Analyze.cf_host_value y)
         /\ value_eqb (Analyze.cf_host_value y) (Analyze.cf_group_value y) = false)).
  - simpl. split.
    + intros [[]|[[gf gd] [Hg [hf [hd [Hh [E H]]]]]]].
      simpl in *. subst gf. exists gd, hf, hd. tauto.
    + intros [gd [hf [hd [Hg [Hh H]]]]]. right.
      exists (Analyze.cf_group_file c, gd). split; [exact Hg|].
      exists hf, hd. simpl. tauto.
  - intros acc [gf gd] k y.
    rewrite (fold_left_collect _
      (fun (h : string * mapping) k (y : Analyze.conflict) =>
         Analyze.cf_group_file y = gf
         /\ Analyze.cf_host_file y = fst (PyStr.splitext (fst h))
         /\ In (k, Analyze.cf_group_value y) gd
         /\ Dict.get k (snd h) = Some (Analyze.cf_host_value y)
         /\ value_eqb (Analyze.cf_host_value y) (Analyze.cf_group_value y) = false)).
    + simpl. split.
      * intros [H|[[hf hd] [Hh H]]]; [now left|].
        right. exists hf, hd. simpl in H. tauto.
      * intros [H|[hf [hd [Hh H]]]]; [now left|].
        right. exists (hf, hd). simpl. tauto.
    + clear acc k y. intros acc [hf hd] k y.
      rewrite (fold_left_collect _
        (fun (item : string * value) k (y : Analyze.conflict) =>
           k = fst item
           /\ y = Analyze.mkConflict gf (fst (PyStr.splitext hf)) (snd item)
                    (Analyze.cf_host_value y)
           /\ Dict.get k hd = Some (Analyze.cf_host_value y)
           /\ value_eqb (Analyze.cf_host_value y) (snd item) = false)).
      * destruct y as [ygf yhf ygv yhv]. simpl. split.
        -- intros [H|[[v gv] [Hv [Hk [E [Hget Hne]]]]]]; [now left|].
           right. simpl in *. injection E as -> -> ->. subst k. auto.
        -- intros [H|[E1 [E2 [Hin [Hget Hne]]]]]; [now left|].
           right. exists (k, ygv). simpl. subst. auto.
      * clear acc k y. intros acc [v gv] k y. simpl.
        destruct (Dict.get v hd) as [hv|] eqn:Hget.
        -- destruct (value_eqb hv gv) eqn:Heq; simpl.
           ++ split; [now left|]. intros [H|[-> [E [Hg Hne]]]]; [exact H|].
              rewrite Hget in Hg. injection Hg as Hv. rewrite <- Hv in Hne.
              congruence.
           ++ rewrite In_get_list_append. split.
              ** intros [[-> ->]|H]; [|now left]. right. simpl. auto.
              ** intros [H|[-> [E [Hg Hne]]]]; [now right|]. left.
                 split; [reflexivity|].
                 rewrite Hget in Hg. injection Hg as Hv. rewrite Hv. exact E.
        -- split; [now left|]. intros [H|[-> [_ [Hg _]]]]; [exact H|].
           congruence.
Qed.


(** ** The parser *)

Lemma In_append_elem {X} (d : list (string * list X)) k x g l y :
  In (g, l) (Dict.append k x d) -> In y l ->
  y = x \/ exists l0, In (g, l0) d /\ In y l0.
Proof.
  induction d as [|[k0 l0] d IH]; simpl.
  - intros [E|[]] Hy. injection E as <- <-. destruct Hy as [<-|[]]. now left.
  - destruct (String.eqb_spec k k0) as [->|Hk]; simpl.
    + intros [E|E] Hy.
      * injection E as <- <-. apply in_app_iff in Hy.
        destruct Hy as [Hy|[<-|[]]]; [|now left].
        right. exists l0. split; [now left|exact Hy].
      * right. exists l. split; [now right|exact Hy].
    + intros [E|E] Hy.
      * right. exists l. split; [now left|exact Hy].
      * destruct (IH E Hy) as [H|[l1 [H1 H2]]]; [now left|].
        right. exists l1. split; [now right|exact H2].
Qed.

Lemma parse_line_backed hv st raw :
  backed hv st -> backed hv (Analyze.parse_line hv st raw).
Proof.
  destruct st as [[hosts groups] cur]. intros (Hh & Hg & Hnd).
  unfold Analyze.parse_line.
  destruct (String.eqb (PyStr.strip raw) "" || PyStr.startswith "#" (PyStr.strip raw));
    [now repeat split|].
  destruct (PyStr.startswith "[" (PyStr.strip raw)
            && PyStr.endswith "]" (PyStr.strip raw)).
  { repeat split; auto. intros g l h Hin Hl.
    apply In_set in Hin. destruct Hin as [[_ ->]|Hin]; [destruct Hl|].
    now apply (Hg g l h). }
  destruct cur as [g|]; [|now repeat split].
  destruct (String.eqb g ""); [now repeat split|].
  match goal with |- context [host_has_file hv ?n] => set (host_name := n) end.
  destruct (host_has_file hv host_name) eqn:Hfile; [|now repeat split].
  repeat split.
  - intros h Hin. apply keys_append_In in Hin.
    destruct Hin as [->|Hin]; [exact Hfile|now apply Hh].
  - intros g0 l h Hin Hl.
    destruct (In_append_elem _ _ _ _ _ _ Hin Hl) as [->|[l0 [H1 H2]]];
      [exact Hfile|now apply (Hg g0 l0 h)].
  - now apply keys_append_nodup.
Qed.

Lemma parse_lines_backed hv lines : forall st,
  backed hv st -> backed hv (fold_left (Analyze.parse_line hv) lines st).
Proof.
  induction lines as [|raw lines IH]; intros st Hst; simpl; [exact Hst|].
  apply IH. now apply parse_line_backed.
Qed.

Lemma parse_hosts_ini_ok base w w' hosts groups :
  Analyze.parse_hosts_ini base w = (w', Ok (hosts, groups)) ->
  w' = w
  /\ exists text cur,
       fs_hosts w = Some text
       /\ fold_left (Analyze.parse_line (fs_host_vars w)) (PyStr.readlines text)
            ([], [], None) = (hosts, groups, cur).
Proof.
  unfold Analyze.parse_hosts_ini, bind, read_hosts, probe_dir, ret. simpl.
  destruct (fs_hosts w) as [text|]; [|discriminate].
  destruct (fold_left _ _ _) as [[hs gs] cur] eqn:E.
  intros H. injection H as <- <- <-. split; [reflexivity|].
  exists text, cur. now split.
Qed.

Lemma parse_hosts_ini_backed base w w' hosts groups :
  Analyze.parse_hosts_ini base w = (w', Ok (hosts, groups)) ->
  backed (fs_host_vars w) (hosts, groups, None).
Proof.
  intros H. apply parse_hosts_ini_ok in H. destruct H as [_ (text & cur & _ & E)].
  pose proof (parse_lines_backed (fs_host_vars w) (PyStr.readlines text)
                ([], [], None)) as B.
  rewrite E in B. simpl in *. apply B. repeat split.
  - intros h [].
  - intros g l h [].
  - constructor.
Qed.

(** A host line whose identifier has no variable file leaves no trace in
    the parsed model: the identifier is no key of the host model and no
    member of any group. *)
Lemma parse_hosts_ini_excludes_unbacked base w w' hosts groups h :
  Analyze.parse_hosts_ini base w = (w', Ok (hosts, groups)) ->
  host_has_file (fs_host_vars w) h = false ->
  ~ In h (Dict.keys hosts)
  /\ forall g l, In (g, l) groups -> ~ In h l.
Proof.
  intros H Hno. apply parse_hosts_ini_backed in H. destruct H as (Hh & Hg & _).
  split.
  - intros Hin. apply Hh in Hin. congruence.
  - intros g l Hin Hl. apply (Hg g l h Hin) in Hl. congruence.
Qed.

(** ** The loader *)

Lemma printed_nil w : printed w [] = w.
Proof. destruct w. unfold printed. simpl. now rewrite app_nil_r. Qed.

Lemma printed_printed w a b : printed (printed w a) b = printed w (a ++ b)%list.
Proof. unfold printed. simpl. now rewrite app_assoc. Qed.

Lemma dir_of_printed d w out : dir_of d (printed w out) = dir_of d w.
Proof. now destruct d. Qed.

(** A file the reader raises [ValueError] on ends the call; any other
    file is loaded, an error of the parser printed. *)
Lemma load_yaml_file_run base d name files f w :
  dir_of d w = Some files -> Dict.get name files = Some f ->
  Analyze.load_yaml_file base d name w
  = match f with
    | FValueError msg => (w, Raise (ValueError msg))
    | _ => (printed w (load_report base d name f), Ok (loaded f))
    end.
Proof.
  intros Hd Hf. unfold Analyze.load_yaml_file, bind, open_var_file.
  rewrite Hd, Hf. destruct f as [exc|v|msg]; simpl.
  - reflexivity.
  - unfold ret. now rewrite printed_nil.
  - reflexivity.
Qed.

Lemma read_names_all files names :
  first_value_error files names = None -> read_names files names = names.
Proof.
  induction names as [|n names IH]; simpl; [reflexivity|].
  destruct (Analyze.is_var_file n).
  - destruct (Dict.get n files) as [[exc|v|msg]|]; intros H;
      try discriminate; f_equal; now apply IH.
  - intros H. f_equal. now apply IH.
Qed.

(** The loop of [load_all_vars]: it runs up to the first file the reader
    raises [ValueError] on, or to the end. *)
Lemma load_loop_run base d files names : forall acc w,
  dir_of d w = Some files ->
  (forall n, In n names -> In n (Dict.keys files)) ->
  fold_m names
    (fun vars_data file_name =>
       if Analyze.is_var_file file_name
       then v <- Analyze.load_yaml_file base d file_name ;;
            ret (Dict.set file_name v vars_data)
       else ret vars_data)
    acc w
  = (printed w (load_output base d files (read_names files names)),
     match first_value_error files names with
     | Some msg => Raise (ValueError msg)
     | None => Ok (fold_left (load_step files) names acc)
     end).
Proof.
  induction names as [|n names IH]; intros acc w Hd Hin; simpl.
  - unfold ret. now rewrite printed_nil.
  - unfold bind at 1. unfold load_step at 2.
    destruct (Analyze.is_var_file n) eqn:Hv.
    + destruct (keys_get files n (Hin n (or_introl eq_refl))) as [f Hf].
      unfold bind at 1. rewrite (load_yaml_file_run base d n files f w Hd Hf).
      rewrite Hf.
      assert (Hgo : forall out v,
                (printed w out, @Ok value v)
                = (printed w (load_report base d n f), Ok (loaded f)) ->
                fold_m names
                  (fun vars_data file_name =>
                     if Analyze.is_var_file file_name
                     then v <- Analyze.load_yaml_file base d file_name ;;
                          ret (Dict.set file_name v vars_data)
                     else ret vars_data)
                  (Dict.set n (loaded f) acc) (printed w (load_report base d n f))
                = (printed w
                     (load_output base d files (n :: read_names files names)),
                   match first_value_error files names with
                   | Some msg => Raise (ValueError msg)
                   | None =>
                       Ok (fold_left (load_step files) names
                             (Dict.set n (loaded f) acc))
                   end)).
      { intros _ _ _. rewrite IH.
        - rewrite printed_printed. simpl load_output. now rewrite Hv, Hf.
        - now rewrite dir_of_printed.
        - intros m Hm. apply Hin. now right. }
      destruct f as [exc|v|msg].
      * unfold ret at 1. now apply (Hgo _ _ eq_refl).
      * unfold ret at 1. now apply (Hgo _ _ eq_refl).
      * simpl. now rewrite printed_nil.
    + unfold ret at 1. rewrite IH; auto.
      * simpl load_output. now rewrite Hv.
      * intros m Hm. apply Hin. now right.
Qed.

Lemma load_all_vars_general base d files w :
  dir_of d w = Some files ->
  Analyze.load_all_vars base d w
  = (printed w (load_output base d files (read_names files (Dict.keys files))),
     match first_value_error files (Dict.keys files) with
     | Some msg => Raise (ValueError msg)
     | None => Ok (fold_left (load_step files) (Dict.keys files) [])
     end).
Proof.
  intros Hd. unfold Analyze.load_all_vars, bind at 1, listdir. rewrite Hd.
  now apply load_loop_run.
Qed.

Lemma load_all_vars_run base d files w :
  dir_of d w = Some files ->
  first_value_error files (Dict.keys files) = None ->
  Analyze.load_all_vars base d w
  = (printed w (load_output base d files (Dict.keys files)),
     Ok (fold_left (load_step files) (Dict.keys files) [])).
Proof.
  intros Hd Hnone. rewrite (load_all_vars_general base d files w Hd).
  now rewrite Hnone, read_names_all.
Qed.

Lemma load_all_vars_raises base d files w msg :
  dir_of d w = Some files ->
  first_value_error files (Dict.keys files) = Some msg ->
  Analyze.load_all_vars base d w
  = (printed w (load_output base d files (read_names files (Dict.keys files))),
     Raise (ValueError msg)).
Proof.
  intros Hd Hsome. rewrite (load_all_vars_general base d files w Hd).
  now rewrite Hsome.
Qed.

Lemma load_all_vars_missing base d w :
  dir_of d w = None ->
  Analyze.load_all_vars base d w
  = (w, Raise (FileNotFoundError (PyStr.path_join base (dir_name d)))).
Proof.
  intros Hd. unfold Analyze.load_all_vars, bind, listdir. now rewrite Hd.
Qed.

Lemma get_load_steps files names : forall acc name,
  Dict.get name (fold_left (load_step files) names acc)
  = if Analyze.is_var_file name && existsb (String.eqb name) names
    then match Dict.get name files with
         | Some f => Some (loaded f)
         | None => Dict.get name acc
         end
    else Dict.get name acc.
Proof.
  induction names as [|n names IH]; intros acc name; simpl.
  - now rewrite andb_false_r.
  - rewrite IH. clear IH.
    assert (Hstep : Dict.get name (load_step files acc n)
                    = if String.eqb name n && Analyze.is_var_file n
                      then match Dict.get n files with
                           | Some f => Some (loaded f)
                           | None => Dict.get name acc
                           end
                      else Dict.get name acc).
    { unfold load_step. destruct (String.eqb_spec name n) as [->|Hne]; simpl.
      - destruct (Analyze.is_var_file n); [|reflexivity].
        destruct (Dict.get n files) as [f|]; [|reflexivity].
        apply get_set_same.
      - destruct (Analyze.is_var_file n); [|reflexivity].
        destruct (Dict.get n files) as [f|]; [|reflexivity].
        now apply get_set_other. }
    rewrite Hstep. clear Hstep.
    destruct (String.eqb_spec name n) as [->|Hne]; simpl.
    + destruct (Analyze.is_var_file n); simpl; [|reflexivity].
      destruct (Dict.get n files) as [f|]; [|now destruct (existsb _ _)].
      now destruct (existsb _ _).
    + reflexivity.
Qed.

Lemma existsb_eqb_In (k : string) (l : list string) :
  existsb (String.eqb k) l = true <-> In k l.
Proof.
  rewrite existsb_exists. split.
  - intros [x [Hx E]]. apply String.eqb_eq in E. now subst.
  - intros H. exists k. split; [exact H|apply String.eqb_refl].
Qed.

Lemma as_mappings_loop_world vars : forall acc w,
  exists r,
    fold_m vars
      (fun acc '(name, v) => m <- as_mapping name v ;; ret (acc ++ [(name, m)])%list)
      acc w = (w, r).
Proof.
  induction vars as [|[name v] vars IH]; intros acc w; simpl.
  - eexists. reflexivity.
  - unfold bind at 1. destruct v; simpl; unfold bind, raise, ret;
      try (eexists; reflexivity).
    apply IH.
Qed.

Lemma as_mappings_world vars w : exists r, as_mappings vars w = (w, r).
Proof. apply as_mappings_loop_world. Qed.

(** ** The report *)

(** A run of the analysis that returns a report read the membership file
    and both directories, and assembled the report from the parsed host
    model and the names of [host_vars]. *)
Lemma analyze_inventory_ok py_str base w w' report :
  Analyze.analyze_inventory py_str base w = (w', Ok report) ->
  exists hosts groups files dv iv,
    Analyze.parse_hosts_ini base w = (w, Ok (hosts, groups))
    /\ fs_host_vars w = Some files
    /\ report
       = fold_left
           (fun acc o => Dict.set o Analyze.orphan_record acc)
           (Analyze.orphans (Dict.keys hosts) (Dict.keys files))
           (fold_left
              (fun acc '(host, gs) =>
                 Dict.set host
                   (Analyze.host_record py_str host gs dv iv
                      (filter (fun '(host, gs) => (1 <? List.length gs)%nat) hosts)
                      (filter (fun host => negb (host_has_file (Some files) host))
                              (Dict.keys hosts)))
                   acc)
              hosts []).
Proof.
  unfold Analyze.analyze_inventory. unfold bind at 1.
  destruct (Analyze.parse_hosts_ini base w) as [w1 [[hosts groups]|e]] eqn:Hp;
    [|discriminate].
  destruct (parse_hosts_ini_ok _ _ _ _ _ Hp) as [-> _].
  unfold bind at 1.
  destruct (fs_group_vars w) as [gfiles|] eqn:Hg;
    [|rewrite (load_all_vars_missing base GroupVars w Hg); discriminate].
  rewrite (load_all_vars_general base GroupVars gfiles w Hg).
  destruct (first_value_error gfiles (Dict.keys gfiles)) as [msg|] eqn:Eg;
    [discriminate|].
  rewrite (read_names_all _ _ Eg).
  unfold bind at 1.
  destruct (fs_host_vars w) as [hfiles|] eqn:Hh.
  2:{ rewrite load_all_vars_missing; [discriminate|].
      now rewrite dir_of_printed. }
  rewrite (load_all_vars_general base HostVars hfiles); [|now rewrite dir_of_printed].
  destruct (first_value_error hfiles (Dict.keys hfiles)) as [msg|] eqn:Eh;
    [discriminate|].
  rewrite (read_names_all _ _ Eh).
  rewrite printed_printed.
  unfold bind at 1.
  match goal with |- context [as_mappings ?v ?w0] =>
    destruct (as_mappings_world v w0) as [r1 ->] end.
  destruct r1 as [gm|e]; [|discriminate].
  unfold bind at 1.
  match goal with |- context [as_mappings ?v ?w0] =>
    destruct (as_mappings_world v w0) as [r2 ->] end.
  destruct r2 as [hm|e]; [|discriminate].
  unfold bind, probe_dir, listdir, ret. simpl. rewrite Hh.
  intros H. injection H as _ <-.
  exists hosts, groups, hfiles,
    (Analyze.check_duplicate_vars gm hm), (Analyze.check_inconsistent_values gm hm).
  repeat split; reflexivity.
Qed.

Section ReportFacts.
Context {A V : Type}.
Variable f : string -> A -> V.

Lemma get_fold_records (items : list (string * A)) : forall acc k,
  NoDup (Dict.keys items) ->
  Dict.get k (fold_left (fun acc '(h, a) => Dict.set h (f h a) acc) items acc)
  = match Dict.get k items with
    | Some a => Some (f k a)
    | None => Dict.get k acc
    end.
Proof.
  induction items as [|[h a] items IH]; intros acc k Hnd; simpl; [reflexivity|].
  inversion Hnd as [|? ? Hnot Hnd']; subst.
  rewrite IH by assumption.
  destruct (String.eqb_spec k h) as [->|Hne].
  - apply get_None_keys in Hnot. rewrite Hnot. apply get_set_same.
  - now rewrite get_set_other.
Qed.

Lemma In_fold_records (items : list (string * A)) : forall acc k r,
  In (k, r) (fold_left (fun acc '(h, a) => Dict.set h (f h a) acc) items acc) ->
  In (k, r) acc \/ exists a, In (k, a) items /\ r = f k a.
Proof.
  induction items as [|[h a] items IH]; intros acc k r; simpl; [now left|].
  intros H. apply IH in H. destruct H as [H|[b [Hb ->]]].
  - apply In_set in H. destruct H as [[-> ->]|H]; [|now left].
    right. exists a. split; [now left|reflexivity].
  - right. exists b. split; [now right|reflexivity].
Qed.

Lemma keys_fold_records_nodup (items : list (string * A)) : forall acc,
  NoDup (Dict.keys acc) ->
  NoDup (Dict.keys
           (fold_left (fun acc '(h, a) => Dict.set h (f h a) acc) items acc)).
Proof.
  induction items as [|[h a] items IH]; intros acc Hnd; simpl; [exact Hnd|].
  apply IH. now apply keys_set_nodup.
Qed.
End ReportFacts.

Section OrphanFacts.
Context {V : Type}.
Variable r0 : V.

Lemma get_fold_const (os : list string) : forall (acc : list (string * V)) k,
  Dict.get k (fold_left (fun acc o => Dict.set o r0 acc) os acc)
  = if existsb (String.eqb k) os then Some r0 else Dict.get k acc.
Proof.
  induction os as [|o os IH]; intros acc k; simpl; [reflexivity|].
  rewrite IH. destruct (String.eqb_spec k o) as [->|Hne]; simpl.
  - rewrite get_set_same. now destruct (existsb _ _).
  - now rewrite get_set_other.
Qed.

Lemma In_fold_const (os : list string) : forall (acc : list (string * V)) k r,
  In (k, r) (fold_left (fun acc o => Dict.set o r0 acc) os acc) ->
  In (k, r) acc \/ (In k os /\ r = r0).
Proof.
  induction os as [|o os IH]; intros acc k r; simpl; [now left|].
  intros H. apply IH in H. destruct H as [H|[H ->]].
  - apply In_set in H. destruct H as [[-> ->]|H]; [|now left].
    right. split; [now left|reflexivity].
  - right. split; [now right|reflexivity].
Qed.

Lemma keys_fold_const_nodup (os : list string) : forall (acc : list (string * V)),
  NoDup (Dict.keys acc) ->
  NoDup (Dict.keys (fold_left (fun acc o => Dict.set o r0 acc) os acc)).
Proof.
  induction os as [|o os IH]; intros acc Hnd; simpl; [exact Hnd|].
  apply IH. now apply keys_set_nodup.
Qed.
End OrphanFacts.

Lemma In_orphans defined names : forall acc stem,
  In stem
     (fold_left
        (fun orphaned_files file_name =>
           if Analyze.is_var_file file_name
           then
             let host_name := fst (PyStr.splitext file_name) in
             if negb (existsb (String.eqb host_name) defined)
             then (orphaned_files ++ [host_name])%list
             else orphaned_files
           else orphaned_files)
        names acc)
  <-> In stem acc
      \/ exists file_name,
           In file_name names /\ Analyze.is_var_file file_name = true
           /\ stem = fst (PyStr.splitext file_name) /\ ~ In stem defined.
Proof.
  induction names as [|n names IH]; intros acc stem; simpl.
  - split; [now left|]. intros [H|[x [[] _]]]. exact H.
  - rewrite IH. clear IH. split.
    + intros [H|[x (Hx & Hv & E & Hd)]].
      * destruct (Analyze.is_var_file n) eqn:Hv; [|now left].
        destruct (existsb (String.eqb (fst (PyStr.splitext n))) defined) eqn:Hd;
          simpl in H; [now left|].
        apply in_app_iff in H. destruct H as [H|[<-|[]]]; [now left|].
        right. exists n. repeat split; auto.
        intros Hin. apply existsb_eqb_In in Hin. congruence.
      * right. exists x. auto.
    + intros [H|[x ([<-|Hx] & Hv & E & Hd)]].
      * left. destruct (Analyze.is_var_file n); [|exact H].
        destruct (negb _); [|exact H]. apply in_app_iff. now left.
      * left. rewrite Hv.
        assert (Hex : existsb (String.eqb (fst (PyStr.splitext n))) defined = false).
        { destruct (existsb _ _) eqn:Hx; [|reflexivity].
          apply existsb_eqb_In in Hx. subst stem. contradiction. }
        rewrite Hex. simpl. apply in_app_iff. right. left. now symmetry.
      * right. exists x. auto.
Qed.

Lemma orphans_spec defined names stem :
  In stem (Analyze.orphans defined names)
  <-> exists file_name,
        In file_name names /\ Analyze.is_var_file file_name = true
        /\ stem = fst (PyStr.splitext file_name) /\ ~ In stem defined.
Proof.
  unfold Analyze.orphans. rewrite In_orphans. simpl. tauto.
Qed.

Lemma get_filter_nodup {V} (P : string * V -> bool) (d : list (string * V)) k v :
  NoDup (Dict.keys d) -> Dict.get k d = Some v ->
  Dict.get k (filter P d) = if P (k, v) then Some v else None.
Proof.
  induction d as [|[k0 v0] d IH]; simpl; [discriminate|].
  intros Hnd. inversion Hnd as [|? ? Hnot Hnd']; subst.
  destruct (String.eqb_spec k k0) as [->|Hne].
  - intros H. injection H as ->. destruct (P (k0, v)) eqn:HP; simpl.
    + now rewrite String.eqb_refl.
    + apply get_None_keys. intros Hin. apply Hnot.
      unfold Dict.keys in *. apply in_map_iff in Hin.
      destruct Hin as [[k1 v1] [E Hin]]. simpl in E. subst k1.
      apply filter_In in Hin. destruct Hin as [Hin _].
      now apply (in_map fst) in Hin.
  - intros H. destruct (P (k0, v0)); simpl.
    + destruct (String.eqb_spec k k0); [contradiction|]. now apply IH.
    + now apply IH.
Qed.

Lemma filter_key_nodup {V} (d : list (string * V)) k v :
  NoDup (Dict.keys d) -> Dict.get k d = Some v ->
  filter (fun e => String.eqb (fst e) k) d = [(k, v)].
Proof.
  induction d as [|[k0 v0] d IH]; simpl; [discriminate|].
  intros Hnd. inversion Hnd as [|? ? Hnot Hnd']; subst.
  destruct (String.eqb_spec k k0) as [->|Hne].
  - intros H. injection H as ->. rewrite String.eqb_refl. f_equal.
    clear IH Hnd Hnd'. induction d as [|[k1 v1] d IH]; simpl; [reflexivity|].
    destruct (String.eqb_spec k1 k0) as [->|Hk].
    + exfalso. apply Hnot. now left.
    + apply IH. intros Hin. apply Hnot. now right.
  - intros H. destruct (String.eqb_spec k0 k) as [E|_]; [now subst|].
    now apply IH.
Qed.

Lemma contains_char_app c s t :
  PyStr.contains_char c (s ++ t) = PyStr.contains_char c s || PyStr.contains_char c t.
Proof.
  induction s as [|d s IH]; simpl; [reflexivity|].
  rewrite IH. now rewrite orb_assoc.
Qed.

Lemma join_two_has_comma a b l :
  PyStr.contains_char "," (PyStr.join ", " (a :: b :: l)) = true.
Proof.
  unfold PyStr.join.
  change (String.concat ", " (a :: b :: l))
    with (a ++ ", " ++ String.concat ", " (b :: l)).
  rewrite contains_char_app. simpl. now rewrite orb_true_r.
Qed.

(** The record of a host of the model, as the report holds it. *)
Lemma host_record_in_report
  (py_str : value -> string) (base : string) (w w' : world) (report : report)
  (hosts groups : list (string * list string)) (host : string) (gs : list string) :
  Analyze.analyze_inventory py_str base w = (w', Ok report) ->
  Analyze.parse_hosts_ini base w = (w, Ok (hosts, groups)) ->
  Dict.get host hosts = Some gs ->
  NoDup (Dict.keys hosts)
  /\ exists dv iv mf,
       Dict.get host report
       = Some (Analyze.host_record py_str host gs dv iv
                 (filter (fun '(host, gs) => (1 <? List.length gs)%nat) hosts) mf).
Proof.
  intros Hrun Hparse Hhost.
  destruct (analyze_inventory_ok _ _ _ _ _ Hrun)
    as (hosts' & groups' & files & dv & iv & Hp & Hf & ->).
  rewrite Hparse in Hp. injection Hp as <- <-.
  destruct (parse_hosts_ini_backed _ _ _ _ _ Hparse) as (Hback & _ & Hnd).
  split; [exact Hnd|].
  set (dh := filter (fun '(host, gs) => (1 <? List.length gs)%nat) hosts).
  set (mf := filter _ (Dict.keys hosts)).
  exists dv, iv, mf.
  rewrite get_fold_const.
  assert (Hno : existsb (String.eqb host)
                  (Analyze.orphans (Dict.keys hosts) (Dict.keys files)) = false).
  { destruct (existsb _ _) eqn:E; [|reflexivity].
    apply existsb_eqb_In, orphans_spec in E.
    destruct E as (n & _ & _ & _ & Hnot). exfalso. apply Hnot.
    now apply get_Some_keys in Hhost. }
  rewrite Hno.
  rewrite (get_fold_records
             (fun h a => Analyze.host_record py_str h a dv iv dh mf) hosts [] host Hnd).
  now rewrite Hhost.
Qed.

Lemma duplicated_host_of_record py_str host gs dv iv hosts mf :
  NoDup (Dict.keys hosts) -> Dict.get host hosts = Some gs ->
  Duplicated_Host
    (Analyze.host_record py_str host gs dv iv
       (filter (fun '(host, gs) => (1 <? List.length gs)%nat) hosts) mf)
  = if (1 <? List.length gs)%nat then PyStr.join ", " gs
    else "No duplication in groups".
Proof.
  intros Hnd Hhost. unfold Analyze.host_record. simpl Duplicated_Host.
  rewrite (get_filter_nodup _ hosts host gs Hnd Hhost).
  now destruct (1 <? List.length gs)%nat.
Qed.

Lemma joined_groups_not_sentinel (gs : list string) :
  1 < List.length gs -> PyStr.join ", " gs <> "No duplication in groups".
Proof.
  intros Hlen E. destruct gs as [|a [|b l]]; simpl in Hlen; try lia.
  pose proof (join_two_has_comma a b l) as Hc. rewrite E in Hc. discriminate.
Qed.

(** C6 -- For every host of the parsed model, the "Duplicated Host" field
    of its record differs from the sentinel "No duplication in groups"
    exactly when the group list of the host has more than one entry
    (every appearance counts, also twice in one group), and it is then
    that list, in order, joined by ", ". *)
Theorem duplicated_host_characterisation
  (py_str : value -> string) (base : string) (w w' : world) (report : report)
  (hosts groups : list (string * list string)) (host : string) (gs : list string)
  (Hrun : Analyze.analyze_inventory py_str base w = (w', Ok report))
  (Hparse : Analyze.parse_hosts_ini base w = (w, Ok (hosts, groups)))
  (Hhost : Dict.get host hosts = Some gs) :
  exists r,
    Dict.get host report = Some r
    /\ (Duplicated_Host r <> "No duplication in groups" <-> 1 < List.length gs)
    /\ (1 < List.length gs -> Duplicated_Host r = PyStr.join ", " gs).
Proof.
  destruct (host_record_in_report _ _ _ _ _ _ _ _ _ Hrun Hparse Hhost)
    as (Hnd & dv & iv & mf & Hget).
  eexists. split; [exact Hget|].
  rewrite (duplicated_host_of_record py_str host gs dv iv hosts mf Hnd Hhost).
  destruct (1 <? List.length gs)%nat eqn:Hlen.
  - apply Nat.ltb_lt in Hlen. split; [|reflexivity].
    split; [intros _; exact Hlen|].
    intros _. now apply joined_groups_not_sentinel.
  - apply Nat.ltb_ge in Hlen. split; [|lia].
    split; [intros H; now contradiction H|lia].
Qed.

Lemma duplicated_host_characterisation_witness :
  exists r,
    Dict.get "web" twice_listed_report = Some r
    /\ (Duplicated_Host r <> "No duplication in groups"
        <-> 1 < List.length ["web"; "web"])
    /\ (1 < List.length ["web"; "web"]
        -> Duplicated_Host r = PyStr.join ", " ["web"; "web"]).
Proof.
  apply (duplicated_host_characterisation scalar_str "inv" twice_listed twice_listed
           twice_listed_report [("web", ["web"; "web"])] [("web", ["web"; "web"])]
           "web" ["web"; "web"]); reflexivity.
Defined.



(** ** The membership rewrite *)

Lemma append_assoc (a b c : string) : (a ++ b) ++ c = a ++ b ++ c.
Proof. induction a as [|x a IH]; simpl; [reflexivity|now rewrite IH]. Qed.

Lemma append_nil_r (a : string) : a ++ "" = a.
Proof. induction a as [|x a IH]; simpl; [reflexivity|now rewrite IH]. Qed.

Lemma clean_line_run analysis_results line w acc :
  fs_hosts w = Some acc ->
  exists out,
    Clean.clean_line analysis_results line w
    = (mkWorld (Some (if kept_line analysis_results line then acc ++ line else acc))
               (fs_group_vars w) (fs_host_vars w) (fs_stdout w ++ out)%list,
       Ok tt).
Proof.
  intros Hacc. unfold Clean.clean_line, kept_line, is_host_line, is_blank,
    is_comment, is_header, flagged, Clean.passes_through.
  destruct (String.eqb (PyStr.strip line) "" || PyStr.startswith "#" (PyStr.strip line)
            || PyStr.startswith "[" (PyStr.strip line)); simpl.
  - exists []. unfold write_hosts. now rewrite Hacc, app_nil_r.
  - destruct (Dict.get _ analysis_results) as [r|]; simpl.
    + destruct (String.eqb (Duplicated_Host r) "No duplication in groups"); simpl.
      * destruct (String.eqb (Missing_File_in_host_vars r) "Yes"); simpl.
        -- eexists [_]. unfold print. now rewrite Hacc.
        -- exists []. unfold write_hosts. now rewrite Hacc, app_nil_r.
      * eexists [_]. unfold print. now rewrite Hacc.
    + exists []. unfold write_hosts. now rewrite Hacc, app_nil_r.
Qed.

Lemma clean_lines_run analysis_results lines : forall w acc,
  fs_hosts w = Some acc ->
  exists out,
    for_each lines (Clean.clean_line analysis_results) w
    = (mkWorld (Some (acc ++ written (filter (kept_line analysis_results) lines)))
               (fs_group_vars w) (fs_host_vars w) (fs_stdout w ++ out)%list,
       Ok tt).
Proof.
  induction lines as [|line lines IH]; intros w acc Hacc; simpl.
  - exists []. unfold ret. destruct w; simpl in *.
    now rewrite Hacc, append_nil_r, app_nil_r.
  - unfold bind.
    destruct (clean_line_run analysis_results line w acc Hacc) as [out1 ->].
    match goal with |- context [for_each lines _ ?w1] =>
      destruct (IH w1 (if kept_line analysis_results line then acc ++ line else acc)
                  eq_refl) as [out2 ->] end.
    simpl. exists (out1 ++ out2)%list. rewrite app_assoc.
    destruct (kept_line analysis_results line); simpl; [|reflexivity].
    now rewrite append_assoc.
Qed.

(** [clean_hosts] rewrites the membership file to the lines of the old
    one for which [kept_line] holds, in order and with their text
    unchanged: blank lines, comments and every line whose text starts
    with a bracket stay; any other line is dropped exactly when the
    record of its first token has a "Duplicated Host" other than the
    sentinel or "Missing File in host_vars" at "Yes", and stays as it is
    otherwise.  The variable directories are untouched.  For the file
    with [web] listed twice under [[web]] and [host_vars/web.yml]
    present, the analysis flags [web] and the rewrite leaves the header
    alone. *)
Lemma membership_rewrite_rule
  (base : string) (analysis_results : report) (w : world) (text : string)
  (Hfile : fs_hosts w = Some text) :
  (exists out,
      Clean.clean_hosts base analysis_results w
      = (mkWorld
           (Some (written (filter (kept_line analysis_results) (PyStr.readlines text))))
           (fs_group_vars w) (fs_host_vars w) (fs_stdout w ++ out)%list,
         Ok tt))
  /\ (forall line,
        In line (PyStr.readlines text) -> is_host_line line = false ->
        In line (filter (kept_line analysis_results) (PyStr.readlines text)))
  /\ (forall line,
        In line (PyStr.readlines text) -> is_host_line line = true ->
        (In line (filter (kept_line analysis_results) (PyStr.readlines text))
         <-> flagged analysis_results (PyStr.first_token (PyStr.strip line)) = false))
  /\ (Analyze.analyze_inventory scalar_str "inv" twice_listed
      = (twice_listed, Ok twice_listed_report)
      /\ exists out,
           Clean.clean_hosts "inv" twice_listed_report twice_listed
           = (mkWorld (Some ("[web]" ++ nl)) (fs_group_vars twice_listed)
                      (fs_host_vars twice_listed) out,
              Ok tt)).
Proof.
  split; [|split; [|split]].
  - unfold Clean.clean_hosts, bind at 1, read_hosts. rewrite Hfile.
    unfold bind at 1, truncate_hosts. unfold bind at 1.
    match goal with |- context [for_each _ _ ?w1] =>
      destruct (clean_lines_run analysis_results (PyStr.readlines text) w1 ""
                  eq_refl) as [out ->] end.
    simpl. exists (out ++ ["Completed cleaning hosts.ini for duplicated and inconsistent entries."])%list.
    unfold print. simpl. now rewrite app_assoc.
  - intros line Hin Hk. apply filter_In. split; [exact Hin|].
    unfold kept_line. now rewrite Hk.
  - intros line Hin Hk. rewrite filter_In. unfold kept_line. rewrite Hk.
    rewrite negb_true_iff. tauto.
  - split; [reflexivity|].
    exists ["Removing duplicated host 'web' from group definitions in hosts.ini";
            "Removing duplicated host 'web' from group definitions in hosts.ini";
            "Completed cleaning hosts.ini for duplicated and inconsistent entries."].
    reflexivity.
Qed.

Lemma membership_rewrite_rule_witness :
  exists out,
    Clean.clean_hosts "inv" twice_listed_report twice_listed
    = (mkWorld (Some ("[web]" ++ nl)) (Some []) (Some [("web.yml", FDoc (VMap []))]) out,
       Ok tt).
Proof.
  destruct (membership_rewrite_rule "inv" twice_listed_report twice_listed
              ("[web]" ++ nl ++ "web" ++ nl ++ "web" ++ nl) eq_refl)
    as [[out Hrun] _].
  exists (fs_stdout twice_listed ++ out)%list. exact Hrun.
Defined.

(** C5, at the input where it breaks -- [hosts] lists [[a] twice under
    [[web]] and [host_vars] holds [[a.yml].  The line [[a] is no header:
    it has no closing bracket, and the parser, which asks for both
    brackets, reads it as a host line and the host [[a] as listed twice.
    The analysis flags the host with "Duplicated Host" at "web, web".
    [clean_hosts] asks for the opening bracket only, takes both lines for
    headers and writes them back: a host line whose first token is
    flagged is not dropped. *)
Theorem flagged_bracket_line_is_kept :
  is_skipped ("[a" ++ nl) = false
  /\ is_group_header ("[a" ++ nl) = false
  /\ Analyze.parse_hosts_ini "inv" bracket_host
     = (bracket_host, Ok ([("[a", ["web"; "web"])], [("web", ["[a"; "[a"])]))
  /\ Analyze.analyze_inventory scalar_str "inv" bracket_host
     = (bracket_host, Ok bracket_host_report)
  /\ PyStr.first_token (PyStr.strip ("[a" ++ nl)) = "[a"
  /\ flagged bracket_host_report "[a" = true
  /\ Clean.passes_through (PyStr.strip ("[a" ++ nl)) = true
  /\ snd (Clean.clean_hosts "inv" bracket_host_report bracket_host) = Ok tt
  /\ fs_hosts (fst (Clean.clean_hosts "inv" bracket_host_report bracket_host))
     = Some ("[web]" ++ nl ++ "[a" ++ nl ++ "[a" ++ nl).
Proof. repeat split. Qed.

(** ** The variable-file rewrite *)

Lemma remove_var_run kind path ci host_data var w :
  exists out host_data',
    Clean.remove_var kind path ci host_data var w = (printed w out, Ok host_data')
    /\ forall k, Dict.get var ci <> Some k ->
                 Dict.get k host_data' = Dict.get k host_data.
Proof.
  unfold Clean.remove_var.
  destruct (Dict.get var ci) as [original_var|] eqn:Hci.
  - destruct (negb (String.eqb original_var "") && Dict.mem original_var host_data).
    + eexists [_], _. split; [reflexivity|].
      intros k Hk. apply get_del_other. congruence.
    + exists [], host_data. unfold ret. rewrite printed_nil. auto.
  - exists [], host_data. unfold ret. rewrite printed_nil. auto.
Qed.

Lemma remove_vars_run kind path ci vars : forall host_data w,
  exists out host_data',
    Clean.remove_vars kind path ci vars host_data w = (printed w out, Ok host_data')
    /\ forall k,
         (forall var, In var vars -> Dict.get var ci <> Some k) ->
         Dict.get k host_data' = Dict.get k host_data.
Proof.
  unfold Clean.remove_vars.
  induction vars as [|var vars IH]; intros host_data w; simpl.
  - exists [], host_data. unfold ret. rewrite printed_nil. auto.
  - unfold bind.
    destruct (remove_var_run kind path ci host_data var w) as (o1 & m1 & -> & K1).
    destruct (IH m1 (printed w o1)) as (o2 & m2 & -> & K2).
    exists (o1 ++ o2)%list, m2. split; [now rewrite printed_printed|].
    intros k Hk. rewrite K2.
    + apply K1. apply Hk. now left.
    + intros v Hv. apply Hk. now right.
Qed.

Lemma clean_one_host_missing base host analysis w :
  file_exists (fs_host_vars w) (host ++ ".yml") = false ->
  Clean.clean_one_host base host analysis w
  = (printed w [skip_warning base host], Ok tt).
Proof.
  intros Hno. unfold Clean.clean_one_host, bind at 1, try_file_not_found.
  unfold bind at 1, Clean.load_yaml_file, bind at 1, open_var_file. simpl dir_of.
  unfold file_exists, Dict.mem in Hno.
  destruct (fs_host_vars w) as [files|].
  - destruct (Dict.get (host ++ ".yml") files); [discriminate|]. reflexivity.
  - reflexivity.
Qed.

Lemma bind_ok {A B} (m : M A) (f : A -> M B) w w' a :
  m w = (w', Ok a) -> bind m f w = f a w'.
Proof. intros H. unfold bind. now rewrite H. Qed.

Lemma bind_raise {A B} (m : M A) (f : A -> M B) w w' e :
  m w = (w', Raise e) -> bind m f w = (w', Raise e).
Proof. intros H. unfold bind. now rewrite H. Qed.

Lemma try_ok {A} (m h : M A) w w' a :
  m w = (w', Ok a) -> try_file_not_found m h w = (w', Ok a).
Proof. intros H. unfold try_file_not_found. now rewrite H. Qed.

Lemma clean_load_yaml_file_run base d name files f w :
  dir_of d w = Some files -> Dict.get name files = Some f ->
  Clean.load_yaml_file base d name w
  = match f with
    | FValueError msg => (w, Raise (ValueError msg))
    | _ => (printed w (load_report base d name f), Ok (loaded f))
    end.
Proof.
  intros Hd Hf. unfold Clean.load_yaml_file, bind, open_var_file.
  rewrite Hd, Hf. destruct f as [exc|v|msg]; simpl.
  - reflexivity.
  - unfold ret. now rewrite printed_nil.
  - reflexivity.
Qed.

(** The guarded load at the head of the step of [clean_host_vars]: a file
    that is there and that the reader does not raise [ValueError] on is
    loaded; the [ValueError] is not caught. *)
Lemma guarded_load_run base host files f w :
  fs_host_vars w = Some files ->
  Dict.get (host ++ ".yml") files = Some f ->
  (forall msg, f <> FValueError msg) ->
  try_file_not_found
    (v <- Clean.load_yaml_file base HostVars (host ++ ".yml") ;; ret (Some v))
    (print ("Warning: Host file '"
            ++ PyStr.path_join (PyStr.path_join base "host_vars") (host ++ ".yml")
            ++ "' not found. Skipping this host.") ;; ret None) w
  = (printed w (load_report base HostVars (host ++ ".yml") f), Ok (Some (loaded f))).
Proof.
  intros Hd Hf Hread. apply try_ok. erewrite bind_ok; [reflexivity|].
  rewrite (clean_load_yaml_file_run base HostVars _ files f w Hd Hf).
  destruct f as [exc|v|msg]; try reflexivity. now contradiction (Hread msg).
Qed.

Lemma clean_one_host_value_error base host analysis files msg w :
  fs_host_vars w = Some files ->
  Dict.get (host ++ ".yml") files = Some (FValueError msg) ->
  Clean.clean_one_host base host analysis w = (w, Raise (ValueError msg)).
Proof.
  intros Hd Hf. unfold Clean.clean_one_host. apply bind_raise.
  unfold try_file_not_found.
  rewrite (bind_raise _ _ w w (ValueError msg)); [reflexivity|].
  now rewrite (clean_load_yaml_file_run base HostVars _ files _ w Hd Hf).
Qed.

Lemma loaded_mapping_readable f (m : mapping) :
  loaded f = VMap m -> forall msg, f <> FValueError msg.
Proof. intros Hl msg ->. discriminate. Qed.

Lemma removal_run (flag : bool) kind path ci vars host_data w :
  exists out host_data',
    (if flag then Clean.remove_vars kind path ci vars host_data else ret host_data) w
    = (printed w out, Ok host_data')
    /\ forall k,
         (forall var, In var vars -> Dict.get var ci <> Some k) ->
         Dict.get k host_data' = Dict.get k host_data.
Proof.
  destruct flag.
  - apply remove_vars_run.
  - exists [], host_data. unfold ret. rewrite printed_nil. auto.
Qed.

(** A host whose [.yml] file is there: either the step ends with an
    exception and has written nothing (the document is no mapping, or the
    reader raised [ValueError]), or the file is rewritten with a mapping
    that still has every key no flagged name stands for, and nothing else
    is written. *)
Lemma clean_one_host_present base host analysis w files f :
  fs_host_vars w = Some files ->
  Dict.get (host ++ ".yml") files = Some f ->
  (exists out e,
      Clean.clean_one_host base host analysis w = (printed w out, Raise e)
      /\ forall m, loaded f <> VMap m)
  \/ (exists out host_data host_data',
        loaded f = VMap host_data
        /\ Clean.clean_one_host base host analysis w
           = (mkWorld (fs_hosts w) (fs_group_vars w)
                (Some (Dict.set (host ++ ".yml") (FDoc (VMap host_data')) files))
                (fs_stdout w ++ out)%list,
              Ok tt)
        /\ forall k,
             (forall var,
                 In var (Clean.flagged_names (Duplicated_Variables analysis)
                         ++ Clean.flagged_names (Inconsistent_Variables analysis))%list ->
                 Dict.get var (Clean.lower_index host_data) <> Some k) ->
             Dict.get k host_data' = Dict.get k host_data).
Proof.
  intros Hd Hf.
  assert (Hbad : (exists msg, f = FValueError msg) \/ forall msg, f <> FValueError msg).
  { destruct f as [exc|v|msg]; [right|right|left; now exists msg]; discriminate. }
  destruct Hbad as [[msg ->]|Hread].
  { left. exists [], (ValueError msg). rewrite printed_nil. split.
    - now apply clean_one_host_value_error with (files := files).
    - intros m. discriminate. }
  unfold Clean.clean_one_host.
  rewrite (bind_ok _ _ _ _ _ (guarded_load_run base host files f w Hd Hf Hread)).
  set (out0 := load_report base HostVars (host ++ ".yml") f).
  destruct (loaded f) as [| |z|t|l|m] eqn:Hl;
    try (left; exists out0; eexists; split; [reflexivity|intros m; discriminate]).
  right. simpl as_mapping.
  erewrite bind_ok; [|reflexivity].
  destruct (removal_run
              (negb (String.eqb (Duplicated_Variables analysis) "No duplicated variables"))
              "duplicated"
              (PyStr.path_join (PyStr.path_join base "host_vars") (host ++ ".yml"))
              (Clean.lower_index m)
              (Clean.flagged_names (Duplicated_Variables analysis)) m
              (printed w out0)) as (out1 & m1 & H1 & K1).
  rewrite (bind_ok _ _ _ _ _ H1).
  destruct (removal_run
              (negb (String.eqb (Inconsistent_Variables analysis)
                       "No inconsistent variables"))
              "inconsistent"
              (PyStr.path_join (PyStr.path_join base "host_vars") (host ++ ".yml"))
              (Clean.lower_index m)
              (Clean.flagged_names (Inconsistent_Variables analysis)) m1
              (printed (printed w out0) out1)) as (out2 & m2 & H2 & K2).
  rewrite (bind_ok _ _ _ _ _ H2).
  exists (out0 ++ out1 ++ out2)%list, m, m2. split; [reflexivity|]. split.
  - unfold Clean.save_yaml_file, write_var_file. simpl. rewrite Hd.
    unfold with_dir. simpl. now rewrite <- !app_assoc.
  - intros k Hk. rewrite K2, K1; auto.
    + intros v Hv. apply Hk. apply in_app_iff. now left.
    + intros v Hv. apply Hk. apply in_app_iff. now right.
Qed.

Lemma host_var_file_printed w out name :
  host_var_file (printed w out) name = host_var_file w name.
Proof. reflexivity. Qed.

(** For a host named by a file name, as the files of [host_vars] are
    named [<host>.yml], the variable-file rewrite looks for
    [host_vars/<host>.yml] and for nothing else.  When that file is not
    there (whether or not [<host>.yaml] is), the step for the host prints
    the warning, writes nothing and ends normally, and the loop goes on
    with the hosts that follow.  Whatever the step for such a host does,
    it leaves the membership file, [group_vars] and every file of
    [host_vars] other than [<host>.yml] as they were.  The guard of the
    step is for [FileNotFoundError] alone: a path that names nothing for
    another reason (a component that is a regular file) is outside this
    statement, and outside the embedding. *)
Lemma missing_host_file_is_skipped
  (base host : string) (analysis : defect) (rest : report) (w : world)
  (Hname : is_file_name host = true)
  (Hmissing : host_var_file w (host ++ ".yml") = None) :
  Clean.clean_one_host base host analysis w
  = (printed w [skip_warning base host], Ok tt)
  /\ Clean.clean_host_vars base ((host, analysis) :: rest) w
     = Clean.clean_host_vars base rest (printed w [skip_warning base host])
  /\ (forall w0 w1 r name,
        Clean.clean_one_host base host analysis w0 = (w1, r) ->
        name <> host ++ ".yml" ->
        host_var_file w1 name = host_var_file w0 name
        /\ fs_hosts w1 = fs_hosts w0
        /\ fs_group_vars w1 = fs_group_vars w0).
Proof.
  assert (Hskip : forall w0, host_var_file w0 (host ++ ".yml") = None ->
            Clean.clean_one_host base host analysis w0
            = (printed w0 [skip_warning base host], Ok tt)).
  { intros w0 H0. apply clean_one_host_missing.
    unfold host_var_file in H0. unfold file_exists, Dict.mem.
    destruct (fs_host_vars w0) as [files|]; [|reflexivity]. now rewrite H0. }
  split; [now apply Hskip|]. split.
  - unfold Clean.clean_host_vars. simpl for_each.
    now rewrite (bind_ok _ _ _ _ _ (Hskip w Hmissing)).
  - intros w0 w1 r name Hrun Hother.
    destruct (host_var_file w0 (host ++ ".yml")) as [f|] eqn:Hf.
    + unfold host_var_file in Hf.
      destruct (fs_host_vars w0) as [files|] eqn:Hd; [|discriminate].
      destruct (clean_one_host_present base host analysis w0 files f Hd Hf)
        as [(out & e & Hr & _)|(out & m & m' & _ & Hr & _)];
        rewrite Hr in Hrun; injection Hrun as <- _.
      * now rewrite host_var_file_printed.
      * unfold host_var_file. simpl. rewrite Hd.
        now rewrite (get_set_other files (host ++ ".yml") name _ Hother).
    + rewrite (Hskip w0 Hf) in Hrun. injection Hrun as <- _.
      now rewrite host_var_file_printed.
Qed.

Lemma missing_host_file_is_skipped_witness :
  host_var_file yaml_only "db1.yaml" <> None
  /\ Clean.clean_host_vars "inv" yaml_only_report yaml_only
     = (printed yaml_only [skip_warning "inv" "db1"], Ok tt).
Proof.
  split; [discriminate|].
  destruct (missing_host_file_is_skipped "inv" "db1"
              (mkDefect "db" "port (in db.yml and db1)" "No inconsistent variables"
                 "No duplication in groups" "No" "No")
              [] yaml_only eq_refl eq_refl) as (_ & Hbatch & _).
  exact Hbatch.
Defined.

(** ** The loader, file by file *)

Example load_mixed_files :
  Analyze.load_all_vars "inv" HostVars mixed_files
  = (printed mixed_files
       ["Error loading inv/host_vars/bad.yml: mapping values are not allowed here"],
     Ok [("bad.yml", VMap []); ("list.yml", VList [VStr "a"]); ("empty.yaml", VMap []);
         ("ok.yml", VMap [("port", VInt 80)])]).
Proof. reflexivity. Qed.

(** Not every entry of the loader's output is a mapping: a file whose
    document is a sequence comes out as that sequence. *)
Lemma loader_output_not_always_mapping :
  ~ (forall w' vars,
        Analyze.load_all_vars "inv" HostVars mixed_files = (w', Ok vars) ->
        forall name v, Dict.get name vars = Some v -> exists m, v = VMap m).
Proof.
  intros H.
  destruct (H _ _ load_mixed_files "list.yml" (VList [VStr "a"]) eq_refl) as [m E].
  discriminate.
Qed.

(** Loading a directory that exists, no file of which makes the reader
    raise [ValueError], returns and changes nothing but the output.  The
    result has an entry for exactly the names of the directory that end
    in [.yaml] or [.yml].  A file the YAML reader rejects with
    [yaml.YAMLError] is reported and gets the empty mapping, and the
    files after it are loaded all the same; a file whose document is
    falsy (an empty file, an empty sequence, ...) gets the empty mapping;
    any other file gets its document as it is, which is a mapping when
    the document is one and a sequence or a scalar otherwise. *)
Lemma loader_tolerates_unparsable_files
  (base : string) (d : vars_dir) (w : world) (files : directory)
  (Hdir : dir_of d w = Some files)
  (Hread : first_value_error files (Dict.keys files) = None) :
  exists out vars,
    Analyze.load_all_vars base d w = (printed w out, Ok vars)
    /\ (forall name,
          In name (Dict.keys vars)
          <-> In name (Dict.keys files) /\ Analyze.is_var_file name = true)
    /\ (forall name exc,
          Analyze.is_var_file name = true ->
          Dict.get name files = Some (FUnparsable exc) ->
          Dict.get name vars = Some (VMap [])
          /\ In ("Error loading "
                 ++ PyStr.path_join (PyStr.path_join base (dir_name d)) name
                 ++ ": " ++ exc) out)
    /\ (forall name v,
          Analyze.is_var_file name = true ->
          Dict.get name files = Some (FDoc v) ->
          Dict.get name vars = Some (if truthy v then v else VMap []))
    /\ (forall name m,
          Analyze.is_var_file name = true ->
          Dict.get name files = Some (FDoc (VMap m)) ->
          Dict.get name vars = Some (VMap m)).
Proof.
  exists (load_output base d files (Dict.keys files)),
         (fold_left (load_step files) (Dict.keys files) []).
  split; [now apply load_all_vars_run|]. clear Hread.
  assert (Hget : forall name f,
            Analyze.is_var_file name = true -> Dict.get name files = Some f ->
            Dict.get name (fold_left (load_step files) (Dict.keys files) [])
            = Some (loaded f)).
  { intros name f Hv Hf. rewrite get_load_steps, Hv, Hf.
    assert (E : existsb (String.eqb name) (Dict.keys files) = true).
    { apply existsb_eqb_In. now apply get_Some_keys in Hf. }
    now rewrite E. }
  split; [|split; [|split]].
  - intros name. split.
    + intros Hin. apply keys_get in Hin. destruct Hin as [v Hv].
      rewrite get_load_steps in Hv.
      destruct (Analyze.is_var_file name); simpl in Hv; [|discriminate].
      destruct (existsb (String.eqb name) (Dict.keys files)) eqn:E; [|discriminate].
      apply existsb_eqb_In in E. now split.
    + intros [Hin Hv]. destruct (keys_get files name Hin) as [f Hf].
      eapply get_Some_keys. now apply (Hget name f).
  - intros name exc Hv Hf. split; [now apply (Hget name _ Hv Hf)|].
    unfold load_output. apply in_flat_map. exists name. split.
    + now apply get_Some_keys in Hf.
    + rewrite Hv, Hf. now left.
  - intros name v Hv Hf. now apply (Hget name _ Hv Hf).
  - intros name m Hv Hf. rewrite (Hget name _ Hv Hf). simpl. now destruct m.
Qed.

(** A file the reader raises [ValueError] on is fatal to the loader: a
    directory that holds one under a name ending in [.yaml] or [.yml] is
    never loaded. *)
Lemma first_value_error_found (files : directory) names name msg :
  In name names -> Analyze.is_var_file name = true ->
  Dict.get name files = Some (FValueError msg) ->
  first_value_error files names <> None.
Proof.
  intros Hin Hv Hf. induction names as [|n names IH]; [destruct Hin|]. simpl.
  destruct Hin as [->|Hin].
  - rewrite Hv, Hf. discriminate.
  - destruct (Analyze.is_var_file n); [|now apply IH].
    destruct (Dict.get n files) as [[exc|v|m0]|]; try (now apply IH). discriminate.
Qed.

Lemma load_all_vars_value_error_fatal base d w files name msg :
  dir_of d w = Some files ->
  Analyze.is_var_file name = true ->
  Dict.get name files = Some (FValueError msg) ->
  exists out msg',
    Analyze.load_all_vars base d w = (printed w out, Raise (ValueError msg')).
Proof.
  intros Hd Hv Hf.
  destruct (first_value_error files (Dict.keys files)) as [msg'|] eqn:E.
  - exists (load_output base d files (read_names files (Dict.keys files))), msg'.
    now apply load_all_vars_raises.
  - exfalso. apply (first_value_error_found files (Dict.keys files) name msg); auto.
    now apply get_Some_keys in Hf.
Qed.

(** C9, at the input where it breaks -- [group_vars] holds [all.yml],
    [web.yml] and [db.yml], and [web.yml] reads [d: 2001-02-30].  The
    reader raises [ValueError] on the date; [load_yaml_file] catches
    [yaml.YAMLError] and nothing else, so the exception leaves the
    loader: no error is reported, no empty mapping stands in for
    [web.yml], [db.yml] is never loaded, and the analysis ends with the
    [ValueError].  With a [web.yml] the parser rejects, the same loader
    reports the error, puts the empty mapping in its place and goes on to
    [db.yml]. *)
Theorem loader_aborts_on_value_error :
  Analyze.load_all_vars "inv" GroupVars invalid_date
  = (invalid_date, Raise (ValueError "day is out of range for month"))
  /\ Analyze.analyze_inventory scalar_str "inv" invalid_date
     = (invalid_date, Raise (ValueError "day is out of range for month"))
  /\ Analyze.load_all_vars "inv" GroupVars rejected_instead
     = (printed rejected_instead
          ["Error loading inv/group_vars/web.yml: mapping values are not allowed here"],
        Ok [("all.yml", VMap [("user", VStr "www")]);
            ("web.yml", VMap []);
            ("db.yml", VMap [("port", VInt 5432)])]).
Proof. repeat split. Qed.

Lemma loader_tolerates_unparsable_files_witness :
  exists out vars,
    Analyze.load_all_vars "inv" HostVars mixed_files = (printed mixed_files out, Ok vars)
    /\ Dict.get "bad.yml" vars = Some (VMap [])
    /\ Dict.get "ok.yml" vars = Some (VMap [("port", VInt 80)]).
Proof.
  destruct (loader_tolerates_unparsable_files "inv" HostVars mixed_files
              [("bad.yml", FUnparsable "mapping values are not allowed here");
               ("list.yml", FDoc (VList [VStr "a"]));
               ("empty.yaml", FDoc VNone);
               ("ok.yml", FDoc (VMap [("port", VInt 80)]));
               ("README", FDoc (VStr "notes"))]
              eq_refl eq_refl)
    as (out & vars & Hrun & _ & Hbad & _ & Hmap).
  exists out, vars. split; [exact Hrun|]. split.
  - apply (Hbad "bad.yml" "mapping values are not allowed here"); reflexivity.
  - apply (Hmap "ok.yml"); reflexivity.
Defined.

(** ** The unbound name *)

Lemma as_mappings_loop_no_name_error vars : forall acc w w' n,
  fold_m vars
    (fun acc '(name, v) => m <- as_mapping name v ;; ret (acc ++ [(name, m)])%list)
    acc w <> (w', Raise (NameError n)).
Proof.
  induction vars as [|[name v] vars IH]; intros acc w w' n; simpl.
  - discriminate.
  - unfold bind at 1. destruct v; simpl; unfold bind, raise, ret;
      try discriminate.
    apply IH.
Qed.

(** The analysis raises no [NameError], whatever the inventory. *)
Lemma analyze_inventory_no_name_error py_str base w w' n :
  Analyze.analyze_inventory py_str base w <> (w', Raise (NameError n)).
Proof.
  unfold Analyze.analyze_inventory. unfold bind at 1.
  destruct (Analyze.parse_hosts_ini base w) as [w1 [[hosts groups]|e]] eqn:Hp.
  2:{ unfold Analyze.parse_hosts_ini, bind, read_hosts, probe_dir, ret in Hp.
      simpl in Hp. destruct (fs_hosts w); [|congruence].
      destruct (fold_left _ _ _) as [[? ?] ?]. discriminate. }
  destruct (parse_hosts_ini_ok _ _ _ _ _ Hp) as [-> _].
  unfold bind at 1.
  destruct (fs_group_vars w) as [gfiles|] eqn:Hg;
    [|rewrite (load_all_vars_missing base GroupVars w Hg); discriminate].
  rewrite (load_all_vars_general base GroupVars gfiles w Hg).
  destruct (first_value_error gfiles (Dict.keys gfiles)) as [msg|] eqn:Eg;
    [discriminate|].
  unfold bind at 1.
  destruct (fs_host_vars w) as [hfiles|] eqn:Hh.
  2:{ rewrite load_all_vars_missing; [discriminate|]. now rewrite dir_of_printed. }
  rewrite (load_all_vars_general base HostVars hfiles); [|now rewrite dir_of_printed].
  destruct (first_value_error hfiles (Dict.keys hfiles)) as [msg|] eqn:Eh;
    [discriminate|].
  unfold bind at 1.
  match goal with |- context [as_mappings ?v ?w0] =>
    destruct (as_mappings v w0) as [w2 [gm|e]] eqn:E1 end.
  2:{ intros H. injection H as -> ->.
      now apply as_mappings_loop_no_name_error in E1. }
  unfold bind at 1.
  match goal with |- context [as_mappings ?v ?w0] =>
    destruct (as_mappings v w0) as [w3 [hm|e]] eqn:E2 end.
  2:{ intros H. injection H as -> ->.
      now apply as_mappings_loop_no_name_error in E2. }
  unfold bind, probe_dir, listdir, ret.
  destruct (dir_of HostVars w3); discriminate.
Qed.

(** C10 -- [find_duplicates] raises [NameError] for [Counter], a name the
    module never binds, on every mapping with at least one group, and
    returns the empty mapping on the empty one; the analysis raises no
    [NameError] on any inventory, so it does not go through
    [find_duplicates]: the "Duplicated Host" of a host of the model is set
    exactly when the group list of the host has more than one entry. *)
Theorem find_duplicates_unbound_counter
  (groups : list (string * list string)) (w : world)
  (Hgroups : groups <> []) :
  Analyze.find_duplicates groups w = (w, Raise (NameError "Counter"))
  /\ ~ In "Counter" Analyze.module_globals
  /\ Analyze.find_duplicates [] w = (w, Ok [])
  /\ (forall py_str base w0 w1 n,
        Analyze.analyze_inventory py_str base w0 <> (w1, Raise (NameError n)))
  /\ (forall py_str base w0 w1 report hosts groups0 host gs,
        Analyze.analyze_inventory py_str base w0 = (w1, Ok report) ->
        Analyze.parse_hosts_ini base w0 = (w0, Ok (hosts, groups0)) ->
        Dict.get host hosts = Some gs ->
        exists r,
          Dict.get host report = Some r
          /\ (Duplicated_Host r <> "No duplication in groups" <-> 1 < List.length gs)).
Proof.
  split; [|split; [|split; [|split]]].
  - destruct groups as [|[group hosts] groups]; [contradiction|]. reflexivity.
  - intros H. apply existsb_eqb_In in H. discriminate.
  - reflexivity.
  - intros. apply analyze_inventory_no_name_error.
  - intros py_str base w0 w1 report hosts groups0 host gs Hrun Hparse Hhost.
    destruct (host_record_in_report _ _ _ _ _ _ _ _ _ Hrun Hparse Hhost)
      as (Hnd & dv & iv & mf & Hget).
    eexists. split; [exact Hget|].
    rewrite (duplicated_host_of_record py_str host gs dv iv hosts mf Hnd Hhost).
    destruct (1 <? List.length gs)%nat eqn:Hlen.
    + apply Nat.ltb_lt in Hlen. split; [intros _; exact Hlen|].
      intros _. now apply joined_groups_not_sentinel.
    + apply Nat.ltb_ge in Hlen. split; [intros H; now contradiction H|lia].
Qed.

Lemma find_duplicates_unbound_counter_witness :
  Analyze.find_duplicates [("web", ["web"; "web"])] twice_listed
  = (twice_listed, Raise (NameError "Counter")).
Proof.
  apply (find_duplicates_unbound_counter [("web", ["web"; "web"])] twice_listed).
  discriminate.
Defined.

(** ** The analysis returns *)

Lemma In_load_steps files names : forall acc name v,
  In (name, v) (fold_left (load_step files) names acc) ->
  In (name, v) acc \/ exists f, Dict.get name files = Some f /\ v = loaded f.
Proof.
  induction names as [|n names IH]; intros acc name v; simpl; [now left|].
  intros H. apply IH in H. destruct H as [H|H]; [|now right].
  unfold load_step in H. destruct (Analyze.is_var_file n); [|now left].
  destruct (Dict.get n files) as [f|] eqn:Hf; [|now left].
  apply In_set in H. destruct H as [[-> ->]|H]; [|now left].
  right. now exists f.
Qed.

Lemma as_mappings_loop_ok vars :
  (forall name v, In (name, v) vars -> exists m, v = VMap m) ->
  forall acc w,
    exists ms,
      fold_m vars
        (fun acc '(name, v) => m <- as_mapping name v ;; ret (acc ++ [(name, m)])%list)
        acc w = (w, Ok ms).
Proof.
  induction vars as [|[name v] vars IH]; intros Hall acc w; simpl.
  - now exists acc.
  - destruct (Hall name v (or_introl eq_refl)) as [m ->].
    unfold bind at 1. simpl. apply IH.
    intros n v Hin. apply (Hall n v). now right.
Qed.

Lemma mappings_readable (files : directory) names :
  (forall name f, In (name, f) files -> exists m, loaded f = VMap m) ->
  first_value_error files names = None.
Proof.
  intros Hall. induction names as [|n names IH]; simpl; [reflexivity|].
  destruct (Analyze.is_var_file n); [|exact IH].
  destruct (Dict.get n files) as [[exc|v|msg]|] eqn:Hf; try exact IH.
  apply get_In in Hf. destruct (Hall _ _ Hf) as [m Hm]. discriminate.
Qed.

(** With the membership file and both directories in place, and every
    variable file either rejected by the YAML reader, falsy, or a
    mapping, the analysis returns a report and changes nothing but the
    output. *)
Lemma analyze_inventory_returns py_str base w text gfiles hfiles :
  fs_hosts w = Some text ->
  fs_group_vars w = Some gfiles ->
  fs_host_vars w = Some hfiles ->
  (forall name f, In (name, f) gfiles -> exists m, loaded f = VMap m) ->
  (forall name f, In (name, f) hfiles -> exists m, loaded f = VMap m) ->
  exists out report,
    Analyze.analyze_inventory py_str base w = (printed w out, Ok report).
Proof.
  intros Ht Hg Hh Hgm Hhm.
  assert (Hmaps : forall files,
            (forall name f, In (name, f) files -> exists m, loaded f = VMap m) ->
            forall name v,
              In (name, v) (fold_left (load_step files) (Dict.keys files) []) ->
              exists m, v = VMap m).
  { intros files Hall name v Hin. apply In_load_steps in Hin.
    destruct Hin as [[]|[f [Hf ->]]]. apply (Hall name f). now apply get_In. }
  unfold Analyze.analyze_inventory.
  assert (Hp : exists hosts groups,
            Analyze.parse_hosts_ini base w = (w, Ok (hosts, groups))).
  { unfold Analyze.parse_hosts_ini, bind, read_hosts, probe_dir, ret. simpl.
    rewrite Ht. destruct (fold_left _ _ _) as [[hs gs] cur]. now exists hs, gs. }
  destruct Hp as (hosts & groups & Hp).
  rewrite (bind_ok _ _ _ _ _ Hp).
  rewrite (bind_ok _ _ _ _ _
             (load_all_vars_run base GroupVars gfiles w Hg
                (mappings_readable gfiles _ Hgm))).
  erewrite bind_ok;
    [|apply (load_all_vars_run base HostVars hfiles);
      [now rewrite dir_of_printed|now apply mappings_readable]].
  rewrite printed_printed.
  match goal with |- context [printed w ?o] => set (out := o) end.
  destruct (as_mappings_loop_ok _ (Hmaps gfiles Hgm) [] (printed w out)) as [gm Hgm'].
  unfold as_mappings at 1. rewrite (bind_ok _ _ _ _ _ Hgm').
  destruct (as_mappings_loop_ok _ (Hmaps hfiles Hhm) [] (printed w out)) as [hm Hhm'].
  unfold as_mappings at 1. rewrite (bind_ok _ _ _ _ _ Hhm').
  unfold bind, probe_dir, listdir, ret. simpl. rewrite Hh.
  eexists out, _. reflexivity.
Qed.

(** ** What holds of every report, and where the claims break *)

(** No record of a report has "Missing File in host_vars" at "Yes": the
    hosts of the model had their file when the membership file was
    parsed, and the directory is the same when the report is made. *)
Lemma report_missing_file_always_no py_str base w w' report :
  Analyze.analyze_inventory py_str base w = (w', Ok report) ->
  forall k r, In (k, r) report -> Missing_File_in_host_vars r = "No".
Proof.
  intros Hrun k r Hr.
  destruct (analyze_inventory_ok _ _ _ _ _ Hrun)
    as (hosts & groups & files & dv & iv & Hp & Hf & ->).
  destruct (parse_hosts_ini_backed _ _ _ _ _ Hp) as (Hback & _ & _).
  apply In_fold_const in Hr. destruct Hr as [Hr|[_ ->]]; [|reflexivity].
  apply (In_fold_records
           (fun h a => Analyze.host_record py_str h a dv iv _ _)) in Hr.
  destruct Hr as [[]|[a [Ha ->]]]. simpl.
  destruct (existsb _ _) eqn:E; [|reflexivity].
  apply existsb_eqb_In, filter_In in E. destruct E as [Hk Hno].
  apply Hback in Hk. rewrite Hf in Hk. rewrite Hk in Hno. discriminate.
Qed.

(** A record under an identifier without a variable file can only be the
    record of an orphan. *)
Lemma unbacked_record_is_orphan py_str base w w' report h r :
  Analyze.analyze_inventory py_str base w = (w', Ok report) ->
  host_has_file (fs_host_vars w) h = false ->
  Dict.get h report = Some r ->
  r = Analyze.orphan_record
  /\ exists file_name,
       host_var_file w file_name <> None
       /\ Analyze.is_var_file file_name = true
       /\ h = fst (PyStr.splitext file_name).
Proof.
  intros Hrun Hno Hget.
  destruct (analyze_inventory_ok _ _ _ _ _ Hrun)
    as (hosts & groups & files & dv & iv & Hp & Hf & ->).
  destruct (parse_hosts_ini_backed _ _ _ _ _ Hp) as (Hback & _ & Hnd).
  rewrite get_fold_const in Hget.
  destruct (existsb _ _) eqn:E.
  - injection Hget as <-. split; [reflexivity|].
    apply existsb_eqb_In, orphans_spec in E.
    destruct E as (n & Hn & Hv & Hs & _). exists n. repeat split; auto.
    unfold host_var_file. rewrite Hf.
    destruct (keys_get files n Hn) as [f ->]. discriminate.
  - rewrite (get_fold_records
               (fun h a => Analyze.host_record py_str h a dv iv _ _) hosts [] h Hnd)
      in Hget.
    destruct (Dict.get h hosts) as [a|] eqn:Ha; [|discriminate].
    apply get_Some_keys, Hback in Ha. congruence.
Qed.

(** C1, at the input where it breaks -- [hosts] lists [.yml] under [[db]]
    and [host_vars] holds a file named [.yml].  The identifier [.yml] has
    no variable file [.yml.yaml] or [.yml.yml], and the parser leaves it
    out of the host model and of the group; yet the report has a record
    under [.yml]: the scan for orphans takes the file [.yml] for the
    variable file of an identifier [.yml], since [os.path.splitext]
    leaves a name of leading dots whole. *)
Theorem unbacked_host_reported_as_orphan :
  host_has_file (fs_host_vars dot_file) ".yml" = false
  /\ Analyze.parse_hosts_ini "inv" dot_file = (dot_file, Ok ([], [("db", [])]))
  /\ Analyze.analyze_inventory scalar_str "inv" dot_file
     = (dot_file, Ok [(".yml", Analyze.orphan_record)]).
Proof. repeat split. Qed.

Lemma lower_index_sound (host_data : mapping) var k :
  Dict.get var (Clean.lower_index host_data) = Some k -> PyStr.lower k = var.
Proof.
  unfold Clean.lower_index.
  assert (H : forall keys (ci : list (string * string)),
             (forall v k0, Dict.get v ci = Some k0 -> PyStr.lower k0 = v) ->
             forall v k0,
               Dict.get v (fold_left (fun ci key => Dict.set (PyStr.lower key) key ci)
                             keys ci) = Some k0 ->
               PyStr.lower k0 = v).
  { induction keys as [|key keys IH]; intros ci Hci v k0; simpl; [apply Hci|].
    apply IH. intros v1 k1.
    destruct (String.eqb_spec v1 (PyStr.lower key)) as [->|Hne].
    - rewrite get_set_same. intros E. now injection E as <-.
    - rewrite get_set_other by assumption. apply Hci. }
  apply H. intros v k0. discriminate.
Qed.

(** The part of the round trip that holds: when the file of a host is
    rewritten, every key whose lower-case form is no flagged name is
    still there with its value. *)
Lemma clean_one_host_keeps_unflagged base host analysis w files host_data w1 :
  fs_host_vars w = Some files ->
  Dict.get (host ++ ".yml") files = Some (FDoc (VMap host_data)) ->
  Clean.clean_one_host base host analysis w = (w1, Ok tt) ->
  exists host_data',
    host_var_file w1 (host ++ ".yml") = Some (FDoc (VMap host_data'))
    /\ forall k,
         ~ In (PyStr.lower k)
              (Clean.flagged_names (Duplicated_Variables analysis)
               ++ Clean.flagged_names (Inconsistent_Variables analysis))%list ->
         Dict.get k host_data' = Dict.get k host_data.
Proof.
  intros Hd Hf Hrun.
  destruct (clean_one_host_present base host analysis w files _ Hd Hf)
    as [(out & e & Hr & _)|(out & m & m' & Hl & Hr & Hkeep)];
    rewrite Hr in Hrun; [discriminate|].
  injection Hrun as <-. exists m'. split.
  - unfold host_var_file. simpl. now rewrite get_set_same.
  - intros k Hk.
    assert (Hm : m = host_data).
    { simpl in Hl. destruct host_data; simpl in Hl; now injection Hl. }
    subst m. apply Hkeep. intros var Hvar Hci.
    apply lower_index_sound in Hci. subst var. contradiction.
Qed.

Example analyze_case_collision :
  Analyze.analyze_inventory scalar_str "inv" case_collision
  = (case_collision, Ok case_collision_report).
Proof. reflexivity. Qed.

Example analyze_yaml_only :
  Analyze.analyze_inventory scalar_str "inv" yaml_only = (yaml_only, Ok yaml_only_report).
Proof. reflexivity. Qed.

(** C3, at the input where it breaks -- [app1.yml] has the keys [Port]
    and [port], and the report names [port] in both defect fields.  The
    lower-case index keeps one original key per lower-case form, the last
    one, so the cleanup deletes [port] and writes [Port] back, although
    [Port] in lower case is a flagged name. *)
Theorem flagged_key_survives_cleanup :
  Clean.flagged_names (Duplicated_Variables
                         (mkDefect "web" "port (in web.yml and app1)"
                            "port (web.yml value = 80, app1 value = 8080)"
                            "No duplication in groups" "No" "No")) = ["port"]
  /\ PyStr.lower "Port" = "port"
  /\ Clean.lower_index [("Port", VInt 1); ("port", VInt 8080)] = [("port", "port")]
  /\ snd (Clean.clean_host_vars "inv" case_collision_report case_collision) = Ok tt
  /\ host_var_file
       (fst (Clean.clean_host_vars "inv" case_collision_report case_collision))
       "app1.yml"
     = Some (FDoc (VMap [("Port", VInt 1)])).
Proof. repeat split. Qed.

(** C4, at the input where it breaks -- with the same report, the first
    cleanup of that inventory leaves [Port] in [app1.yml], and the second
    one, run on the files of the first, deletes it: the second run
    changes a file. *)
Theorem second_cleanup_changes_a_file :
  snd (Clean.clean_inventory "inv" case_collision_report case_collision) = Ok tt
  /\ host_var_file once_cleaned "app1.yml" = Some (FDoc (VMap [("Port", VInt 1)]))
  /\ snd (Clean.clean_inventory "inv" case_collision_report once_cleaned) = Ok tt
  /\ host_var_file twice_cleaned "app1.yml" = Some (FDoc (VMap []))
  /\ fs_hosts twice_cleaned = fs_hosts once_cleaned.
Proof. repeat split. Qed.

(* ================================================================== *)
(** * Further properties of the two modules *)
(* ================================================================== *)

(** ** Lines and texts *)

Lemma written_lines_go s : forall cur, written (PyStr.lines_go s cur) = cur ++ s.
Proof.
  induction s as [|c s IH]; intros cur; simpl.
  - destruct cur; simpl; [reflexivity|]. now rewrite !append_nil_r.
  - destruct (Ascii.eqb c PyStr.newline); simpl.
    + rewrite IH. simpl. now rewrite append_assoc.
    + rewrite IH. now rewrite append_assoc.
Qed.

(** Putting the lines of a text one after the other gives the text. *)
Lemma written_readlines text : written (PyStr.readlines text) = text.
Proof. unfold PyStr.readlines. now rewrite written_lines_go. Qed.

Lemma no_newline_app a b : no_newline (a ++ b) = no_newline a && no_newline b.
Proof.
  induction a as [|c a IH]; simpl; [reflexivity|].
  rewrite IH. now rewrite andb_assoc.
Qed.

Lemma full_line_snoc cur :
  no_newline cur = true ->
  is_full_line (cur ++ String PyStr.newline "") = true.
Proof.
  induction cur as [|c cur IH]; simpl; [reflexivity|].
  intros H. apply andb_true_iff in H. destruct H as [Hc Hr].
  rewrite Hc. simpl. destruct (cur ++ String PyStr.newline "") eqn:E.
  - destruct cur; discriminate.
  - now apply IH.
Qed.

Lemma lines_ok_cons_full l r :
  is_full_line l = true -> lines_ok r = true -> lines_ok (l :: r) = true.
Proof. intros Hl Hr. simpl. destruct r; [now rewrite Hl|now rewrite Hl]. Qed.

Lemma lines_go_ok s : forall cur,
  no_newline cur = true -> lines_ok (PyStr.lines_go s cur) = true.
Proof.
  induction s as [|c s IH]; intros cur Hcur; simpl.
  - destruct cur as [|d cur]; [reflexivity|]. simpl lines_ok.
    unfold is_partial_line. rewrite Hcur. simpl. apply orb_true_r.
  - destruct (Ascii.eqb c PyStr.newline) eqn:Hc.
    + apply Ascii.eqb_eq in Hc. subst c. apply lines_ok_cons_full.
      * now apply full_line_snoc.
      * now apply IH.
    + apply IH. rewrite no_newline_app, Hcur. simpl. now rewrite Hc.
Qed.

Lemma readlines_ok text : lines_ok (PyStr.readlines text) = true.
Proof. now apply lines_go_ok. Qed.

Lemma lines_ok_tail l r : lines_ok (l :: r) = true -> lines_ok r = true.
Proof.
  simpl. destruct r as [|l' r']; [reflexivity|].
  intros H. now apply andb_true_iff in H.
Qed.

Lemma lines_ok_head_full l l' r : lines_ok (l :: l' :: r) = true -> is_full_line l = true.
Proof. simpl. intros H. now apply andb_true_iff in H. Qed.

Lemma lines_ok_filter (P : string -> bool) ls :
  lines_ok ls = true -> lines_ok (filter P ls) = true.
Proof.
  induction ls as [|l r IH]; intros H; simpl; [reflexivity|].
  pose proof (IH (lines_ok_tail _ _ H)) as Hr.
  destruct (P l); [|exact Hr].
  destruct r as [|l' r'].
  - exact H.
  - pose proof (lines_ok_head_full _ _ _ H) as Hl.
    now apply lines_ok_cons_full.
Qed.

Lemma lines_go_cons c s cur :
  PyStr.lines_go (String c s) cur
  = if Ascii.eqb c PyStr.newline
    then (cur ++ String c "") :: PyStr.lines_go s ""
    else PyStr.lines_go s (cur ++ String c "").
Proof. reflexivity. Qed.

Lemma lines_go_full l : forall cur rest,
  is_full_line l = true ->
  PyStr.lines_go (l ++ rest) cur = (cur ++ l) :: PyStr.lines_go rest "".
Proof.
  induction l as [|c l IH]; intros cur rest H; [discriminate|].
  destruct l as [|d l'].
  - simpl in H. simpl append. rewrite lines_go_cons. now rewrite H.
  - change (is_full_line (String c (String d l')))
      with (negb (Ascii.eqb c PyStr.newline) && is_full_line (String d l')) in H.
    apply andb_true_iff in H. destruct H as [Hc Hl].
    apply negb_true_iff in Hc.
    change (String c (String d l') ++ rest) with (String c (String d l' ++ rest)).
    rewrite lines_go_cons, Hc.
    rewrite (IH _ rest Hl). now rewrite append_assoc.
Qed.

Lemma lines_go_partial l : forall cur,
  no_newline l = true -> l <> "" ->
  PyStr.lines_go l cur = [cur ++ l].
Proof.
  induction l as [|c l IH]; intros cur H Hne; [contradiction|].
  simpl in H. apply andb_true_iff in H. destruct H as [Hc Hl].
  apply negb_true_iff in Hc. rewrite lines_go_cons, Hc.
  destruct l as [|d l'].
  - simpl. destruct (cur ++ String c "") eqn:E; [destruct cur; discriminate|].
    reflexivity.
  - rewrite IH; [|exact Hl|discriminate]. now rewrite append_assoc.
Qed.

(** Reading back lines written one after the other gives the lines. *)
Lemma readlines_written ls : lines_ok ls = true -> PyStr.readlines (written ls) = ls.
Proof.
  unfold PyStr.readlines.
  induction ls as [|l r IH]; intros H; [reflexivity|].
  destruct r as [|l' r'].
  - simpl in H. simpl written. rewrite append_nil_r.
    apply orb_true_iff in H. destruct H as [H|H].
    + pose proof (lines_go_full l "" "" H) as E. rewrite append_nil_r in E.
      rewrite E. reflexivity.
    + unfold is_partial_line in H. apply andb_true_iff in H. destruct H as [Hne Hn].
      apply negb_true_iff in Hne. apply String.eqb_neq in Hne.
      now rewrite (lines_go_partial l "" Hn Hne).
  - pose proof (lines_ok_head_full _ _ _ H) as Hl.
    change (written (l :: l' :: r')) with (l ++ written (l' :: r')).
    rewrite (lines_go_full l "" _ Hl). simpl append.
    f_equal. apply IH. now apply lines_ok_tail in H.
Qed.

(** ** The membership rewrite, run twice and run on nothing *)

Lemma clean_hosts_run base analysis_results w text :
  fs_hosts w = Some text ->
  exists out,
    Clean.clean_hosts base analysis_results w
    = (mkWorld
         (Some (written (filter (kept_line analysis_results) (PyStr.readlines text))))
         (fs_group_vars w) (fs_host_vars w) (fs_stdout w ++ out)%list,
       Ok tt).
Proof.
  intros Hfile. unfold Clean.clean_hosts, bind at 1, read_hosts. rewrite Hfile.
  unfold bind at 1, truncate_hosts. unfold bind at 1.
  match goal with |- context [for_each _ _ ?w1] =>
    destruct (clean_lines_run analysis_results (PyStr.readlines text) w1 ""
                eq_refl) as [out ->] end.
  simpl. eexists (out ++ [_])%list.
  unfold print. simpl. now rewrite app_assoc.
Qed.

Lemma filter_all_true {A} (P : A -> bool) (l : list A) :
  (forall x, In x l -> P x = true) -> filter P l = l.
Proof.
  induction l as [|x l IH]; intros H; simpl; [reflexivity|].
  rewrite (H x (or_introl eq_refl)). f_equal. apply IH.
  intros y Hy. apply H. now right.
Qed.

Lemma filter_idem {A} (P : A -> bool) (l : list A) : filter P (filter P l) = filter P l.
Proof.
  apply filter_all_true. intros x Hx. now apply filter_In in Hx.
Qed.

(** X1 -- When the report flags none of the hosts named on the lines of
    the membership file (an empty report, say), [clean_hosts] writes the
    file back with the very same text. *)
Theorem clean_hosts_unflagged_unchanged
  (base : string) (analysis_results : report) (w : world) (text : string)
  (Hfile : fs_hosts w = Some text)
  (Hnone : forall line,
      In line (PyStr.readlines text) -> is_host_line line = true ->
      flagged analysis_results (PyStr.first_token (PyStr.strip line)) = false) :
  exists out,
    Clean.clean_hosts base analysis_results w
    = (mkWorld (Some text) (fs_group_vars w) (fs_host_vars w)
               (fs_stdout w ++ out)%list,
       Ok tt).
Proof.
  destruct (clean_hosts_run base analysis_results w text Hfile) as [out Hrun].
  exists out. rewrite Hrun. rewrite filter_all_true.
  - now rewrite written_readlines.
  - intros line Hin. unfold kept_line.
    destruct (is_host_line line) eqn:Hk; [|reflexivity].
    now rewrite (Hnone line Hin Hk).
Qed.

Lemma clean_hosts_unflagged_unchanged_witness :
  exists out,
    Clean.clean_hosts "inv" [] twice_listed
    = (mkWorld (fs_hosts twice_listed) (fs_group_vars twice_listed)
               (fs_host_vars twice_listed) (fs_stdout twice_listed ++ out)%list,
       Ok tt).
Proof.
  apply (clean_hosts_unflagged_unchanged "inv" [] twice_listed
           ("[web]" ++ nl ++ "web" ++ nl ++ "web" ++ nl) eq_refl).
  intros line _ _. reflexivity.
Defined.

(** X2 -- The membership rewrite is idempotent: with the same report, a
    second [clean_hosts] on the file the first one wrote leaves the text
    of the file, and both directories, as the first one left them. *)
Theorem clean_hosts_idempotent
  (base : string) (analysis_results : report) (w : world) (text : string)
  (Hfile : fs_hosts w = Some text) :
  exists w1 w2,
    Clean.clean_hosts base analysis_results w = (w1, Ok tt)
    /\ Clean.clean_hosts base analysis_results w1 = (w2, Ok tt)
    /\ fs_hosts w2 = fs_hosts w1
    /\ fs_group_vars w2 = fs_group_vars w
    /\ fs_host_vars w2 = fs_host_vars w.
Proof.
  destruct (clean_hosts_run base analysis_results w text Hfile) as [out1 Hrun1].
  eexists. rewrite Hrun1.
  match goal with |- context [(?w1, Ok tt) = _] =>
    destruct (clean_hosts_run base analysis_results w1 _ eq_refl) as [out2 Hrun2] end.
  eexists. split; [reflexivity|]. split; [exact Hrun2|]. simpl.
  repeat split.
  rewrite readlines_written.
  - now rewrite filter_idem.
  - apply lines_ok_filter, readlines_ok.
Qed.

Lemma clean_hosts_idempotent_witness :
  exists w1 w2,
    Clean.clean_hosts "inv" twice_listed_report twice_listed = (w1, Ok tt)
    /\ Clean.clean_hosts "inv" twice_listed_report w1 = (w2, Ok tt)
    /\ fs_hosts w2 = fs_hosts w1.
Proof.
  destruct (clean_hosts_idempotent "inv" twice_listed_report twice_listed
              ("[web]" ++ nl ++ "web" ++ nl ++ "web" ++ nl) eq_refl)
    as (w1 & w2 & H1 & H2 & H3 & _).
  exists w1, w2. auto.
Defined.

(** X3 -- A missing membership file is fatal to the whole cleanup:
    [clean_inventory] raises [FileNotFoundError] for [<base>/hosts]
    before anything is written or printed, whatever the report flags and
    whatever [host_vars] holds; [clean_host_vars] is not run. *)
Theorem clean_inventory_missing_hosts_fatal
  (base : string) (analysis_results : report) (w : world)
  (Hmissing : fs_hosts w = None) :
  Clean.clean_inventory base analysis_results w
  = (w, Raise (FileNotFoundError (PyStr.path_join base "hosts"))).
Proof.
  unfold Clean.clean_inventory. apply bind_raise.
  unfold Clean.clean_hosts. apply bind_raise.
  unfold read_hosts. now rewrite Hmissing.
Qed.

Lemma clean_inventory_missing_hosts_fatal_witness :
  Clean.clean_inventory "inv" case_collision_report
    (mkWorld None (fs_group_vars case_collision) (fs_host_vars case_collision) [])
  = (mkWorld None (fs_group_vars case_collision) (fs_host_vars case_collision) [],
     Raise (FileNotFoundError "inv/hosts")).
Proof.
  apply (clean_inventory_missing_hosts_fatal "inv" case_collision_report
           (mkWorld None (fs_group_vars case_collision)
                    (fs_host_vars case_collision) [])
           eq_refl).
Defined.

(** ** The variable-file rewrite in closed form *)

Lemma filter_filter {A} (P Q : A -> bool) (l : list A) :
  filter P (filter Q l) = filter (fun x => Q x && P x) l.
Proof.
  induction l as [|x l IH]; simpl; [reflexivity|].
  destruct (Q x); simpl; [|exact IH].
  destruct (P x); now rewrite IH.
Qed.

Lemma del_absent {V} (d : list (string * V)) k :
  ~ In k (Dict.keys d) -> Dict.del k d = d.
Proof.
  induction d as [|[k0 v0] d IH]; simpl; [reflexivity|].
  intros H. destruct (String.eqb_spec k k0) as [->|Hne].
  - exfalso. apply H. now left.
  - f_equal. apply IH. intros Hin. apply H. now right.
Qed.

Lemma filter_key_absent {V} (d : list (string * V)) k :
  ~ In k (Dict.keys d) ->
  filter (fun kv => negb (String.eqb (fst kv) k)) d = d.
Proof.
  intros H. apply filter_all_true. intros [k0 v0] Hin. simpl.
  apply negb_true_iff, String.eqb_neq. intros ->.
  apply H. now apply (in_map fst) in Hin.
Qed.

Lemma del_filter {V} (d : list (string * V)) k :
  NoDup (Dict.keys d) ->
  Dict.del k d = filter (fun kv => negb (String.eqb (fst kv) k)) d.
Proof.
  induction d as [|[k0 v0] d IH]; simpl; [reflexivity|].
  intros Hnd. inversion Hnd as [|? ? Hnot Hnd']; subst.
  destruct (String.eqb_spec k k0) as [->|Hne].
  - rewrite String.eqb_refl. simpl. symmetry. now apply filter_key_absent.
  - destruct (String.eqb_spec k0 k) as [E|_]; [now subst|]. simpl.
    f_equal. now apply IH.
Qed.

Lemma keys_filter_nodup {V} (P : string * V -> bool) (d : list (string * V)) :
  NoDup (Dict.keys d) -> NoDup (Dict.keys (filter P d)).
Proof.
  induction d as [|[k0 v0] d IH]; simpl; intros Hnd; [constructor|].
  inversion Hnd as [|? ? Hnot Hnd']; subst.
  destruct (P (k0, v0)); simpl; [|now apply IH].
  constructor; [|now apply IH].
  intros Hin. apply Hnot. unfold Dict.keys in *. apply in_map_iff in Hin.
  destruct Hin as [[k1 v1] [E Hin]]. simpl in E. subst k1.
  apply filter_In in Hin. destruct Hin as [Hin _].
  now apply (in_map fst) in Hin.
Qed.

Lemma without_nil m : without [] m = m.
Proof. unfold without. now apply filter_all_true. Qed.

Lemma without_app ks1 ks2 m : without (ks1 ++ ks2) m = without ks2 (without ks1 m).
Proof.
  unfold without. rewrite filter_filter. apply filter_ext.
  intros [k v]. simpl. rewrite existsb_app. now rewrite negb_orb.
Qed.

Lemma without_one k (m : mapping) :
  NoDup (Dict.keys m) -> Dict.mem k m = true -> Dict.del k m = without [k] m.
Proof.
  intros Hnd _. rewrite (del_filter m k Hnd). unfold without.
  apply filter_ext. intros [k0 v0]. simpl. now rewrite orb_false_r.
Qed.

Lemma without_one_absent k (m : mapping) : Dict.mem k m = false -> without [k] m = m.
Proof.
  intros H. unfold without. apply filter_all_true. intros [k0 v0] Hin. simpl.
  rewrite orb_false_r. apply negb_true_iff, String.eqb_neq. intros ->.
  assert (Hk : Dict.mem k m = true).
  { apply mem_keys. now apply (in_map fst) in Hin. }
  congruence.
Qed.

Lemma keys_without_nodup ks m :
  NoDup (Dict.keys m) -> NoDup (Dict.keys (without ks m)).
Proof. apply keys_filter_nodup. Qed.

Lemma remove_var_exact kind path ci (host_data : mapping) var w :
  NoDup (Dict.keys host_data) ->
  exists out,
    Clean.remove_var kind path ci host_data var w
    = (printed w out, Ok (without (targets ci [var]) host_data)).
Proof.
  intros Hnd. unfold Clean.remove_var, targets. simpl flat_map.
  destruct (Dict.get var ci) as [k|]; simpl.
  - destruct (String.eqb k "") eqn:Hk; simpl.
    + exists []. unfold ret. now rewrite printed_nil, without_nil.
    + destruct (Dict.mem k host_data) eqn:Hm.
      * eexists [_]. rewrite <- (without_one k host_data Hnd Hm). reflexivity.
      * exists []. unfold ret. now rewrite printed_nil, without_one_absent.
  - exists []. unfold ret. now rewrite printed_nil, without_nil.
Qed.

Lemma targets_cons ci var vars : targets ci (var :: vars) = (targets ci [var] ++ targets ci vars)%list.
Proof. unfold targets. simpl. now rewrite app_nil_r. Qed.

Lemma targets_app ci vs1 vs2 : targets ci (vs1 ++ vs2) = (targets ci vs1 ++ targets ci vs2)%list.
Proof. unfold targets. apply flat_map_app. Qed.

Lemma remove_vars_exact kind path ci vars : forall (host_data : mapping) w,
  NoDup (Dict.keys host_data) ->
  exists out,
    Clean.remove_vars kind path ci vars host_data w
    = (printed w out, Ok (without (targets ci vars) host_data)).
Proof.
  unfold Clean.remove_vars.
  induction vars as [|var vars IH]; intros host_data w Hnd; simpl fold_m.
  - exists []. unfold ret. change (targets ci []) with (@nil string).
    now rewrite printed_nil, without_nil.
  - destruct (remove_var_exact kind path ci host_data var w Hnd) as [o1 H1].
    rewrite (bind_ok _ _ _ _ _ H1).
    destruct (IH (without (targets ci [var]) host_data) (printed w o1)
                (keys_without_nodup _ _ Hnd)) as [o2 H2].
    rewrite H2. exists (o1 ++ o2)%list.
    rewrite printed_printed, (targets_cons ci var vars).
    now rewrite without_app.
Qed.

(** The step of [clean_host_vars] for a host whose [.yml] file loads as a
    mapping: the file is rewritten with the mapping less the keys the
    lower-case index holds for the flagged names. *)
Lemma clean_one_host_exact base host analysis w files f (m : mapping) :
  fs_host_vars w = Some files ->
  Dict.get (host ++ ".yml") files = Some f ->
  loaded f = VMap m ->
  NoDup (Dict.keys m) ->
  exists out,
    Clean.clean_one_host base host analysis w
    = (mkWorld (fs_hosts w) (fs_group_vars w)
         (Some (Dict.set (host ++ ".yml")
                  (FDoc (VMap (without (targets (Clean.lower_index m)
                                          (flagged_vars analysis)) m)))
                  files))
         (fs_stdout w ++ load_report base HostVars (host ++ ".yml") f ++ out)%list,
       Ok tt).
Proof.
  intros Hd Hf Hl Hnd. unfold Clean.clean_one_host.
  rewrite (bind_ok _ _ _ _ _
             (guarded_load_run base host files f w Hd Hf
                (loaded_mapping_readable f m Hl))).
  rewrite Hl.
  set (out0 := load_report base HostVars (host ++ ".yml") f).
  simpl as_mapping. erewrite bind_ok; [|reflexivity].
  unfold flagged_vars. rewrite targets_app, without_app.
  set (path := PyStr.path_join (PyStr.path_join base "host_vars") (host ++ ".yml")).
  assert (Hstep : forall (flag : bool) kind vars (hd : mapping) w0,
            NoDup (Dict.keys hd) ->
            exists out,
              (if flag then Clean.remove_vars kind path (Clean.lower_index m) vars hd
               else ret hd) w0
              = (printed w0 out,
                 Ok (without (targets (Clean.lower_index m)
                                (if flag then vars else [])) hd))).
  { intros flag kind vars hd w0 Hhd. destruct flag.
    - now apply remove_vars_exact.
    - exists []. unfold ret. change (targets (Clean.lower_index m) []) with (@nil string).
      now rewrite printed_nil, without_nil. }
  destruct (Hstep (negb (String.eqb (Duplicated_Variables analysis)
                           "No duplicated variables"))
              "duplicated" (Clean.flagged_names (Duplicated_Variables analysis))
              m (printed w out0) Hnd) as [out1 H1].
  rewrite (bind_ok _ _ _ _ _ H1).
  set (m1 := without
               (targets (Clean.lower_index m)
                  (if negb (String.eqb (Duplicated_Variables analysis)
                              "No duplicated variables")
                   then Clean.flagged_names (Duplicated_Variables analysis)
                   else []))
               m) in *.
  destruct (Hstep (negb (String.eqb (Inconsistent_Variables analysis)
                           "No inconsistent variables"))
              "inconsistent" (Clean.flagged_names (Inconsistent_Variables analysis))
              m1 (printed (printed w out0) out1) (keys_without_nodup _ _ Hnd))
    as [out2 H2].
  rewrite (bind_ok _ _ _ _ _ H2).
  exists (out1 ++ out2)%list.
  unfold Clean.save_yaml_file, write_var_file. simpl. rewrite Hd.
  unfold with_dir. simpl. now rewrite <- !app_assoc.
Qed.

Lemma get_without ks (m : mapping) k :
  Dict.get k (without ks m)
  = if existsb (String.eqb k) ks then None else Dict.get k m.
Proof.
  unfold without. induction m as [|[k0 v0] m IH]; simpl.
  - now destruct (existsb _ _).
  - destruct (String.eqb_spec k k0) as [->|Hne].
    + destruct (existsb (String.eqb k0) ks); simpl.
      * rewrite IH. reflexivity.
      * now rewrite String.eqb_refl.
    + destruct (existsb (String.eqb k0) ks); simpl.
      * exact IH.
      * destruct (String.eqb_spec k k0); [contradiction|exact IH].
Qed.

Lemma In_targets ci vars k :
  In k (targets ci vars)
  <-> k <> "" /\ exists var, In var vars /\ Dict.get var ci = Some k.
Proof.
  unfold targets. rewrite in_flat_map. split.
  - intros (var & Hv & Hk). destruct (Dict.get var ci) as [k0|] eqn:E; [|destruct Hk].
    destruct (String.eqb_spec k0 "") as [->|Hne]; [destruct Hk|].
    destruct Hk as [<-|[]]. split; [exact Hne|]. now exists var.
  - intros (Hne & var & Hv & E). exists var. split; [exact Hv|]. rewrite E.
    destruct (String.eqb_spec k ""); [contradiction|now left].
Qed.

Lemma lower_index_keys (host_data : mapping) var k :
  Dict.get var (Clean.lower_index host_data) = Some k -> In k (Dict.keys host_data).
Proof.
  unfold Clean.lower_index.
  assert (H : forall keys (ci : list (string * string)) v k0,
             Dict.get v (fold_left (fun ci key => Dict.set (PyStr.lower key) key ci)
                           keys ci) = Some k0 ->
             In k0 keys \/ Dict.get v ci = Some k0).
  { induction keys as [|key keys IH]; intros ci v k0; simpl; [now right|].
    intros E. apply IH in E. destruct E as [E|E]; [left; now right|].
    destruct (String.eqb_spec v (PyStr.lower key)) as [->|Hne].
    - rewrite get_set_same in E. injection E as <-. left. now left.
    - rewrite get_set_other in E by assumption. now right. }
  intros E. apply H in E. destruct E as [E|E]; [exact E|discriminate].
Qed.

Lemma lower_index_complete (host_data : mapping) k :
  case_distinct host_data -> In k (Dict.keys host_data) ->
  Dict.get (PyStr.lower k) (Clean.lower_index host_data) = Some k.
Proof.
  unfold Clean.lower_index, case_distinct.
  generalize (Dict.keys host_data). intros keys.
  induction keys as [|key keys IH] using rev_ind; intros Hd Hin; [destruct Hin|].
  rewrite fold_left_app. simpl.
  destruct (String.eqb_spec (PyStr.lower k) (PyStr.lower key)) as [E|Hne].
  - rewrite E, get_set_same. f_equal. symmetry. apply Hd; auto.
    apply in_app_iff. right. now left.
  - rewrite get_set_other by assumption.
    apply in_app_iff in Hin. destruct Hin as [Hin|[<-|[]]]; [|contradiction].
    apply IH; [|exact Hin].
    intros k1 k2 H1 H2. apply Hd; apply in_app_iff; now left.
Qed.

Lemma loaded_mapping (m : mapping) : loaded (FDoc (VMap m)) = VMap m.
Proof. simpl. now destruct m. Qed.

Lemma set_set {V} (d : list (string * V)) k v v' :
  Dict.set k v' (Dict.set k v d) = Dict.set k v' d.
Proof.
  induction d as [|[k0 v0] d IH]; simpl.
  - now rewrite String.eqb_refl.
  - destruct (String.eqb_spec k k0) as [->|Hne]; simpl.
    + now rewrite String.eqb_refl.
    + destruct (String.eqb_spec k k0); [contradiction|]. now rewrite IH.
Qed.

(** X4 -- The cleanup of a host file only removes: the rewritten mapping
    holds no item the original did not hold, holds every key whose
    lower-case form is no flagged name with its value, and holds the
    empty key, flagged or not, if the original did. *)
Theorem clean_one_host_only_removes
  (base host : string) (analysis : defect) (w : world) (files : directory)
  (m : mapping)
  (Hdir : fs_host_vars w = Some files)
  (Hfile : Dict.get (host ++ ".yml") files = Some (FDoc (VMap m)))
  (Hnd : NoDup (Dict.keys m)) :
  exists w1 m',
    Clean.clean_one_host base host analysis w = (w1, Ok tt)
    /\ host_var_file w1 (host ++ ".yml") = Some (FDoc (VMap m'))
    /\ (forall k v, In (k, v) m' -> In (k, v) m)
    /\ (forall k, ~ In (PyStr.lower k) (flagged_vars analysis) ->
                  Dict.get k m' = Dict.get k m)
    /\ Dict.get "" m' = Dict.get "" m.
Proof.
  destruct (clean_one_host_exact base host analysis w files _ m Hdir Hfile
              (loaded_mapping m) Hnd) as [out Hrun].
  eexists. eexists. split; [exact Hrun|]. split; [|split; [|split]].
  - unfold host_var_file. simpl. now rewrite get_set_same.
  - intros k v Hin. unfold without in Hin. now apply filter_In in Hin.
  - intros k Hk. rewrite get_without.
    destruct (existsb _ _) eqn:E; [|reflexivity].
    apply existsb_eqb_In, In_targets in E. destruct E as (_ & var & Hv & Hci).
    apply lower_index_sound in Hci. subst var. contradiction.
  - rewrite get_without.
    destruct (existsb _ _) eqn:E; [|reflexivity].
    apply existsb_eqb_In, In_targets in E. destruct E as (Hne & _). contradiction.
Qed.

Lemma mixed_case_keys_nodup : NoDup ["Port"; "name"; "USER"].
Proof.
  repeat constructor; simpl; intuition discriminate.
Defined.

Lemma mixed_case_distinct :
  case_distinct [("Port", VInt 8080); ("name", VStr "app1"); ("USER", VStr "www")].
Proof.
  intros k1 k2 [<-|[<-|[<-|[]]]] [<-|[<-|[<-|[]]]] E;
    try reflexivity; discriminate E.
Defined.

Lemma clean_one_host_only_removes_witness :
  exists w1 m',
    Clean.clean_one_host "inv" "app1" mixed_case_record mixed_case = (w1, Ok tt)
    /\ host_var_file w1 "app1.yml" = Some (FDoc (VMap m'))
    /\ Dict.get "name" m' = Some (VStr "app1").
Proof.
  destruct (clean_one_host_only_removes "inv" "app1" mixed_case_record mixed_case
              [("app1.yml",
                FDoc (VMap [("Port", VInt 8080); ("name", VStr "app1");
                            ("USER", VStr "www")]))]
              [("Port", VInt 8080); ("name", VStr "app1"); ("USER", VStr "www")]
              eq_refl eq_refl mixed_case_keys_nodup)
    as (w1 & m' & Hrun & Hfile & _ & Hkeep & _).
  exists w1, m'. split; [exact Hrun|]. split; [exact Hfile|].
  rewrite (Hkeep "name"); [reflexivity|].
  simpl. intuition discriminate.
Defined.

(** X5 -- When no two keys of the host file differ in letter case only,
    the cleanup removes exactly the non-empty keys whose lower-case form
    is a flagged name: looked up in the rewritten file, such a key is
    gone and every other key has the value it had; the file holds each
    key once, and nothing else is written.  In which order the file
    holds its keys is left open. *)
Theorem clean_one_host_case_distinct
  (base host : string) (analysis : defect) (w : world) (files : directory)
  (m : mapping)
  (Hdir : fs_host_vars w = Some files)
  (Hfile : Dict.get (host ++ ".yml") files = Some (FDoc (VMap m)))
  (Hnd : NoDup (Dict.keys m))
  (Hcase : case_distinct m) :
  exists w1 m',
    Clean.clean_one_host base host analysis w = (w1, Ok tt)
    /\ host_var_file w1 (host ++ ".yml") = Some (FDoc (VMap m'))
    /\ NoDup (Dict.keys m')
    /\ (forall k,
          Dict.get k m'
          = if existsb (String.eqb (PyStr.lower k)) (flagged_vars analysis)
               && negb (String.eqb k "")
            then None
            else Dict.get k m)
    /\ fs_hosts w1 = fs_hosts w
    /\ fs_group_vars w1 = fs_group_vars w
    /\ (forall name, name <> host ++ ".yml" ->
                     host_var_file w1 name = host_var_file w name).
Proof.
  destruct (clean_one_host_exact base host analysis w files _ m Hdir Hfile
              (loaded_mapping m) Hnd) as [out Hrun].
  set (T := targets (Clean.lower_index m) (flagged_vars analysis)) in *.
  eexists. exists (without T m). split; [exact Hrun|].
  split; [|split; [|split; [|split; [|split]]]].
  - unfold host_var_file. simpl. now rewrite get_set_same.
  - now apply keys_without_nodup.
  - intros k. rewrite get_without.
    destruct (Dict.get k m) as [v|] eqn:Hk.
    2:{ destruct (existsb (String.eqb k) T); now destruct (_ && _). }
    assert (Hin : In k (Dict.keys m)) by now apply get_Some_keys in Hk.
    destruct (existsb (String.eqb k) T) eqn:E.
    + apply existsb_eqb_In, In_targets in E. destruct E as (Hne & var & Hv & Hci).
      apply lower_index_sound in Hci. subst var.
      apply existsb_eqb_In in Hv. rewrite Hv.
      apply String.eqb_neq in Hne. now rewrite Hne.
    + destruct (String.eqb_spec k "") as [->|Hne]; [now rewrite andb_false_r|].
      destruct (existsb (String.eqb (PyStr.lower k)) _) eqn:E2; [|reflexivity].
      exfalso. apply existsb_eqb_In in E2.
      assert (Hin' : In k T).
      { apply In_targets. split; [exact Hne|]. exists (PyStr.lower k).
        split; [exact E2|]. now apply lower_index_complete. }
      apply existsb_eqb_In in Hin'. congruence.
  - reflexivity.
  - reflexivity.
  - intros name Hname. unfold host_var_file. simpl. rewrite Hdir.
    now apply get_set_other.
Qed.

Lemma clean_one_host_case_distinct_witness :
  exists w1 m',
    Clean.clean_one_host "inv" "app1" mixed_case_record mixed_case = (w1, Ok tt)
    /\ host_var_file w1 "app1.yml" = Some (FDoc (VMap m'))
    /\ Dict.get "Port" m' = None
    /\ Dict.get "USER" m' = None
    /\ Dict.get "name" m' = Some (VStr "app1").
Proof.
  destruct (clean_one_host_case_distinct "inv" "app1" mixed_case_record mixed_case
              [("app1.yml",
                FDoc (VMap [("Port", VInt 8080); ("name", VStr "app1");
                            ("USER", VStr "www")]))]
              [("Port", VInt 8080); ("name", VStr "app1"); ("USER", VStr "www")]
              eq_refl eq_refl mixed_case_keys_nodup mixed_case_distinct)
    as (w1 & m' & Hrun & Hfile & _ & Hget & _).
  exists w1, m'. split; [exact Hrun|]. split; [exact Hfile|].
  split; [|split]; rewrite Hget; reflexivity.
Defined.

Lemma keys_without_In ks (m : mapping) k :
  In k (Dict.keys (without ks m)) -> In k (Dict.keys m) /\ ~ In k ks.
Proof.
  unfold Dict.keys, without. intros H. apply in_map_iff in H.
  destruct H as [[k0 v0] [E Hin]]. simpl in E. subst k0.
  apply filter_In in Hin. destruct Hin as [Hin Hp]. simpl in Hp. split.
  - now apply (in_map fst) in Hin.
  - intros Hk. apply existsb_eqb_In in Hk. rewrite Hk in Hp. discriminate.
Qed.

(** X6 -- When no two keys of the host file differ in letter case only,
    the step of [clean_host_vars] for the host is idempotent: run again
    with the same record on the file it wrote, it writes the same
    document, and changes nothing else. *)
Theorem clean_one_host_idempotent
  (base host : string) (analysis : defect) (w : world) (files : directory)
  (m : mapping)
  (Hdir : fs_host_vars w = Some files)
  (Hfile : Dict.get (host ++ ".yml") files = Some (FDoc (VMap m)))
  (Hnd : NoDup (Dict.keys m))
  (Hcase : case_distinct m) :
  exists w1 w2,
    Clean.clean_one_host base host analysis w = (w1, Ok tt)
    /\ Clean.clean_one_host base host analysis w1 = (w2, Ok tt)
    /\ fs_host_vars w2 = fs_host_vars w1
    /\ fs_hosts w2 = fs_hosts w
    /\ fs_group_vars w2 = fs_group_vars w.
Proof.
  destruct (clean_one_host_exact base host analysis w files _ m Hdir Hfile
              (loaded_mapping m) Hnd) as [out1 Hrun1].
  set (T := targets (Clean.lower_index m) (flagged_vars analysis)) in *.
  set (m1 := without T m) in *.
  eexists. rewrite Hrun1.
  match goal with |- context [(?w1, Ok tt) = _] =>
    destruct (clean_one_host_exact base host analysis w1
                (Dict.set (host ++ ".yml") (FDoc (VMap m1)) files)
                (FDoc (VMap m1)) m1 eq_refl (get_set_same _ _ _) (loaded_mapping m1)
                (keys_without_nodup T m Hnd)) as [out2 Hrun2] end.
  eexists. split; [reflexivity|]. split; [exact Hrun2|]. simpl.
  split; [|now split].
  rewrite set_set. do 4 f_equal.
  unfold without at 1. apply filter_all_true. intros [k v] Hin. simpl.
  apply negb_true_iff. destruct (existsb _ _) eqn:E; [|reflexivity]. exfalso.
  apply existsb_eqb_In, In_targets in E. destruct E as (Hne & var & Hv & Hci).
  pose proof (lower_index_sound _ _ _ Hci) as Hlow.
  assert (Hk1 : In k (Dict.keys m1)) by now apply (in_map fst) in Hin.
  apply keys_without_In in Hk1. destruct Hk1 as [Hk HnT]. apply HnT.
  apply In_targets. split; [exact Hne|]. exists var. split; [exact Hv|].
  subst var. now apply lower_index_complete.
Qed.

Lemma clean_one_host_idempotent_witness :
  exists w1 w2,
    Clean.clean_one_host "inv" "app1" mixed_case_record mixed_case = (w1, Ok tt)
    /\ Clean.clean_one_host "inv" "app1" mixed_case_record w1 = (w2, Ok tt)
    /\ fs_host_vars w2 = fs_host_vars w1.
Proof.
  destruct (clean_one_host_idempotent "inv" "app1" mixed_case_record mixed_case
              [("app1.yml",
                FDoc (VMap [("Port", VInt 8080); ("name", VStr "app1");
                            ("USER", VStr "www")]))]
              [("Port", VInt 8080); ("name", VStr "app1"); ("USER", VStr "www")]
              eq_refl eq_refl mixed_case_keys_nodup mixed_case_distinct)
    as (w1 & w2 & H1 & H2 & H3 & _).
  exists w1, w2. auto.
Defined.

(** X7 -- A host file the YAML reader rejects, or whose document is
    falsy, is not left alone by the cleanup: the error, if any, is
    printed, and the file is overwritten with the empty mapping. *)
Theorem clean_one_host_overwrites_unreadable
  (base host : string) (analysis : defect) (w : world) (files : directory) (f : file)
  (Hdir : fs_host_vars w = Some files)
  (Hfile : Dict.get (host ++ ".yml") files = Some f)
  (Hempty : loaded f = VMap []) :
  exists out,
    Clean.clean_one_host base host analysis w
    = (mkWorld (fs_hosts w) (fs_group_vars w)
         (Some (Dict.set (host ++ ".yml") (FDoc (VMap [])) files))
         (fs_stdout w ++ load_report base HostVars (host ++ ".yml") f ++ out)%list,
       Ok tt).
Proof.
  destruct (clean_one_host_exact base host analysis w files f [] Hdir Hfile Hempty)
    as [out Hrun]; [constructor|].
  exists out. exact Hrun.
Qed.

Lemma clean_one_host_overwrites_unreadable_witness :
  exists out,
    Clean.clean_one_host "inv" "bad" Analyze.orphan_record mixed_files
    = (mkWorld None None
         (Some [("bad.yml", FDoc (VMap []));
                ("list.yml", FDoc (VList [VStr "a"]));
                ("empty.yaml", FDoc VNone);
                ("ok.yml", FDoc (VMap [("port", VInt 80)]));
                ("README", FDoc (VStr "notes"))])
         ("Error loading inv/host_vars/bad.yml: mapping values are not allowed here"
          :: out),
       Ok tt).
Proof.
  apply (clean_one_host_overwrites_unreadable "inv" "bad" Analyze.orphan_record
           mixed_files
           [("bad.yml", FUnparsable "mapping values are not allowed here");
            ("list.yml", FDoc (VList [VStr "a"]));
            ("empty.yaml", FDoc VNone);
            ("ok.yml", FDoc (VMap [("port", VInt 80)]));
            ("README", FDoc (VStr "notes"))]
           (FUnparsable "mapping values are not allowed here")
           eq_refl eq_refl eq_refl).
Defined.

(** X8 -- The record of an orphan has "N/A" in both variable fields, and
    the cleanup reads it as the name of a variable: in the file of an
    orphan whose keys have distinct lower-case forms, the key that reads
    [n/a] in lower case is deleted, and every other key is kept. *)
Theorem clean_one_host_orphan_deletes_na
  (base host : string) (w : world) (files : directory) (m : mapping) (k : string)
  (Hdir : fs_host_vars w = Some files)
  (Hfile : Dict.get (host ++ ".yml") files = Some (FDoc (VMap m)))
  (Hnd : NoDup (Dict.keys m))
  (Hcase : case_distinct m)
  (Hkey : In k (Dict.keys m))
  (Hna : PyStr.lower k = "n/a") :
  exists w1 m',
    Clean.clean_one_host base host Analyze.orphan_record w = (w1, Ok tt)
    /\ host_var_file w1 (host ++ ".yml") = Some (FDoc (VMap m'))
    /\ Dict.get k m' = None
    /\ (forall k', PyStr.lower k' <> "n/a" -> Dict.get k' m' = Dict.get k' m).
Proof.
  destruct (clean_one_host_exact base host Analyze.orphan_record w files _ m
              Hdir Hfile (loaded_mapping m) Hnd) as [out Hrun].
  set (T := targets (Clean.lower_index m) (flagged_vars Analyze.orphan_record)) in *.
  eexists. exists (without T m). split; [exact Hrun|]. split; [|split].
  - unfold host_var_file. simpl. now rewrite get_set_same.
  - rewrite get_without.
    assert (Hin : In k T).
    { apply In_targets. split.
      - intros ->. discriminate Hna.
      - exists "n/a". split; [now left|].
        rewrite <- Hna. now apply lower_index_complete. }
    apply existsb_eqb_In in Hin. now rewrite Hin.
  - intros k' Hk'. rewrite get_without.
    destruct (existsb _ _) eqn:E; [|reflexivity].
    apply existsb_eqb_In, In_targets in E. destruct E as (_ & var & Hv & Hci).
    apply lower_index_sound in Hci. subst var.
    destruct Hv as [E|[E|[]]]; now symmetry in E.
Qed.

Lemma orphan_with_na_distinct : case_distinct [("N/A", VInt 1); ("port", VInt 80)].
Proof.
  intros k1 k2 [<-|[<-|[]]] [<-|[<-|[]]] E; try reflexivity; discriminate E.
Defined.

Lemma orphan_with_na_nodup : NoDup ["N/A"; "port"].
Proof. repeat constructor; simpl; intuition discriminate. Defined.

Lemma clean_one_host_orphan_deletes_na_witness :
  Analyze.analyze_inventory scalar_str "inv" orphan_with_na
  = (orphan_with_na, Ok [("ghost", Analyze.orphan_record)])
  /\ exists w1 m',
       Clean.clean_one_host "inv" "ghost" Analyze.orphan_record orphan_with_na
       = (w1, Ok tt)
       /\ host_var_file w1 "ghost.yml" = Some (FDoc (VMap m'))
       /\ Dict.get "N/A" m' = None.
Proof.
  split; [reflexivity|].
  destruct (clean_one_host_orphan_deletes_na "inv" "ghost" orphan_with_na
              [("ghost.yml", FDoc (VMap [("N/A", VInt 1); ("port", VInt 80)]))]
              [("N/A", VInt 1); ("port", VInt 80)] "N/A"
              eq_refl eq_refl orphan_with_na_nodup orphan_with_na_distinct
              (or_introl eq_refl) eq_refl)
    as (w1 & m' & Hrun & Hfile & Hgone & _).
  exists w1, m'. auto.
Defined.

(** ** What the cleanup never touches *)

Lemma keys_set_present {V} (d : list (string * V)) k v :
  In k (Dict.keys d) -> Dict.keys (Dict.set k v d) = Dict.keys d.
Proof.
  induction d as [|[k0 v0] d IH]; simpl; [intros []|].
  destruct (String.eqb_spec k k0) as [->|Hne]; simpl; [reflexivity|].
  intros [E|Hin]; [now subst|]. f_equal. now apply IH.
Qed.

Lemma clean_one_host_frame base host analysis w w' r :
  Clean.clean_one_host base host analysis w = (w', r) ->
  fs_hosts w' = fs_hosts w
  /\ fs_group_vars w' = fs_group_vars w
  /\ option_map Dict.keys (fs_host_vars w') = option_map Dict.keys (fs_host_vars w)
  /\ forall name, name <> host ++ ".yml" ->
                  host_var_file w' name = host_var_file w name.
Proof.
  intros Hrun.
  destruct (host_var_file w (host ++ ".yml")) as [f|] eqn:Hf.
  - unfold host_var_file in Hf.
    destruct (fs_host_vars w) as [files|] eqn:Hd; [|discriminate].
    destruct (clean_one_host_present base host analysis w files f Hd Hf)
      as [(out & e & Hr & _)|(out & m & m' & _ & Hr & _)];
      rewrite Hr in Hrun; injection Hrun as <- _; simpl.
    + rewrite Hd. repeat split.
    + split; [reflexivity|]. split; [reflexivity|]. split.
      * f_equal. apply keys_set_present. now apply get_Some_keys in Hf.
      * intros name Hname. unfold host_var_file. simpl. rewrite Hd.
        now apply get_set_other.
  - assert (Hno : file_exists (fs_host_vars w) (host ++ ".yml") = false).
    { unfold host_var_file in Hf. unfold file_exists, Dict.mem.
      destruct (fs_host_vars w); [now rewrite Hf|reflexivity]. }
    rewrite (clean_one_host_missing base host analysis w Hno) in Hrun.
    injection Hrun as <- _. simpl. repeat split.
Qed.

Lemma clean_host_vars_frame base (analysis_results : report) : forall w w' r,
  Clean.clean_host_vars base analysis_results w = (w', r) ->
  fs_hosts w' = fs_hosts w
  /\ fs_group_vars w' = fs_group_vars w
  /\ option_map Dict.keys (fs_host_vars w') = option_map Dict.keys (fs_host_vars w)
  /\ forall name,
       (forall host, In host (Dict.keys analysis_results) -> name <> host ++ ".yml") ->
       host_var_file w' name = host_var_file w name.
Proof.
  unfold Clean.clean_host_vars.
  induction analysis_results as [|[host analysis] rest IH]; intros w w' r; simpl.
  - unfold ret. intros H. injection H as <- _. repeat split.
  - unfold bind.
    destruct (Clean.clean_one_host base host analysis w) as [w1 [[]|e]] eqn:H1;
      intros Hrun;
      destruct (clean_one_host_frame _ _ _ _ _ _ H1) as (Fh & Fg & Fk & Ff).
    + destruct (IH _ _ _ Hrun) as (Gh & Gg & Gk & Gf).
      split; [congruence|]. split; [congruence|]. split; [congruence|].
      intros name Hname.
      rewrite Gf by (intros h Hh; apply Hname; now right).
      apply Ff. apply Hname. now left.
    + injection Hrun as <- _.
      split; [exact Fh|]. split; [exact Fg|]. split; [exact Fk|].
      intros name Hname. apply Ff. apply Hname. now left.
Qed.

(** X9 -- When the hosts of the report are named by file names (no path
    separator), then whatever a cleanup does and however it ends, it
    leaves [group_vars] as it was, creates and removes no file of
    [host_vars], and rewrites no file of [host_vars] other than
    [<host>.yml] for a host of the report. *)
Theorem clean_inventory_frame
  (base : string) (analysis_results : report) (w w' : world) (r : result unit)
  (Hnames : forall host, In host (Dict.keys analysis_results) ->
                         is_file_name host = true)
  (Hrun : Clean.clean_inventory base analysis_results w = (w', r)) :
  fs_group_vars w' = fs_group_vars w
  /\ option_map Dict.keys (fs_host_vars w') = option_map Dict.keys (fs_host_vars w)
  /\ forall name,
       (forall host, In host (Dict.keys analysis_results) -> name <> host ++ ".yml") ->
       host_var_file w' name = host_var_file w name.
Proof.
  unfold Clean.clean_inventory, bind in Hrun.
  destruct (fs_hosts w) as [text|] eqn:Ht.
  - destruct (clean_hosts_run base analysis_results w text Ht) as [out H1].
    rewrite H1 in Hrun.
    destruct (clean_host_vars_frame _ _ _ _ _ Hrun) as (_ & Gg & Gk & Gf).
    split; [exact Gg|]. split; [exact Gk|]. exact Gf.
  - assert (H1 : Clean.clean_hosts base analysis_results w
                 = (w, Raise (FileNotFoundError (PyStr.path_join base "hosts")))).
    { unfold Clean.clean_hosts. apply bind_raise. unfold read_hosts. now rewrite Ht. }
    rewrite H1 in Hrun. injection Hrun as <- _. repeat split.
Qed.

Lemma clean_inventory_frame_witness :
  host_var_file once_cleaned "app1.yml" <> host_var_file case_collision "app1.yml"
  /\ fs_group_vars once_cleaned = fs_group_vars case_collision
  /\ option_map Dict.keys (fs_host_vars once_cleaned) = Some ["app1.yml"].
Proof.
  split; [discriminate|].
  assert (Hnames : forall host, In host (Dict.keys case_collision_report) ->
                                 is_file_name host = true).
  { intros host [<-|[]]. reflexivity. }
  destruct (clean_inventory_frame "inv" case_collision_report case_collision
              once_cleaned (Ok tt) Hnames eq_refl) as (Hg & Hk & _).
  split; [exact Hg|exact Hk].
Defined.

(** ** The parser, line by line *)

Lemma parse_line_skipped hv st raw :
  is_skipped raw = true -> Analyze.parse_line hv st raw = st.
Proof.
  intros H. unfold Analyze.parse_line. destruct st as [[hosts groups] cur].
  unfold is_skipped in H. now rewrite H.
Qed.

Lemma parse_lines_skip hv lines : forall st,
  fold_left (Analyze.parse_line hv) (filter (fun raw => negb (is_skipped raw)) lines) st
  = fold_left (Analyze.parse_line hv) lines st.
Proof.
  induction lines as [|raw lines IH]; intros st; simpl; [reflexivity|].
  destruct (is_skipped raw) eqn:H; simpl.
  - now rewrite (parse_line_skipped hv st raw H).
  - apply IH.
Qed.

Lemma parse_line_before_header hv hosts groups raw :
  is_group_header raw = false ->
  Analyze.parse_line hv (hosts, groups, None) raw = (hosts, groups, None).
Proof.
  intros H. unfold Analyze.parse_line. unfold is_group_header in H. rewrite H.
  now destruct (String.eqb (PyStr.strip raw) "" || PyStr.startswith "#" (PyStr.strip raw)).
Qed.

Lemma parse_lines_before_header hv pre : forall hosts groups,
  (forall raw, In raw pre -> is_group_header raw = false) ->
  fold_left (Analyze.parse_line hv) pre (hosts, groups, None) = (hosts, groups, None).
Proof.
  induction pre as [|raw pre IH]; intros hosts groups H; cbn [fold_left];
    [reflexivity|].
  rewrite parse_line_before_header by (apply H; now left).
  apply IH. intros r Hr. apply H. now right.
Qed.

Lemma lines_ok_app_r pre rest : lines_ok (pre ++ rest) = true -> lines_ok rest = true.
Proof.
  induction pre as [|l pre IH]; intros H; [exact H|].
  apply IH. now apply lines_ok_tail in H.
Qed.

Lemma parse_hosts_ini_run base w text :
  fs_hosts w = Some text ->
  Analyze.parse_hosts_ini base w
  = (w, Ok (let '(hosts, groups, _) :=
              fold_left (Analyze.parse_line (fs_host_vars w)) (PyStr.readlines text)
                ([], [], None) in
            (hosts, groups))).
Proof.
  intros Ht. unfold Analyze.parse_hosts_ini, bind, read_hosts, probe_dir, ret. simpl.
  rewrite Ht. now destruct (fold_left _ _ _) as [[hs gs] cur].
Qed.

(** X10 -- Comments and blank lines carry nothing: the parser returns the
    same host model and the same groups for the membership file and for
    the file with its blank and [#] lines taken out. *)
Theorem parse_hosts_ini_ignores_comments
  (base : string) (w : world) (text : string)
  (Hfile : fs_hosts w = Some text) :
  snd (Analyze.parse_hosts_ini base
         (with_hosts_text w
            (written (filter (fun raw => negb (is_skipped raw))
                        (PyStr.readlines text)))))
  = snd (Analyze.parse_hosts_ini base w).
Proof.
  rewrite (parse_hosts_ini_run base w text Hfile).
  erewrite parse_hosts_ini_run by reflexivity. simpl.
  rewrite readlines_written by (apply lines_ok_filter, readlines_ok).
  now rewrite parse_lines_skip.
Qed.

Lemma parse_hosts_ini_ignores_comments_witness :
  snd (Analyze.parse_hosts_ini "inv"
         (with_hosts_text with_preamble
            ("app1" ++ nl ++ "[web]" ++ nl ++ "app1 ansible_port=22" ++ nl)))
  = Ok ([("app1", ["web"])], [("web", ["app1"])]).
Proof.
  exact (parse_hosts_ini_ignores_comments "inv" with_preamble
           ("# inventory" ++ nl ++ "app1" ++ nl ++ nl
            ++ "[web]" ++ nl ++ "  # front" ++ nl ++ "app1 ansible_port=22" ++ nl)
           eq_refl).
Defined.

(** X11 -- Host lines before the first header belong to no group and are
    dropped: the parser returns the same host model and groups for the
    membership file and for the file without the lines that come before
    its first header. *)
Theorem parse_hosts_ini_drops_preamble
  (base : string) (w : world) (text : string) (pre rest : list string)
  (Hfile : fs_hosts w = Some text)
  (Hsplit : PyStr.readlines text = (pre ++ rest)%list)
  (Hpre : forall raw, In raw pre -> is_group_header raw = false) :
  snd (Analyze.parse_hosts_ini base (with_hosts_text w (written rest)))
  = snd (Analyze.parse_hosts_ini base w).
Proof.
  rewrite (parse_hosts_ini_run base w text Hfile).
  erewrite parse_hosts_ini_run by reflexivity. simpl.
  rewrite readlines_written.
  - rewrite Hsplit, fold_left_app.
    now rewrite (parse_lines_before_header _ pre [] [] Hpre).
  - apply (lines_ok_app_r pre). rewrite <- Hsplit. apply readlines_ok.
Qed.

Lemma parse_hosts_ini_drops_preamble_witness :
  snd (Analyze.parse_hosts_ini "inv"
         (with_hosts_text with_preamble
            ("[web]" ++ nl ++ "  # front" ++ nl ++ "app1 ansible_port=22" ++ nl)))
  = Ok ([("app1", ["web"])], [("web", ["app1"])]).
Proof.
  apply (parse_hosts_ini_drops_preamble "inv" with_preamble
           ("# inventory" ++ nl ++ "app1" ++ nl ++ nl
            ++ "[web]" ++ nl ++ "  # front" ++ nl ++ "app1 ansible_port=22" ++ nl)
           ["# inventory" ++ nl; "app1" ++ nl; nl]
           ["[web]" ++ nl; "  # front" ++ nl; "app1 ansible_port=22" ++ nl]
           eq_refl eq_refl).
  intros raw [<-|[<-|[<-|[]]]]; reflexivity.
Defined.

Lemma get_list_append_mono {X} (d : list (string * list X)) k x k' y :
  In y (Dict.get_list k' d) -> In y (Dict.get_list k' (Dict.append k x d)).
Proof. intros H. apply In_get_list_append. now right. Qed.

Lemma parse_line_linked hv st raw :
  linked st -> linked (Analyze.parse_line hv st raw).
Proof.
  destruct st as [[hosts groups] cur]. intros (I1 & I2 & I3 & I4).
  assert (Hsame : linked (hosts, groups, cur)) by exact (conj I1 (conj I2 (conj I3 I4))).
  unfold Analyze.parse_line.
  destruct (String.eqb (PyStr.strip raw) "" || PyStr.startswith "#" (PyStr.strip raw));
    [exact Hsame|].
  destruct (PyStr.startswith "[" (PyStr.strip raw)
            && PyStr.endswith "]" (PyStr.strip raw)).
  { set (g0 := PyStr.strip (Analyze.inner (PyStr.strip raw))).
    split; [|split; [|split]].
    - intros h gs Hh. destruct (I1 h gs Hh) as [Hne Hall]. split; [exact Hne|].
      intros g Hg. destruct (Hall g Hg) as [Hg1 Hg2]. split; [exact Hg1|].
      apply keys_set_In. now right.
    - intros g l h Hg Hh. destruct (String.eqb_spec g g0) as [->|Hne].
      + rewrite get_set_same in Hg. injection Hg as <-. destruct Hh.
      + rewrite get_set_other in Hg by assumption. now apply (I2 g l h).
    - intros g Hg. injection Hg as <-. apply keys_set_In. now left.
    - now apply keys_set_nodup. }
  destruct cur as [g|]; [|exact Hsame].
  destruct (String.eqb_spec g "") as [->|Hg]; [exact Hsame|].
  match goal with |- context [host_has_file hv ?n] => set (hn := n) end.
  destruct (host_has_file hv hn); [|exact Hsame].
  split; [|split; [|split]].
  - intros h gs Hh. destruct (String.eqb_spec h hn) as [->|Hne].
    + rewrite get_append_same in Hh. injection Hh as <-. split.
      * intros E. apply app_eq_nil in E. destruct E as [_ E]. discriminate.
      * intros g1 Hg1. apply in_app_iff in Hg1. destruct Hg1 as [Hg1|[<-|[]]].
        -- unfold Dict.get_list in Hg1.
           destruct (Dict.get hn hosts) as [gs0|] eqn:E; [|destruct Hg1].
           destruct (I1 hn gs0 E) as [_ Hall]. destruct (Hall g1 Hg1) as [H1 H2].
           split; [exact H1|]. apply keys_append_In. now right.
        -- split; [exact Hg|]. apply keys_append_In. now left.
    + rewrite get_append_other in Hh by assumption.
      destruct (I1 h gs Hh) as [Hne' Hall]. split; [exact Hne'|].
      intros g1 Hg1. destruct (Hall g1 Hg1) as [H1 H2]. split; [exact H1|].
      apply keys_append_In. now right.
  - intros g1 l h Hg1 Hh. destruct (String.eqb_spec g1 g) as [->|Hne].
    + rewrite get_append_same in Hg1. injection Hg1 as <-.
      apply in_app_iff in Hh. destruct Hh as [Hh|[<-|[]]].
      * apply get_list_append_mono. unfold Dict.get_list in Hh.
        destruct (Dict.get g groups) as [l0|] eqn:E; [|destruct Hh].
        now apply (I2 g l0 h).
      * apply In_get_list_append. now left.
    + rewrite get_append_other in Hg1 by assumption.
      apply get_list_append_mono. now apply (I2 g1 l h).
  - intros g1 Hg1. apply keys_append_In. right. now apply I3.
  - now apply keys_append_nodup.
Qed.

Lemma parse_lines_linked hv lines : forall st,
  linked st -> linked (fold_left (Analyze.parse_line hv) lines st).
Proof.
  induction lines as [|raw lines IH]; intros st Hst; cbn [fold_left]; [exact Hst|].
  apply IH. now apply parse_line_linked.
Qed.

(** X12 -- The parsed model hangs together: every host of it has a group
    list that is not empty and names only groups of the model, none of
    them the empty name; every member of a group is a host of the model
    with that group in its list; and no host and no group is keyed
    twice. *)
Theorem parse_hosts_ini_model_linked
  (base : string) (w w' : world) (hosts groups : list (string * list string))
  (Hparse : Analyze.parse_hosts_ini base w = (w', Ok (hosts, groups))) :
  (forall h gs, Dict.get h hosts = Some gs ->
                gs <> [] /\ forall g, In g gs -> g <> "" /\ In g (Dict.keys groups))
  /\ (forall g l h, Dict.get g groups = Some l -> In h l ->
                    exists gs, Dict.get h hosts = Some gs /\ In g gs)
  /\ NoDup (Dict.keys hosts)
  /\ NoDup (Dict.keys groups).
Proof.
  destruct (parse_hosts_ini_backed _ _ _ _ _ Hparse) as (_ & _ & Hnd).
  apply parse_hosts_ini_ok in Hparse. destruct Hparse as [_ (text & cur & _ & E)].
  pose proof (parse_lines_linked (fs_host_vars w) (PyStr.readlines text)
                ([], [], None)) as L.
  rewrite E in L. destruct L as (I1 & I2 & _ & I4).
  { repeat split; try discriminate; try constructor. }
  split; [exact I1|]. split; [|now split].
  intros g l h Hg Hh. pose proof (I2 g l h Hg Hh) as Hin.
  unfold Dict.get_list in Hin. destruct (Dict.get h hosts) as [gs|]; [|destruct Hin].
  now exists gs.
Qed.

Lemma parse_hosts_ini_model_linked_witness :
  exists gs, Dict.get "app1" [("app1", ["web"])] = Some gs /\ In "web" gs.
Proof.
  destruct (parse_hosts_ini_model_linked "inv" with_preamble with_preamble
              [("app1", ["web"])] [("web", ["app1"])] eq_refl)
    as (_ & Hmember & _).
  apply (Hmember "web" ["app1"] "app1"); [reflexivity|now left].
Defined.

(** ** The analysis as a whole *)

Lemma parse_hosts_ini_missing base w :
  fs_hosts w = None ->
  Analyze.parse_hosts_ini base w
  = (w, Raise (FileNotFoundError (PyStr.path_join base "hosts"))).
Proof.
  intros Ht. unfold Analyze.parse_hosts_ini. apply bind_raise.
  unfold read_hosts. now rewrite Ht.
Qed.

(** X13 -- The analysis reads and prints, and writes nothing: however it
    ends, the membership file and both directories are as they were, and
    the output has only grown. *)
Theorem analyze_inventory_writes_nothing
  (py_str : value -> string) (base : string) (w w' : world) (r : result report)
  (Hrun : Analyze.analyze_inventory py_str base w = (w', r)) :
  exists out, w' = printed w out.
Proof.
  unfold Analyze.analyze_inventory in Hrun.
  destruct (fs_hosts w) as [text|] eqn:Ht.
  2:{ rewrite (bind_raise _ _ _ _ _ (parse_hosts_ini_missing base w Ht)) in Hrun.
      injection Hrun as <- _. exists []. now rewrite printed_nil. }
  rewrite (bind_ok _ _ _ _ _ (parse_hosts_ini_run base w text Ht)) in Hrun.
  destruct (fold_left _ _ _) as [[hosts groups] cur].
  destruct (fs_group_vars w) as [gfiles|] eqn:Hg.
  2:{ rewrite (bind_raise _ _ _ _ _ (load_all_vars_missing base GroupVars w Hg)) in Hrun.
      injection Hrun as <- _. exists []. now rewrite printed_nil. }
  destruct (first_value_error gfiles (Dict.keys gfiles)) as [msg|] eqn:Eg.
  { rewrite (bind_raise _ _ _ _ _ (load_all_vars_raises base GroupVars gfiles w msg Hg Eg))
      in Hrun.
    injection Hrun as <- _. eexists. reflexivity. }
  rewrite (bind_ok _ _ _ _ _ (load_all_vars_run base GroupVars gfiles w Hg Eg)) in Hrun.
  destruct (fs_host_vars w) as [hfiles|] eqn:Hh.
  2:{ erewrite bind_raise in Hrun;
        [|apply load_all_vars_missing; now rewrite dir_of_printed].
      injection Hrun as <- _. eexists. reflexivity. }
  destruct (first_value_error hfiles (Dict.keys hfiles)) as [msg|] eqn:Eh.
  { erewrite bind_raise in Hrun;
      [|apply (load_all_vars_raises base HostVars hfiles _ msg);
        [now rewrite dir_of_printed|exact Eh]].
    rewrite printed_printed in Hrun.
    injection Hrun as <- _. eexists. reflexivity. }
  erewrite bind_ok in Hrun;
    [|apply (load_all_vars_run base HostVars hfiles);
      [now rewrite dir_of_printed|exact Eh]].
  rewrite printed_printed in Hrun.
  match type of Hrun with context [printed w ?o] => set (out := o) in * end.
  unfold bind at 1 in Hrun.
  match type of Hrun with context [as_mappings ?v ?w0] =>
    destruct (as_mappings_world v w0) as [r1 E1]; rewrite E1 in Hrun end.
  destruct r1 as [gm|e]; [|injection Hrun as <- _; now exists out].
  unfold bind at 1 in Hrun.
  match type of Hrun with context [as_mappings ?v ?w0] =>
    destruct (as_mappings_world v w0) as [r2 E2]; rewrite E2 in Hrun end.
  destruct r2 as [hm|e]; [|injection Hrun as <- _; now exists out].
  unfold bind, probe_dir, listdir, ret in Hrun. simpl in Hrun. rewrite Hh in Hrun.
  injection Hrun as <- _. now exists out.
Qed.

Lemma analyze_inventory_writes_nothing_witness :
  exists out, case_collision = printed case_collision out.
Proof.
  apply (analyze_inventory_writes_nothing scalar_str "inv" case_collision
           case_collision (Ok case_collision_report) eq_refl).
Defined.

(** X14 -- What the analysis cannot find it reports in the order it
    looks: a missing membership file first, then a missing [group_vars],
    then a missing [host_vars] -- the last after the files of
    [group_vars] were loaded and their errors printed.  Each is a
    [FileNotFoundError] naming the path.  A file of [group_vars] the
    reader raises [ValueError] on comes before a missing [host_vars]: the
    analysis ends with that [ValueError], after the files before it were
    loaded, and never looks for [host_vars]. *)
Theorem analyze_inventory_missing_paths
  (py_str : value -> string) (base : string) (w : world) :
  (fs_hosts w = None ->
   Analyze.analyze_inventory py_str base w
   = (w, Raise (FileNotFoundError (PyStr.path_join base "hosts"))))
  /\ (fs_hosts w <> None -> fs_group_vars w = None ->
      Analyze.analyze_inventory py_str base w
      = (w, Raise (FileNotFoundError (PyStr.path_join base "group_vars"))))
  /\ (forall gfiles,
        fs_hosts w <> None -> fs_group_vars w = Some gfiles -> fs_host_vars w = None ->
        Analyze.analyze_inventory py_str base w
        = (printed w
             (load_output base GroupVars gfiles (read_names gfiles (Dict.keys gfiles))),
           Raise (match first_value_error gfiles (Dict.keys gfiles) with
                  | Some msg => ValueError msg
                  | None => FileNotFoundError (PyStr.path_join base "host_vars")
                  end))).
Proof.
  unfold Analyze.analyze_inventory. split; [|split].
  - intros Ht. apply bind_raise. now apply parse_hosts_ini_missing.
  - intros Ht Hg. destruct (fs_hosts w) as [text|] eqn:E; [|contradiction].
    rewrite (bind_ok _ _ _ _ _ (parse_hosts_ini_run base w text E)).
    destruct (fold_left _ _ _) as [[hosts groups] cur].
    apply bind_raise. now apply load_all_vars_missing.
  - intros gfiles Ht Hg Hh. destruct (fs_hosts w) as [text|] eqn:E; [|contradiction].
    rewrite (bind_ok _ _ _ _ _ (parse_hosts_ini_run base w text E)).
    destruct (fold_left _ _ _) as [[hosts groups] cur].
    destruct (first_value_error gfiles (Dict.keys gfiles)) as [msg|] eqn:Eg.
    + apply bind_raise. now apply load_all_vars_raises.
    + rewrite (read_names_all _ _ Eg).
      rewrite (bind_ok _ _ _ _ _ (load_all_vars_run base GroupVars gfiles w Hg Eg)).
      apply bind_raise. apply load_all_vars_missing. now rewrite dir_of_printed.
Qed.

Lemma analyze_inventory_missing_paths_witness :
  Analyze.analyze_inventory scalar_str "inv" no_host_vars
  = (printed no_host_vars ["Error loading inv/group_vars/web.yml: bad indentation"],
     Raise (FileNotFoundError "inv/host_vars"))
  /\ Analyze.analyze_inventory scalar_str "inv"
       (mkWorld (fs_hosts invalid_date) (fs_group_vars invalid_date) None [])
     = (mkWorld (fs_hosts invalid_date) (fs_group_vars invalid_date) None [],
        Raise (ValueError "day is out of range for month")).
Proof.
  split.
  - destruct (analyze_inventory_missing_paths scalar_str "inv" no_host_vars)
      as (_ & _ & H).
    apply (H [("web.yml", FUnparsable "bad indentation")]);
      [discriminate|reflexivity|reflexivity].
  - destruct (analyze_inventory_missing_paths scalar_str "inv"
                (mkWorld (fs_hosts invalid_date) (fs_group_vars invalid_date) None []))
      as (_ & _ & H).
    apply (H [("all.yml", FDoc (VMap [("user", VStr "www")]));
              ("web.yml", FValueError "day is out of range for month");
              ("db.yml", FDoc (VMap [("port", VInt 5432)]))]);
      [discriminate|reflexivity|reflexivity].
Defined.

Lemma keys_fold_records {A V} (f : string -> A -> V) (items : list (string * A)) :
  forall acc k,
    In k (Dict.keys (fold_left (fun acc '(h, a) => Dict.set h (f h a) acc) items acc))
    <-> In k (Dict.keys items) \/ In k (Dict.keys acc).
Proof.
  induction items as [|[h a] items IH]; intros acc k; simpl.
  - tauto.
  - rewrite IH, keys_set_In. intuition.
Qed.

Lemma keys_fold_const {V} (r0 : V) (os : list string) :
  forall (acc : list (string * V)) k,
    In k (Dict.keys (fold_left (fun acc o => Dict.set o r0 acc) os acc))
    <-> In k os \/ In k (Dict.keys acc).
Proof.
  induction os as [|o os IH]; intros acc k; simpl.
  - tauto.
  - rewrite IH, keys_set_In. intuition.
Qed.

(** X15 -- The report has one record for each host of the parsed model
    and one for each stem of a variable file of [host_vars] that is no
    host of the model, and no other record.  The record of a host has the
    group list of the host, joined by ", ", as "Groups", and "No" as
    "Orphaned Host Var". *)
Theorem report_keys_are_hosts_and_orphans
  (py_str : value -> string) (base : string) (w w' : world) (report : report)
  (hosts groups : list (string * list string)) (files : directory)
  (Hrun : Analyze.analyze_inventory py_str base w = (w', Ok report))
  (Hparse : Analyze.parse_hosts_ini base w = (w, Ok (hosts, groups)))
  (Hfiles : fs_host_vars w = Some files) :
  (forall k,
      In k (Dict.keys report)
      <-> In k (Dict.keys hosts)
          \/ (~ In k (Dict.keys hosts)
              /\ exists file_name,
                   In file_name (Dict.keys files)
                   /\ Analyze.is_var_file file_name = true
                   /\ k = fst (PyStr.splitext file_name)))
  /\ (forall host gs,
        Dict.get host hosts = Some gs ->
        exists r,
          Dict.get host report = Some r
          /\ Groups r = PyStr.join ", " gs
          /\ Orphaned_Host_Var r = "No")
  /\ NoDup (Dict.keys report).
Proof.
  split; [|split].
  - destruct (analyze_inventory_ok _ _ _ _ _ Hrun)
      as (hosts' & groups' & files' & dv & iv & Hp & Hf & ->).
    rewrite Hparse in Hp. injection Hp as <- <-.
    rewrite Hfiles in Hf. injection Hf as <-.
    intros k. rewrite keys_fold_const.
    rewrite (keys_fold_records
               (fun h a => Analyze.host_record py_str h a dv iv _ _) hosts [] k).
    rewrite orphans_spec. simpl. split.
    + intros [(n & Hn & Hv & Hs & Hnot)|[H|[]]]; [right|now left].
      split; [exact Hnot|]. now exists n.
    + intros [H|(Hnot & n & Hn & Hv & Hs)]; [right; now left|left].
      now exists n.
  - intros host gs Hhost.
    destruct (host_record_in_report _ _ _ _ _ _ _ _ _ Hrun Hparse Hhost)
      as (_ & dv & iv & mf & Hget).
    eexists. split; [exact Hget|]. now split.
  - destruct (analyze_inventory_ok _ _ _ _ _ Hrun)
      as (hosts' & groups' & files' & dv & iv & Hp & Hf & ->).
    apply keys_fold_const_nodup.
    apply (keys_fold_records_nodup
             (fun h a => Analyze.host_record py_str h a dv iv _ _)).
    constructor.
Qed.

Lemma report_keys_are_hosts_and_orphans_witness :
  In "ghost" (Dict.keys ghost_and_phantom_report)
  /\ ~ In "phantom" (Dict.keys ghost_and_phantom_report).
Proof.
  destruct (report_keys_are_hosts_and_orphans scalar_str "inv" ghost_and_phantom
              ghost_and_phantom ghost_and_phantom_report
              [("app1", ["web"])] [("web", ["app1"]); ("db", [])]
              [("app1.yml", FDoc (VMap [("port", VInt 8080)]));
               ("ghost.yml", FDoc (VMap [("port", VInt 80)]))]
              eq_refl eq_refl eq_refl) as (Hkeys & _ & _).
  split.
  - apply Hkeys. right. split.
    + simpl. intros [E|[]]. discriminate E.
    + exists "ghost.yml". split; [right; now left|]. now split.
  - intros Hin. apply Hkeys in Hin.
    destruct Hin as [[E|[]]|(_ & n & [<-|[<-|[]]] & _ & E)]; discriminate E.
Defined.

(** ** The two stand-alone checks *)

Lemma fold_left_collect_list {A B} (c : A -> bool) (f : A -> B) (l : list A) :
  forall acc,
    fold_left (fun acc x => if c x then (acc ++ [f x])%list else acc) l acc
    = (acc ++ map f (filter c l))%list.
Proof.
  induction l as [|x l IH]; intros acc; simpl.
  - now rewrite app_nil_r.
  - rewrite IH. destruct (c x); simpl; [|reflexivity].
    now rewrite <- app_assoc.
Qed.

Lemma find_inconsistent_hosts_run host_groups base w :
  Checks.find_inconsistent_hosts host_groups base w
  = (w, Ok (filter (fun host => negb (host_has_file (fs_host_vars w) host))
              (Dict.keys host_groups))).
Proof.
  unfold Checks.find_inconsistent_hosts, bind, probe_dir, ret. simpl.
  rewrite (fold_left_collect_list
             (fun host => negb (host_has_file (fs_host_vars w) host))
             (fun host => host)).
  simpl. now rewrite map_id.
Qed.

(** X16 -- On the host model the parser returns, the check for hosts
    without a variable file finds nothing: the parser has left those
    hosts out already. *)
Theorem find_inconsistent_hosts_of_parsed_model
  (base : string) (w w' : world) (hosts groups : list (string * list string))
  (Hparse : Analyze.parse_hosts_ini base w = (w', Ok (hosts, groups))) :
  Checks.find_inconsistent_hosts hosts base w = (w, Ok []).
Proof.
  rewrite find_inconsistent_hosts_run. do 2 f_equal.
  destruct (parse_hosts_ini_backed _ _ _ _ _ Hparse) as (Hback & _ & _).
  induction (Dict.keys hosts) as [|h l IH]; simpl; [reflexivity|].
  rewrite (Hback h (or_introl eq_refl)). simpl.
  apply IH. intros h' Hh'. apply Hback. now right.
Qed.

Lemma find_inconsistent_hosts_of_parsed_model_witness :
  Checks.find_inconsistent_hosts [("app1", ["web"])] "inv" ghost_and_phantom
  = (ghost_and_phantom, Ok []).
Proof.
  apply (find_inconsistent_hosts_of_parsed_model "inv" ghost_and_phantom
           ghost_and_phantom [("app1", ["web"])] [("web", ["app1"]); ("db", [])]
           eq_refl).
Defined.

(** X17 -- Without a [host_vars] directory the two checks part ways: the
    check for hosts without a file returns every host it was given and
    raises nothing, the check for orphaned files raises
    [FileNotFoundError] for the directory. *)
Theorem checks_without_host_vars
  (host_groups : list (string * list string)) (base : string) (w : world)
  (Hmissing : fs_host_vars w = None) :
  Checks.find_inconsistent_hosts host_groups base w = (w, Ok (Dict.keys host_groups))
  /\ Checks.find_orphaned_host_vars host_groups base w
     = (w, Raise (FileNotFoundError (PyStr.path_join base "host_vars"))).
Proof.
  split.
  - rewrite find_inconsistent_hosts_run, Hmissing. do 2 f_equal.
    now apply filter_all_true.
  - unfold Checks.find_orphaned_host_vars. apply bind_raise.
    unfold listdir. simpl. now rewrite Hmissing.
Qed.

Lemma checks_without_host_vars_witness :
  Checks.find_inconsistent_hosts [("app1", ["web"])] "inv" no_host_vars
  = (no_host_vars, Ok ["app1"]).
Proof.
  apply (checks_without_host_vars [("app1", ["web"])] "inv" no_host_vars eq_refl).
Defined.

Lemma orphans_loop_closed_form defined names : forall acc,
  fold_left
    (fun orphaned_files file_name =>
       if Analyze.is_var_file file_name
       then
         let host_name := fst (PyStr.splitext file_name) in
         if negb (existsb (String.eqb host_name) defined)
         then (orphaned_files ++ [host_name])%list
         else orphaned_files
       else orphaned_files)
    names acc
  = (acc
     ++ map (fun file_name => fst (PyStr.splitext file_name))
          (filter
             (fun file_name =>
                Analyze.is_var_file file_name
                && negb (existsb (String.eqb (fst (PyStr.splitext file_name))) defined))
             names))%list.
Proof.
  induction names as [|n names IH]; intros acc; simpl.
  - now rewrite app_nil_r.
  - rewrite IH. destruct (Analyze.is_var_file n); simpl; [|reflexivity].
    destruct (existsb _ defined); simpl; [reflexivity|].
    now rewrite <- app_assoc.
Qed.

Lemma count_orphans defined names k :
  ~ In k defined ->
  count_occ string_dec
    (map (fun file_name => fst (PyStr.splitext file_name))
       (filter
          (fun file_name =>
             Analyze.is_var_file file_name
             && negb (existsb (String.eqb (fst (PyStr.splitext file_name))) defined))
          names))
    k
  = List.length
      (filter (fun file_name =>
                 Analyze.is_var_file file_name
                 && String.eqb (fst (PyStr.splitext file_name)) k)
              names).
Proof.
  intros Hnot. induction names as [|n names IH]; simpl; [reflexivity|].
  destruct (Analyze.is_var_file n); simpl; [|exact IH].
  destruct (String.eqb_spec (fst (PyStr.splitext n)) k) as [E|Hne].
  - assert (Hex : existsb (String.eqb (fst (PyStr.splitext n))) defined = false).
    { destruct (existsb _ _) eqn:Hx; [|reflexivity].
      apply existsb_eqb_In in Hx. rewrite E in Hx. contradiction. }
    rewrite Hex. simpl. destruct (string_dec _ k); [|contradiction].
    now rewrite IH.
  - destruct (existsb _ defined); simpl; [exact IH|].
    destruct (string_dec _ k); [contradiction|exact IH].
Qed.

(** X18 -- The check for orphaned files and the report agree, but for
    the count: a name is in the list of the check exactly when the
    report has a record under it with "Orphaned Host Var" at "Yes";
    the list names it once for every variable file with that stem (twice
    when [<name>.yaml] and [<name>.yml] both exist), the report holds
    one record. *)
Theorem find_orphaned_host_vars_agrees_with_report
  (py_str : value -> string) (base : string) (w w' : world) (report : report)
  (hosts groups : list (string * list string)) (files : directory)
  (Hrun : Analyze.analyze_inventory py_str base w = (w', Ok report))
  (Hparse : Analyze.parse_hosts_ini base w = (w, Ok (hosts, groups)))
  (Hfiles : fs_host_vars w = Some files) :
  exists orphaned_hosts,
    Checks.find_orphaned_host_vars hosts base w = (w, Ok orphaned_hosts)
    /\ (forall k,
          In k orphaned_hosts
          <-> exists r, Dict.get k report = Some r /\ Orphaned_Host_Var r = "Yes")
    /\ (forall k,
          ~ In k (Dict.keys hosts) ->
          count_occ string_dec orphaned_hosts k
          = List.length
              (filter (fun file_name =>
                         Analyze.is_var_file file_name
                         && String.eqb (fst (PyStr.splitext file_name)) k)
                      (Dict.keys files)))
    /\ (forall k, In k orphaned_hosts ->
                  filter (fun e => String.eqb (fst e) k) report
                  = [(k, Analyze.orphan_record)]).
Proof.
  exists (Analyze.orphans (Dict.keys hosts) (Dict.keys files)).
  split; [|split; [|split]].
  - unfold Checks.find_orphaned_host_vars, bind, listdir, ret. simpl.
    now rewrite Hfiles.
  - destruct (analyze_inventory_ok _ _ _ _ _ Hrun)
      as (hosts' & groups' & files' & dv & iv & Hp & Hf & ->).
    rewrite Hparse in Hp. injection Hp as <- <-.
    rewrite Hfiles in Hf. injection Hf as <-.
    destruct (parse_hosts_ini_backed _ _ _ _ _ Hparse) as (_ & _ & Hnd).
    intros k. rewrite get_fold_const. split.
    + intros Hin. apply existsb_eqb_In in Hin. rewrite Hin.
      now exists Analyze.orphan_record.
    + intros (r & Hget & Ho). destruct (existsb _ _) eqn:E.
      * now apply existsb_eqb_In in E.
      * rewrite (get_fold_records
                   (fun h a => Analyze.host_record py_str h a dv iv _ _)
                   hosts [] k Hnd) in Hget.
        destruct (Dict.get k hosts); [|discriminate].
        injection Hget as <-. discriminate Ho.
  - intros k Hnot. unfold Analyze.orphans.
    rewrite orphans_loop_closed_form. simpl. now apply count_orphans.
  - destruct (analyze_inventory_ok _ _ _ _ _ Hrun)
      as (hosts' & groups' & files' & dv & iv & Hp & Hf & ->).
    rewrite Hparse in Hp. injection Hp as <- <-.
    rewrite Hfiles in Hf. injection Hf as <-.
    intros k Hin. apply filter_key_nodup.
    + apply keys_fold_const_nodup.
      apply (keys_fold_records_nodup
               (fun h a => Analyze.host_record py_str h a dv iv _ _)).
      constructor.
    + rewrite get_fold_const. apply existsb_eqb_In in Hin. now rewrite Hin.
Qed.

Lemma find_orphaned_host_vars_agrees_with_report_witness :
  Checks.find_orphaned_host_vars [("app1", ["web"])] "inv" twin_orphan
  = (twin_orphan, Ok ["ghost"; "ghost"])
  /\ exists orphaned_hosts,
       Checks.find_orphaned_host_vars [("app1", ["web"])] "inv" twin_orphan
       = (twin_orphan, Ok orphaned_hosts)
       /\ count_occ string_dec orphaned_hosts "ghost" = 2.
Proof.
  split; [reflexivity|].
  destruct (find_orphaned_host_vars_agrees_with_report scalar_str "inv" twin_orphan
              twin_orphan
              [("app1", mkDefect "web" "No duplicated variables"
                          "No inconsistent variables" "No duplication in groups"
                          "No" "No");
               ("ghost", Analyze.orphan_record)]
              [("app1", ["web"])] [("web", ["app1"])]
              [("app1.yml", FDoc (VMap []));
               ("ghost.yaml", FDoc (VMap []));
               ("ghost.yml", FDoc (VMap []))]
              eq_refl eq_refl eq_refl)
    as (os & Hrun & _ & Hcount & _).
  exists os. split; [exact Hrun|].
  rewrite (Hcount "ghost"); [reflexivity|].
  simpl. intros [E|[]]. discriminate E.
Defined.

(** ** The variable fields of a record *)

Lemma as_mappings_loop_members vars : forall acc w w' ms,
  fold_m vars
    (fun acc '(name, v) => m <- as_mapping name v ;; ret (acc ++ [(name, m)])%list)
    acc w = (w', Ok ms) ->
  forall name m, In (name, m) ms <-> In (name, m) acc \/ In (name, VMap m) vars.
Proof.
  induction vars as [|[name0 v0] vars IH]; intros acc w w' ms; simpl.
  - unfold ret. intros H. injection H as _ <-. intros name m. tauto.
  - unfold bind at 1. destruct v0 as [| | | | |m0]; simpl; unfold raise;
      try discriminate.
    unfold bind at 1, ret at 1. intros H name m.
    rewrite (IH _ _ _ _ H name m), in_app_iff. simpl. split.
    + intros [[Ha|[E|[]]]|Hv]; auto. injection E as <- <-. right. now left.
    + intros [Ha|[E|Hv]]; auto. injection E as <- <-. left. right. now left.
Qed.

Lemma load_steps_nodup files names : forall acc,
  NoDup (Dict.keys acc) -> NoDup (Dict.keys (fold_left (load_step files) names acc)).
Proof.
  induction names as [|n names IH]; intros acc Hnd; simpl; [exact Hnd|].
  apply IH. unfold load_step. destruct (Analyze.is_var_file n); [|exact Hnd].
  destruct (Dict.get n files); [|exact Hnd]. now apply keys_set_nodup.
Qed.

Lemma loaded_vars_members files name m :
  In (name, VMap m) (fold_left (load_step files) (Dict.keys files) [])
  <-> loads_as files name m.
Proof.
  unfold loads_as. split.
  - intros Hin. apply In_get_nodup in Hin; [|apply load_steps_nodup; constructor].
    rewrite get_load_steps in Hin.
    destruct (Analyze.is_var_file name); [|discriminate]. simpl in Hin.
    destruct (existsb _ _); [|discriminate].
    destruct (Dict.get name files) as [f|]; [|discriminate].
    injection Hin as E. split; [reflexivity|]. now exists f.
  - intros (Hv & f & Hf & Hl). apply get_In. rewrite get_load_steps, Hv, Hf.
    assert (E : existsb (String.eqb name) (Dict.keys files) = true).
    { apply existsb_eqb_In. now apply get_Some_keys in Hf. }
    rewrite E. simpl. now rewrite Hl.
Qed.

(** A run of the analysis that returns a report, with the two variable
    collections it cross-referenced. *)
Lemma analyze_inventory_ok_vars py_str base w w' report :
  Analyze.analyze_inventory py_str base w = (w', Ok report) ->
  exists hosts groups gfiles hfiles gm hm,
    Analyze.parse_hosts_ini base w = (w, Ok (hosts, groups))
    /\ fs_group_vars w = Some gfiles
    /\ fs_host_vars w = Some hfiles
    /\ (forall name m, In (name, m) gm <-> loads_as gfiles name m)
    /\ (forall name m, In (name, m) hm <-> loads_as hfiles name m)
    /\ report
       = fold_left
           (fun acc o => Dict.set o Analyze.orphan_record acc)
           (Analyze.orphans (Dict.keys hosts) (Dict.keys hfiles))
           (fold_left
              (fun acc '(host, gs) =>
                 Dict.set host
                   (Analyze.host_record py_str host gs
                      (Analyze.check_duplicate_vars gm hm)
                      (Analyze.check_inconsistent_values gm hm)
                      (filter (fun '(host, gs) => (1 <? List.length gs)%nat) hosts)
                      (filter (fun host => negb (host_has_file (Some hfiles) host))
                              (Dict.keys hosts)))
                   acc)
              hosts []).
Proof.
  unfold Analyze.analyze_inventory. unfold bind at 1.
  destruct (Analyze.parse_hosts_ini base w) as [w1 [[hosts groups]|e]] eqn:Hp;
    [|discriminate].
  destruct (parse_hosts_ini_ok _ _ _ _ _ Hp) as [-> _].
  unfold bind at 1.
  destruct (fs_group_vars w) as [gfiles|] eqn:Hg;
    [|rewrite (load_all_vars_missing base GroupVars w Hg); discriminate].
  rewrite (load_all_vars_general base GroupVars gfiles w Hg).
  destruct (first_value_error gfiles (Dict.keys gfiles)) as [msg|] eqn:Eg;
    [discriminate|].
  rewrite (read_names_all _ _ Eg).
  unfold bind at 1.
  destruct (fs_host_vars w) as [hfiles|] eqn:Hh.
  2:{ rewrite load_all_vars_missing; [discriminate|].
      now rewrite dir_of_printed. }
  rewrite (load_all_vars_general base HostVars hfiles); [|now rewrite dir_of_printed].
  destruct (first_value_error hfiles (Dict.keys hfiles)) as [msg|] eqn:Eh;
    [discriminate|].
  rewrite (read_names_all _ _ Eh).
  rewrite printed_printed.
  unfold bind at 1.
  match goal with |- context [as_mappings ?v ?w0] =>
    destruct (as_mappings v w0) as [w2 [gm|e]] eqn:E1 end; [|discriminate].
  unfold bind at 1.
  match goal with |- context [as_mappings ?v ?w0] =>
    destruct (as_mappings v w0) as [w3 [hm|e]] eqn:E2 end; [|discriminate].
  destruct (as_mappings_world (fold_left (load_step hfiles) (Dict.keys hfiles) []) w2)
    as [r2 E2']. rewrite E2' in E2. injection E2 as <- ->.
  match type of E1 with as_mappings ?v ?w0 = _ =>
    destruct (as_mappings_world v w0) as [r1 E1'] end.
  rewrite E1' in E1. injection E1 as <- ->.
  unfold bind, probe_dir, listdir, ret. simpl. rewrite Hh.
  intros H. injection H as _ <-.
  exists hosts, groups, gfiles, hfiles, gm, hm.
  split; [reflexivity|]. split; [reflexivity|]. split; [reflexivity|].
  split; [|split; [|reflexivity]].
  - intros name m. rewrite (as_mappings_loop_members _ _ _ _ _ E1' name m).
    rewrite loaded_vars_members. simpl. tauto.
  - intros name m. rewrite (as_mappings_loop_members _ _ _ _ _ E2' name m).
    rewrite loaded_vars_members. simpl. tauto.
Qed.

Lemma fold_left_invariant {A S} (P : S -> Prop) (step : S -> A -> S) (l : list A) :
  (forall s a, P s -> P (step s a)) -> forall s, P s -> P (fold_left step l s).
Proof.
  intros Hstep. induction l as [|a l IH]; intros s Hs; simpl; [exact Hs|].
  apply IH. now apply Hstep.
Qed.

Lemma check_duplicate_vars_nodup group_vars host_vars :
  NoDup (Dict.keys (Analyze.check_duplicate_vars group_vars host_vars)).
Proof.
  unfold Analyze.check_duplicate_vars.
  apply fold_left_invariant; [|constructor]. intros d1 [gf gd] H1.
  apply fold_left_invariant; [|exact H1]. intros d2 [hf hd] H2.
  apply fold_left_invariant; [|exact H2]. intros d3 var H3.
  destruct (Dict.mem var hd); [|exact H3]. now apply keys_append_nodup.
Qed.

Lemma check_inconsistent_values_nodup group_vars host_vars :
  NoDup (Dict.keys (Analyze.check_inconsistent_values group_vars host_vars)).
Proof.
  unfold Analyze.check_inconsistent_values.
  apply fold_left_invariant; [|constructor]. intros d1 [gf gd] H1.
  apply fold_left_invariant; [|exact H1]. intros d2 [hf hd] H2.
  apply fold_left_invariant; [|exact H2]. intros d3 [var gv] H3.
  destruct (Dict.get var hd) as [hv|]; [|exact H3].
  destruct (negb (value_eqb hv gv)); [|exact H3]. now apply keys_append_nodup.
Qed.

Lemma items_get_list {X} (d : list (string * list X)) (P : X -> Prop) :
  NoDup (Dict.keys d) ->
  ((exists k l x, In (k, l) d /\ In x l /\ P x)
   <-> exists k x, In x (Dict.get_list k d) /\ P x).
Proof.
  intros Hnd. split.
  - intros (k & l & x & Hkl & Hx & HP). exists k, x. split; [|exact HP].
    unfold Dict.get_list. now rewrite (In_get_nodup d k l Hnd Hkl).
  - intros (k & x & Hx & HP). unfold Dict.get_list in Hx.
    destruct (Dict.get k d) as [l|] eqn:E; [|destruct Hx].
    exists k, l, x. split; [now apply get_In|now split].
Qed.

Lemma In_duplicated_vars_of host duplicate_vars s :
  In s (Analyze.duplicated_vars_of host duplicate_vars)
  <-> exists var files group_file,
        In (var, files) duplicate_vars /\ In (group_file, host) files
        /\ s = var ++ " (in " ++ group_file ++ " and " ++ host ++ ")".
Proof.
  unfold Analyze.duplicated_vars_of.
  assert (Hin : forall var files acc,
    In s (fold_left
            (fun duplicated_vars '(group_file, host_file) =>
               if String.eqb host_file host
               then List.app duplicated_vars
                      [var ++ " (in " ++ group_file ++ " and " ++ host_file ++ ")"]
               else duplicated_vars)
            files acc)
    <-> In s acc
        \/ exists group_file,
             In (group_file, host) files
             /\ s = var ++ " (in " ++ group_file ++ " and " ++ host ++ ")").
  { intros var files. induction files as [|[gf hf] files IH]; intros acc; simpl.
    - split; [now left|]. intros [H|(gf & [] & _)]. exact H.
    - rewrite IH. destruct (String.eqb_spec hf host) as [->|Hne].
      + rewrite in_app_iff. simpl. split.
        * intros [[H|[<-|[]]]|(gf' & H1 & H2)]; auto.
          -- right. exists gf. auto.
          -- right. exists gf'. auto.
        * intros [H|(gf' & [E|H1] & H2)]; auto.
          -- injection E as <-. left. right. left. now symmetry.
          -- right. exists gf'. auto.
      + split.
        * intros [H|(gf' & H1 & H2)]; auto. right. exists gf'. auto.
        * intros [H|(gf' & [E|H1] & H2)]; auto.
          -- injection E as _ E. contradiction.
          -- right. exists gf'. auto. }
  assert (Hout : forall dv acc,
    In s (fold_left
            (fun duplicated_vars '(var, files) =>
               fold_left
                 (fun duplicated_vars '(group_file, host_file) =>
                    if String.eqb host_file host
                    then List.app duplicated_vars
                           [var ++ " (in " ++ group_file ++ " and " ++ host_file ++ ")"]
                    else duplicated_vars)
                 files duplicated_vars)
            dv acc)
    <-> In s acc
        \/ exists var files group_file,
             In (var, files) dv /\ In (group_file, host) files
             /\ s = var ++ " (in " ++ group_file ++ " and " ++ host ++ ")").
  { induction dv as [|[var files] dv IH]; intros acc; simpl.
    - split; [now left|]. intros [H|(v & f & g & [] & _)]. exact H.
    - rewrite IH, Hin. split.
      + intros [[H|(gf & H1 & H2)]|(v & f & g & H1 & H2 & H3)]; auto.
        * right. exists var, files, gf. auto.
        * right. exists v, f, g. auto.
      + intros [H|(v & f & g & [E|H1] & H2 & H3)]; auto.
        * injection E as <- <-. left. right. exists g. auto.
        * right. exists v, f, g. auto. }
  rewrite Hout. simpl. tauto.
Qed.

Lemma In_inconsistent_vars_of py_str host inconsistent_values s :
  In s (Analyze.inconsistent_vars_of py_str host inconsistent_values)
  <-> exists var conflicts c,
        In (var, conflicts) inconsistent_values /\ In c conflicts
        /\ Analyze.cf_host_file c = host
        /\ s = var ++ " (" ++ Analyze.cf_group_file c ++ " value = "
               ++ py_str (Analyze.cf_group_value c) ++ ", "
               ++ host ++ " value = " ++ py_str (Analyze.cf_host_value c) ++ ")".
Proof.
  unfold Analyze.inconsistent_vars_of.
  set (item := fun var c =>
         var ++ " (" ++ Analyze.cf_group_file c ++ " value = "
         ++ py_str (Analyze.cf_group_value c) ++ ", "
         ++ host ++ " value = " ++ py_str (Analyze.cf_host_value c) ++ ")").
  assert (Hin : forall var conflicts acc,
    In s (fold_left
            (fun inconsistent_vars c =>
               if String.eqb (Analyze.cf_host_file c) host
               then List.app inconsistent_vars [item var c]
               else inconsistent_vars)
            conflicts acc)
    <-> In s acc
        \/ exists c, In c conflicts /\ Analyze.cf_host_file c = host /\ s = item var c).
  { intros var conflicts. induction conflicts as [|c0 conflicts IH]; intros acc; simpl.
    - split; [now left|]. intros [H|(c & [] & _)]. exact H.
    - rewrite IH. destruct (String.eqb_spec (Analyze.cf_host_file c0) host) as [E|Hne].
      + rewrite in_app_iff. simpl. split.
        * intros [[H|[<-|[]]]|(c & H1 & H2)]; auto.
          -- right. exists c0. auto.
          -- right. exists c. tauto.
        * intros [H|(c & [<-|H1] & H2 & H3)]; auto.
          all: right; exists c; auto.
      + split.
        * intros [H|(c & H1 & H2)]; auto. right. exists c. tauto.
        * intros [H|(c & [<-|H1] & H2 & H3)]; auto; try contradiction.
          all: right; exists c; auto. }
  assert (Hout : forall iv acc,
    In s (fold_left
            (fun inconsistent_vars '(var, conflicts) =>
               fold_left
                 (fun inconsistent_vars c =>
                    if String.eqb (Analyze.cf_host_file c) host
                    then List.app inconsistent_vars [item var c]
                    else inconsistent_vars)
                 conflicts inconsistent_vars)
            iv acc)
    <-> In s acc
        \/ exists var conflicts c,
             In (var, conflicts) iv /\ In c conflicts
             /\ Analyze.cf_host_file c = host /\ s = item var c).
  { induction iv as [|[var conflicts] iv IH]; intros acc; simpl.
    - split; [now left|]. intros [H|(v & f & g & [] & _)]. exact H.
    - rewrite IH, Hin. split.
      + intros [[H|(c & H1 & H2 & H3)]|(v & f & c & H1 & H2 & H3)]; auto.
        * right. exists var, conflicts, c. auto.
        * right. exists v, f, c. tauto.
      + intros [H|(v & f & c & [E|H1] & H2 & H3 & H4)]; auto.
        * injection E as <- <-. left. right. exists c. auto.
        * right. exists v, f, c. auto. }
  unfold item in Hout. rewrite Hout. simpl. tauto.
Qed.

Lemma join_head_contains c sep x l :
  PyStr.contains_char c x = true ->
  PyStr.contains_char c (PyStr.join sep (x :: l)) = true.
Proof.
  intros H. unfold PyStr.join. destruct l as [|y l]; [exact H|].
  change (String.concat sep (x :: y :: l))
    with (x ++ sep ++ String.concat sep (y :: l)).
  now rewrite contains_char_app, H.
Qed.

Lemma list_nonempty_In {A} (l : list A) : l <> [] <-> exists x, In x l.
Proof.
  destruct l as [|x l]; split.
  - intros H. now contradiction H.
  - intros [x []].
  - intros _. exists x. now left.
  - discriminate.
Qed.

(** The "Duplicated Variables" of the record of a host is more than the
    sentinel exactly when the duplicate pass holds an occurrence for the
    host. *)
Lemma duplicated_variables_field py_str host gs dv iv dh mf :
  NoDup (Dict.keys dv) ->
  (Duplicated_Variables (Analyze.host_record py_str host gs dv iv dh mf)
   <> "No duplicated variables"
   <-> exists var group_file, In (group_file, host) (Dict.get_list var dv)).
Proof.
  intros Hnd. unfold Analyze.host_record. simpl Duplicated_Variables.
  assert (Hne : Analyze.duplicated_vars_of host dv <> []
                <-> exists var group_file, In (group_file, host) (Dict.get_list var dv)).
  { rewrite list_nonempty_In. split.
    - intros (s & Hs). apply In_duplicated_vars_of in Hs.
      destruct Hs as (var & files & gf & H1 & H2 & _). exists var, gf.
      unfold Dict.get_list. now rewrite (In_get_nodup dv var files Hnd H1).
    - intros (var & gf & Hin). unfold Dict.get_list in Hin.
      destruct (Dict.get var dv) as [files|] eqn:E; [|destruct Hin].
      eexists. apply In_duplicated_vars_of. exists var, files, gf.
      split; [now apply get_In|]. split; [exact Hin|reflexivity]. }
  rewrite <- Hne.
  destruct (Analyze.duplicated_vars_of host dv) as [|x l] eqn:E.
  - split; intros H; now contradiction H.
  - split; [discriminate|]. intros _ Hj.
    assert (Hx : In x (Analyze.duplicated_vars_of host dv)) by (rewrite E; now left).
    apply In_duplicated_vars_of in Hx. destruct Hx as (var & files & gf & _ & _ & ->).
    assert (Hc : PyStr.contains_char "("
                   (PyStr.join "; "
                      ((var ++ " (in " ++ gf ++ " and " ++ host ++ ")") :: l)) = true).
    { apply join_head_contains. rewrite contains_char_app. simpl.
      apply orb_true_r. }
    rewrite Hj in Hc. discriminate Hc.
Qed.

Lemma inconsistent_variables_field py_str host gs dv iv dh mf :
  NoDup (Dict.keys iv) ->
  (Inconsistent_Variables (Analyze.host_record py_str host gs dv iv dh mf)
   <> "No inconsistent variables"
   <-> exists var c, In c (Dict.get_list var iv) /\ Analyze.cf_host_file c = host).
Proof.
  intros Hnd. unfold Analyze.host_record. simpl Inconsistent_Variables.
  assert (Hne : Analyze.inconsistent_vars_of py_str host iv <> []
                <-> exists var c,
                      In c (Dict.get_list var iv) /\ Analyze.cf_host_file c = host).
  { rewrite list_nonempty_In. split.
    - intros (s & Hs). apply In_inconsistent_vars_of in Hs.
      destruct Hs as (var & cs & c & H1 & H2 & H3 & _). exists var, c.
      unfold Dict.get_list. now rewrite (In_get_nodup iv var cs Hnd H1).
    - intros (var & c & Hin & Hc). unfold Dict.get_list in Hin.
      destruct (Dict.get var iv) as [cs|] eqn:E; [|destruct Hin].
      eexists. apply In_inconsistent_vars_of. exists var, cs, c.
      split; [now apply get_In|]. split; [exact Hin|]. split; [exact Hc|reflexivity]. }
  rewrite <- Hne.
  destruct (Analyze.inconsistent_vars_of py_str host iv) as [|x l] eqn:E.
  - split; intros H; now contradiction H.
  - split; [discriminate|]. intros _ Hj.
    assert (Hx : In x (Analyze.inconsistent_vars_of py_str host iv))
      by (rewrite E; now left).
    apply In_inconsistent_vars_of in Hx.
    destruct Hx as (var & cs & c & _ & _ & _ & ->).
    match type of Hj with PyStr.join _ (?x0 :: _) = _ =>
      assert (Hc : PyStr.contains_char "(" (PyStr.join "; " (x0 :: l)) = true) end.
    { apply join_head_contains. rewrite contains_char_app. simpl.
      apply orb_true_r. }
    rewrite Hj in Hc. discriminate Hc.
Qed.

(** The record of a host of the model, with the two passes it was made
    from. *)
Lemma host_record_in_report_vars
  (py_str : value -> string) (base : string) (w w' : world) (report : report)
  (hosts groups : list (string * list string)) (gfiles hfiles : directory)
  (host : string) (gs : list string) :
  Analyze.analyze_inventory py_str base w = (w', Ok report) ->
  Analyze.parse_hosts_ini base w = (w, Ok (hosts, groups)) ->
  fs_group_vars w = Some gfiles ->
  fs_host_vars w = Some hfiles ->
  Dict.get host hosts = Some gs ->
  exists gm hm dh mf,
    (forall name m, In (name, m) gm <-> loads_as gfiles name m)
    /\ (forall name m, In (name, m) hm <-> loads_as hfiles name m)
    /\ Dict.get host report
       = Some (Analyze.host_record py_str host gs
                 (Analyze.check_duplicate_vars gm hm)
                 (Analyze.check_inconsistent_values gm hm) dh mf).
Proof.
  intros Hrun Hparse Hg Hh Hhost.
  destruct (analyze_inventory_ok_vars _ _ _ _ _ Hrun)
    as (hosts' & groups' & gfiles' & hfiles' & gm & hm & Hp & Hg' & Hh' & Mg & Mh & ->).
  rewrite Hparse in Hp. injection Hp as <- <-.
  rewrite Hg in Hg'. injection Hg' as <-. rewrite Hh in Hh'. injection Hh' as <-.
  destruct (parse_hosts_ini_backed _ _ _ _ _ Hparse) as (_ & _ & Hnd).
  eexists gm, hm, _, _. split; [exact Mg|]. split; [exact Mh|].
  rewrite get_fold_const.
  assert (Hno : existsb (String.eqb host)
                  (Analyze.orphans (Dict.keys hosts) (Dict.keys hfiles)) = false).
  { destruct (existsb _ _) eqn:E; [|reflexivity].
    apply existsb_eqb_In, orphans_spec in E.
    destruct E as (n & _ & _ & _ & Hnot). exfalso. apply Hnot.
    now apply get_Some_keys in Hhost. }
  rewrite Hno.
  rewrite (get_fold_records
             (fun h a => Analyze.host_record py_str h a _ _ _ _) hosts [] host Hnd).
  now rewrite Hhost.
Qed.

(** X19 -- The "Duplicated Variables" of a host of the model is more than
    its sentinel exactly when some file of [group_vars] -- of any group,
    the host's or not -- and some file of [host_vars] with the host as
    its stem load as mappings that share a key. *)
Theorem duplicated_variables_of_host
  (py_str : value -> string) (base : string) (w w' : world) (report : report)
  (hosts groups : list (string * list string)) (gfiles hfiles : directory)
  (host : string) (gs : list string)
  (Hrun : Analyze.analyze_inventory py_str base w = (w', Ok report))
  (Hparse : Analyze.parse_hosts_ini base w = (w, Ok (hosts, groups)))
  (Hgroup : fs_group_vars w = Some gfiles)
  (Hhostv : fs_host_vars w = Some hfiles)
  (Hhost : Dict.get host hosts = Some gs) :
  exists r,
    Dict.get host report = Some r
    /\ (Duplicated_Variables r <> "No duplicated variables"
        <-> exists var group_file group_data host_file host_data,
              loads_as gfiles group_file group_data
              /\ loads_as hfiles host_file host_data
              /\ fst (PyStr.splitext host_file) = host
              /\ In var (Dict.keys group_data)
              /\ In var (Dict.keys host_data)).
Proof.
  destruct (host_record_in_report_vars _ _ _ _ _ _ _ _ _ _ _
              Hrun Hparse Hgroup Hhostv Hhost) as (gm & hm & dh & mf & Mg & Mh & Hget).
  eexists. split; [exact Hget|].
  rewrite (duplicated_variables_field py_str host gs _ _ dh mf
             (check_duplicate_vars_nodup gm hm)).
  split.
  - intros (var & gf & Hin). apply check_duplicate_vars_spec in Hin.
    destruct Hin as (gd & hf & hd & H1 & H2 & H3 & H4 & H5).
    exists var, gf, gd, hf, hd. split; [now apply Mg|]. split; [now apply Mh|].
    now split.
  - intros (var & gf & gd & hf & hd & H1 & H2 & H3 & H4 & H5).
    exists var, gf. apply check_duplicate_vars_spec. exists gd, hf, hd.
    split; [now apply Mg|]. split; [now apply Mh|]. now split.
Qed.

Lemma duplicated_variables_of_host_witness :
  exists r,
    Dict.get "app1" unrelated_group_report = Some r
    /\ Groups r = "web"
    /\ Duplicated_Variables r <> "No duplicated variables".
Proof.
  destruct (duplicated_variables_of_host scalar_str "inv" unrelated_group
              unrelated_group unrelated_group_report
              [("app1", ["web"])] [("web", ["app1"]); ("db", [])]
              [("db.yml", FDoc (VMap [("port", VInt 5432)]))]
              [("app1.yml", FDoc (VMap [("port", VInt 8080)]))]
              "app1" ["web"] eq_refl eq_refl eq_refl eq_refl eq_refl)
    as (r & Hget & Hiff).
  exists r. split; [exact Hget|]. split.
  - simpl in Hget. injection Hget as <-. reflexivity.
  - apply Hiff.
    exists "port", "db.yml", [("port", VInt 5432)], "app1.yml", [("port", VInt 8080)].
    repeat split.
    + eexists. split; reflexivity.
    + eexists. split; reflexivity.
    + now left.
    + now left.
Defined.

(** X20 -- The "Inconsistent Variables" of a host of the model is more
    than its sentinel exactly when some file of [group_vars] -- of any
    group -- and some file of [host_vars] with the host as its stem load
    as mappings that give a shared key values that differ. *)
Theorem inconsistent_variables_of_host
  (py_str : value -> string) (base : string) (w w' : world) (report : report)
  (hosts groups : list (string * list string)) (gfiles hfiles : directory)
  (host : string) (gs : list string)
  (Hrun : Analyze.analyze_inventory py_str base w = (w', Ok report))
  (Hparse : Analyze.parse_hosts_ini base w = (w, Ok (hosts, groups)))
  (Hgroup : fs_group_vars w = Some gfiles)
  (Hhostv : fs_host_vars w = Some hfiles)
  (Hhost : Dict.get host hosts = Some gs) :
  exists r,
    Dict.get host report = Some r
    /\ (Inconsistent_Variables r <> "No inconsistent variables"
        <-> exists var group_file group_data host_file host_data group_value host_value,
              loads_as gfiles group_file group_data
              /\ loads_as hfiles host_file host_data
              /\ fst (PyStr.splitext host_file) = host
              /\ In (var, group_value) group_data
              /\ Dict.get var host_data = Some host_value
              /\ value_eqb host_value group_value = false).
Proof.
  destruct (host_record_in_report_vars _ _ _ _ _ _ _ _ _ _ _
              Hrun Hparse Hgroup Hhostv Hhost) as (gm & hm & dh & mf & Mg & Mh & Hget).
  eexists. split; [exact Hget|].
  rewrite (inconsistent_variables_field py_str host gs _ _ dh mf
             (check_inconsistent_values_nodup gm hm)).
  split.
  - intros (var & c & Hin & Hc). apply check_inconsistent_values_spec in Hin.
    destruct Hin as (gd & hf & hd & H1 & H2 & H3 & H4 & H5 & H6).
    exists var, (Analyze.cf_group_file c), gd, hf, hd,
      (Analyze.cf_group_value c), (Analyze.cf_host_value c).
    split; [now apply Mg|]. split; [now apply Mh|].
    split; [congruence|]. now split.
  - intros (var & gf & gd & hf & hd & gv & hv & H1 & H2 & H3 & H4 & H5 & H6).
    exists var, (Analyze.mkConflict gf host gv hv). split; [|reflexivity].
    apply check_inconsistent_values_spec. exists gd, hf, hd. simpl.
    split; [now apply Mg|]. split; [now apply Mh|]. now split.
Qed.

Lemma inconsistent_variables_of_host_witness :
  exists r,
    Dict.get "app1" unrelated_group_report = Some r
    /\ Inconsistent_Variables r <> "No inconsistent variables".
Proof.
  destruct (inconsistent_variables_of_host scalar_str "inv" unrelated_group
              unrelated_group unrelated_group_report
              [("app1", ["web"])] [("web", ["app1"]); ("db", [])]
              [("db.yml", FDoc (VMap [("port", VInt 5432)]))]
              [("app1.yml", FDoc (VMap [("port", VInt 8080)]))]
              "app1" ["web"] eq_refl eq_refl eq_refl eq_refl eq_refl)
    as (r & Hget & Hiff).
  exists r. split; [exact Hget|].
  apply Hiff.
  exists "port", "db.yml", [("port", VInt 5432)], "app1.yml", [("port", VInt 8080)],
    (VInt 5432), (VInt 8080).
  repeat split.
  - eexists. split; reflexivity.
  - eexists. split; reflexivity.
  - now left.
Defined.

(** X21 -- A host with an inconsistent variable has a duplicated one: in
    the record of a host of the model, "Inconsistent Variables" is its
    sentinel whenever "Duplicated Variables" is. *)
Theorem inconsistent_implies_duplicated
  (py_str : value -> string) (base : string) (w w' : world) (report : report)
  (hosts groups : list (string * list string)) (host : string) (gs : list string)
  (r : defect)
  (Hrun : Analyze.analyze_inventory py_str base w = (w', Ok report))
  (Hparse : Analyze.parse_hosts_ini base w = (w, Ok (hosts, groups)))
  (Hhost : Dict.get host hosts = Some gs)
  (Hrecord : Dict.get host report = Some r)
  (Hdup : Duplicated_Variables r = "No duplicated variables") :
  Inconsistent_Variables r = "No inconsistent variables".
Proof.
  destruct (analyze_inventory_ok_vars _ _ _ _ _ Hrun)
    as (hosts' & groups' & gfiles & hfiles & _ & _ & Hp & Hg & Hh & _).
  rewrite Hparse in Hp. injection Hp as <- <-.
  destruct (host_record_in_report_vars _ _ _ _ _ _ _ _ _ _ _
              Hrun Hparse Hg Hh Hhost) as (gm & hm & dh & mf & _ & _ & Hget).
  rewrite Hrecord in Hget. injection Hget as ->.
  destruct (String.eqb_spec
              (Inconsistent_Variables
                 (Analyze.host_record py_str host gs
                    (Analyze.check_duplicate_vars gm hm)
                    (Analyze.check_inconsistent_values gm hm) dh mf))
              "No inconsistent variables") as [E|Hne]; [exact E|].
  exfalso.
  apply (inconsistent_variables_field py_str host gs _ _ dh mf
           (check_inconsistent_values_nodup gm hm)) in Hne.
  destruct Hne as (var & c & Hin & Hc).
  apply check_inconsistent_values_spec in Hin.
  destruct Hin as (gd & hf & hd & H1 & H2 & H3 & H4 & H5 & _).
  assert (Hd : Duplicated_Variables
                 (Analyze.host_record py_str host gs
                    (Analyze.check_duplicate_vars gm hm)
                    (Analyze.check_inconsistent_values gm hm) dh mf)
               <> "No duplicated variables").
  { apply (duplicated_variables_field py_str host gs _ _ dh mf
             (check_duplicate_vars_nodup gm hm)).
    exists var, (Analyze.cf_group_file c). apply check_duplicate_vars_spec.
    exists gd, hf, hd. split; [exact H1|]. split; [exact H2|].
    split; [congruence|]. split.
    - now apply (in_map fst) in H4.
    - now apply get_Some_keys in H5. }
  contradiction.
Qed.

Lemma inconsistent_implies_duplicated_witness :
  Inconsistent_Variables
    (mkDefect "web, web" "No duplicated variables" "No inconsistent variables"
       "web, web" "No" "No")
  = "No inconsistent variables".
Proof.
  apply (inconsistent_implies_duplicated scalar_str "inv" twice_listed twice_listed
           twice_listed_report [("web", ["web"; "web"])] [("web", ["web"; "web"])]
           "web" ["web"; "web"]
           (mkDefect "web, web" "No duplicated variables" "No inconsistent variables"
              "web, web" "No" "No")
           eq_refl eq_refl eq_refl eq_refl eq_refl).
Defined.

(** ** Analysis, then cleanup *)

Lemma flagged_by_analysis py_str base w w' report hosts groups t :
  Analyze.analyze_inventory py_str base w = (w', Ok report) ->
  Analyze.parse_hosts_ini base w = (w, Ok (hosts, groups)) ->
  flagged report t = listed_more_than_once hosts t.
Proof.
  intros Hrun Hparse. unfold flagged, listed_more_than_once.
  destruct (Dict.get t hosts) as [gs|] eqn:Hhost.
  - destruct (host_record_in_report _ _ _ _ _ _ _ _ _ Hrun Hparse Hhost)
      as (Hnd & dv & iv & mf & Hget).
    rewrite Hget.
    rewrite (duplicated_host_of_record py_str t gs dv iv hosts mf Hnd Hhost).
    assert (Hm : Missing_File_in_host_vars
                   (Analyze.host_record py_str t gs dv iv
                      (filter (fun '(host, gs) => (1 <? List.length gs)%nat) hosts) mf)
                 = "No").
    { apply (report_missing_file_always_no _ _ _ _ _ Hrun t). now apply get_In. }
    rewrite Hm. simpl. rewrite orb_false_r.
    destruct (1 <? List.length gs)%nat eqn:Hlen; [|reflexivity].
    apply Nat.ltb_lt, joined_groups_not_sentinel in Hlen.
    apply String.eqb_neq in Hlen. now rewrite Hlen.
  - destruct (Dict.get t report) as [r|] eqn:Hget; [|reflexivity].
    destruct (analyze_inventory_ok _ _ _ _ _ Hrun)
      as (hosts' & groups' & files & dv & iv & Hp & Hf & ->).
    rewrite Hparse in Hp. injection Hp as <- <-.
    destruct (parse_hosts_ini_backed _ _ _ _ _ Hparse) as (_ & _ & Hnd).
    rewrite get_fold_const in Hget.
    destruct (existsb _ _).
    + injection Hget as <-. reflexivity.
    + rewrite (get_fold_records
                 (fun h a => Analyze.host_record py_str h a dv iv _ _)
                 hosts [] t Hnd) in Hget.
      rewrite Hhost in Hget. discriminate Hget.
Qed.

(** X22 -- Driven by the report of the analysis of the same inventory,
    [clean_hosts] drops exactly the lines that are not blank, are no
    comment, do not start with a bracket, and whose first token is a host
    the parsed model lists more than once; every other line stays, with
    its text.  So a line that starts with a bracket is never dropped, be
    it a header or the line of a host such as [[a] that the model lists
    twice; and a line whose first token is a file name without a variable
    file is never dropped: the parser left that host out, so no record
    says its file is missing. *)
Theorem clean_hosts_after_analysis
  (py_str : value -> string) (base : string) (w w' : world) (report : report)
  (hosts groups : list (string * list string)) (text : string)
  (Hrun : Analyze.analyze_inventory py_str base w = (w', Ok report))
  (Hparse : Analyze.parse_hosts_ini base w = (w, Ok (hosts, groups)))
  (Hfile : fs_hosts w = Some text) :
  (exists out,
      Clean.clean_hosts base report w
      = (mkWorld
           (Some (written
                    (filter
                       (fun line =>
                          negb (is_host_line line
                                && listed_more_than_once hosts
                                     (PyStr.first_token (PyStr.strip line))))
                       (PyStr.readlines text))))
           (fs_group_vars w) (fs_host_vars w) (fs_stdout w ++ out)%list,
         Ok tt))
  /\ (forall line,
        PyStr.startswith "[" (PyStr.strip line) = true ->
        is_host_line line = false /\ kept_line report line = true)
  /\ (forall line,
        is_file_name (PyStr.first_token (PyStr.strip line)) = true ->
        host_has_file (fs_host_vars w) (PyStr.first_token (PyStr.strip line)) = false ->
        listed_more_than_once hosts (PyStr.first_token (PyStr.strip line)) = false
        /\ kept_line report line = true).
Proof.
  assert (Hkept : forall line,
            kept_line report line
            = negb (is_host_line line
                    && listed_more_than_once hosts
                         (PyStr.first_token (PyStr.strip line)))).
  { intros line. unfold kept_line.
    rewrite (flagged_by_analysis _ _ _ _ _ _ _ _ Hrun Hparse).
    now destruct (is_host_line line). }
  split; [|split].
  - destruct (clean_hosts_run base report w text Hfile) as [out Hr].
    exists out. rewrite Hr. now rewrite (filter_ext _ _ Hkept).
  - intros line Hbracket.
    assert (Hno : is_host_line line = false).
    { unfold is_host_line, is_header. rewrite Hbracket.
      now rewrite orb_true_r. }
    split; [exact Hno|]. unfold kept_line. now rewrite Hno.
  - intros line _ Hno.
    assert (Hout : listed_more_than_once hosts (PyStr.first_token (PyStr.strip line))
                   = false).
    { unfold listed_more_than_once.
      destruct (Dict.get _ hosts) as [gs|] eqn:Hhost; [|reflexivity].
      destruct (parse_hosts_ini_backed _ _ _ _ _ Hparse) as (Hback & _ & _).
      apply get_Some_keys, Hback in Hhost. congruence. }
    split; [exact Hout|]. rewrite Hkept, Hout. now rewrite andb_false_r.
Qed.

Lemma clean_hosts_after_analysis_witness :
  (exists out,
      Clean.clean_hosts "inv" twice_listed_report twice_listed
      = (mkWorld (Some ("[web]" ++ nl)) (fs_group_vars twice_listed)
                 (fs_host_vars twice_listed) (fs_stdout twice_listed ++ out)%list,
         Ok tt))
  /\ kept_line bracket_host_report ("[a" ++ nl) = true
  /\ kept_line ghost_and_phantom_report ("phantom" ++ nl) = true.
Proof.
  split; [|split].
  - destruct (clean_hosts_after_analysis scalar_str "inv" twice_listed
                twice_listed twice_listed_report
                [("web", ["web"; "web"])] [("web", ["web"; "web"])]
                ("[web]" ++ nl ++ "web" ++ nl ++ "web" ++ nl)
                eq_refl eq_refl eq_refl) as [[out Hdrop] _].
    exists out. exact Hdrop.
  - destruct (clean_hosts_after_analysis scalar_str "inv" bracket_host
                bracket_host bracket_host_report
                [("[a", ["web"; "web"])] [("web", ["[a"; "[a"])]
                ("[web]" ++ nl ++ "[a" ++ nl ++ "[a" ++ nl)
                eq_refl eq_refl eq_refl) as (_ & Hbracket & _).
    now apply (Hbracket ("[a" ++ nl)).
  - destruct (clean_hosts_after_analysis scalar_str "inv" ghost_and_phantom
                ghost_and_phantom ghost_and_phantom_report
                [("app1", ["web"])] [("web", ["app1"]); ("db", [])]
                ("[web]" ++ nl ++ "app1 ansible_host=10.0.0.1" ++ nl
                 ++ "[db]" ++ nl ++ "phantom" ++ nl)
                eq_refl eq_refl eq_refl) as (_ & _ & Hkeep).
    now apply (Hkeep ("phantom" ++ nl)).
Defined.

(** ** Cutting the defect fields up again *)















(** ** The whole cleanup, run twice *)

Lemma length_append (a b : string) :
  String.length (a ++ b) = String.length a + String.length b.
Proof. induction a as [|c a IH]; simpl; [reflexivity|]. now rewrite IH. Qed.

Lemma append_inj_l (s : string) : forall a b, a ++ s = b ++ s -> a = b.
Proof.
  induction a as [|c a IH]; intros [|c' b] H; simpl in H.
  - reflexivity.
  - apply (f_equal String.length) in H. simpl in H. rewrite length_append in H. lia.
  - apply (f_equal String.length) in H. simpl in H. rewrite length_append in H. lia.
  - injection H as -> H. f_equal. now apply IH.
Qed.

Lemma set_get_same {V} (d : list (string * V)) k v :
  Dict.get k d = Some v -> Dict.set k v d = d.
Proof.
  induction d as [|[k0 v0] d IH]; simpl; [discriminate|].
  destruct (String.eqb_spec k k0) as [->|Hne]; intros H.
  - now injection H as ->.
  - f_equal. now apply IH.
Qed.

Lemma without_unflagged analysis (m : mapping) :
  unflagged analysis m ->
  without (targets (Clean.lower_index m) (flagged_vars analysis)) m = m.
Proof.
  intros Hun. unfold without. apply filter_all_true. intros [k v] Hin. simpl.
  apply negb_true_iff. destruct (existsb _ _) eqn:E; [|reflexivity]. exfalso.
  apply existsb_eqb_In, In_targets in E. destruct E as (Hne & var & Hv & Hci).
  pose proof (lower_index_sound _ _ _ Hci) as Hlow. subst var.
  apply (Hun k); [|exact Hne|exact Hv].
  now apply (in_map fst) in Hin.
Qed.

Lemma unflagged_without analysis (m : mapping) :
  case_distinct m ->
  unflagged analysis
    (without (targets (Clean.lower_index m) (flagged_vars analysis)) m).
Proof.
  intros Hcase k Hk Hne Hflag.
  apply keys_without_In in Hk. destruct Hk as [Hk HnT]. apply HnT.
  apply In_targets. split; [exact Hne|]. exists (PyStr.lower k).
  split; [exact Hflag|]. now apply lower_index_complete.
Qed.

Lemma host_var_file_missing w name :
  host_var_file w name = None -> file_exists (fs_host_vars w) name = false.
Proof.
  unfold host_var_file, file_exists, Dict.mem.
  destruct (fs_host_vars w); [|reflexivity]. now intros ->.
Qed.

(** One pass of [clean_host_vars] settles every host file of the
    report. *)
Lemma clean_host_vars_settles base (analysis_results : report) : forall w,
  NoDup (Dict.keys analysis_results) ->
  plain_docs analysis_results w ->
  exists w1,
    Clean.clean_host_vars base analysis_results w = (w1, Ok tt)
    /\ fs_hosts w1 = fs_hosts w
    /\ fs_group_vars w1 = fs_group_vars w
    /\ settled analysis_results w1.
Proof.
  unfold Clean.clean_host_vars.
  induction analysis_results as [|[host analysis] rest IH]; intros w Hnd Hdocs.
  - exists w. simpl. unfold ret. repeat split. intros h a f [].
  - simpl in Hnd. apply NoDup_cons_iff in Hnd. destruct Hnd as [Hfresh Hnd].
    assert (Hother : forall h, In h (Dict.keys rest) -> host ++ ".yml" <> h ++ ".yml").
    { intros h Hh E. apply append_inj_l in E. now subst h. }
    cbn [for_each].
    destruct (host_var_file w (host ++ ".yml")) as [f|] eqn:Hf.
    + destruct (Hdocs host f (or_introl eq_refl) Hf) as (m & Hl & Hm & Hcase).
      pose proof Hf as Hf'. unfold host_var_file in Hf'.
      destruct (fs_host_vars w) as [files|] eqn:Hd; [|discriminate].
      destruct (clean_one_host_exact base host analysis w files f m Hd Hf' Hl Hm)
        as [out Hstep].
      set (m1 := without (targets (Clean.lower_index m) (flagged_vars analysis)) m) in *.
      rewrite (bind_ok _ _ _ _ _ Hstep).
      match goal with |- context [for_each _ _ ?w0] => set (wa := w0) end.
      destruct (IH wa Hnd) as (w1 & Hrun & Fh & Fg & Hset).
      { intros h f0 Hh Hf0. apply (Hdocs h f0); [now right|].
        unfold host_var_file. rewrite Hd.
        unfold host_var_file, wa in Hf0. simpl in Hf0.
        rewrite get_set_other in Hf0; [exact Hf0|].
        intros E. now apply (Hother h Hh). }
      exists w1. split; [exact Hrun|]. split; [exact Fh|]. split; [exact Fg|].
      intros h a f0 [E|Hin] Hf0.
      * injection E as <- <-.
        destruct (clean_host_vars_frame base rest wa w1 (Ok tt) Hrun) as (_ & _ & _ & Ff).
        rewrite (Ff (host ++ ".yml")) in Hf0 by (intros h Hh; now apply Hother).
        unfold host_var_file, wa in Hf0. simpl in Hf0. rewrite get_set_same in Hf0.
        injection Hf0 as <-. exists m1. split; [reflexivity|]. split.
        -- now apply keys_without_nodup.
        -- now apply unflagged_without.
      * now apply (Hset h a f0).
    + rewrite (bind_ok _ _ _ _ _
                 (clean_one_host_missing base host analysis w
                    (host_var_file_missing _ _ Hf))).
      destruct (IH (printed w [skip_warning base host]) Hnd) as (w1 & Hrun & Fh & Fg & Hset).
      { intros h f0 Hh Hf0. apply (Hdocs h f0); [now right|exact Hf0]. }
      exists w1. split; [exact Hrun|]. split; [exact Fh|]. split; [exact Fg|].
      intros h a f0 [E|Hin] Hf0.
      * injection E as <- <-.
        destruct (clean_host_vars_frame base rest _ w1 (Ok tt) Hrun) as (_ & _ & _ & Ff).
        rewrite (Ff (host ++ ".yml")) in Hf0 by (intros h Hh; now apply Hother).
        rewrite host_var_file_printed in Hf0. congruence.
      * now apply (Hset h a f0).
Qed.

(** On settled host files a pass of [clean_host_vars] only prints. *)
Lemma clean_host_vars_settled base (analysis_results : report) : forall w,
  settled analysis_results w ->
  exists out,
    Clean.clean_host_vars base analysis_results w = (printed w out, Ok tt).
Proof.
  unfold Clean.clean_host_vars.
  induction analysis_results as [|[host analysis] rest IH]; intros w Hset.
  - exists []. simpl. unfold ret. now rewrite printed_nil.
  - cbn [for_each].
    assert (Hstep : exists out,
              Clean.clean_one_host base host analysis w = (printed w out, Ok tt)).
    { destruct (host_var_file w (host ++ ".yml")) as [f|] eqn:Hf.
      - destruct (Hset host analysis f (or_introl eq_refl) Hf) as (m & -> & Hm & Hun).
        pose proof Hf as Hf'. unfold host_var_file in Hf'.
        destruct (fs_host_vars w) as [files|] eqn:Hd; [|discriminate].
        destruct (clean_one_host_exact base host analysis w files _ m Hd Hf'
                    (loaded_mapping m) Hm) as [out Hrun].
        rewrite (without_unflagged analysis m Hun) in Hrun.
        rewrite (set_get_same files _ _ Hf') in Hrun.
        exists (load_report base HostVars (host ++ ".yml") (FDoc (VMap m)) ++ out)%list.
        rewrite Hrun. unfold printed. now rewrite Hd.
      - exists [skip_warning base host].
        now apply clean_one_host_missing, host_var_file_missing. }
    destruct Hstep as [out1 Hstep]. rewrite (bind_ok _ _ _ _ _ Hstep).
    destruct (IH (printed w out1)) as [out2 Hrest].
    { intros h a f Hin Hf. apply (Hset h a f); [now right|exact Hf]. }
    exists (out1 ++ out2)%list. rewrite Hrest. now rewrite printed_printed.
Qed.

(** X24 -- When the report keys each host once and every host file it
    names loads as a mapping no two keys of which differ in letter case
    only, the whole cleanup is idempotent: a second [clean_inventory] with
    the same report succeeds and leaves the membership file and both
    directories as the first one left them. *)
Theorem clean_inventory_idempotent
  (base : string) (analysis_results : report) (w : world) (text : string)
  (Hfile : fs_hosts w = Some text)
  (Hkeys : NoDup (Dict.keys analysis_results))
  (Hdocs : plain_docs analysis_results w) :
  exists w1 w2,
    Clean.clean_inventory base analysis_results w = (w1, Ok tt)
    /\ Clean.clean_inventory base analysis_results w1 = (w2, Ok tt)
    /\ fs_hosts w2 = fs_hosts w1
    /\ fs_group_vars w2 = fs_group_vars w1
    /\ fs_host_vars w2 = fs_host_vars w1.
Proof.
  unfold Clean.clean_inventory.
  destruct (clean_hosts_run base analysis_results w text Hfile) as [out1 Hh1].
  rewrite (bind_ok _ _ _ _ _ Hh1).
  match goal with |- context [Clean.clean_host_vars _ _ ?w0 = _] => set (wa := w0) end.
  destruct (clean_host_vars_settles base analysis_results wa Hkeys) as
    (w1 & Hv1 & Fh & Fg & Hset).
  { intros h f Hh Hf. now apply (Hdocs h f). }
  exists w1. rewrite Hv1.
  set (text1 := written (filter (kept_line analysis_results) (PyStr.readlines text))) in *.
  assert (Ht1 : fs_hosts w1 = Some text1) by (rewrite Fh; reflexivity).
  destruct (clean_hosts_run base analysis_results w1 text1 Ht1) as [out2 Hh2].
  rewrite (bind_ok _ _ _ _ _ Hh2).
  match goal with |- context [Clean.clean_host_vars _ _ ?w0 = _] => set (wb := w0) end.
  destruct (clean_host_vars_settled base analysis_results wb) as [out3 Hv2].
  { intros h a f Hin Hf. now apply (Hset h a f). }
  exists (printed wb out3). split; [reflexivity|]. split; [exact Hv2|].
  simpl. split; [|now split].
  rewrite Ht1. f_equal. unfold text1.
  rewrite readlines_written by (apply lines_ok_filter, readlines_ok).
  now rewrite filter_idem.
Qed.

Lemma mixed_case_plain_docs : plain_docs [("app1", mixed_case_record)] mixed_case.
Proof.
  intros host f [<-|[]] Hf. injection Hf as <-.
  exists [("Port", VInt 8080); ("name", VStr "app1"); ("USER", VStr "www")].
  split; [reflexivity|]. split; [exact mixed_case_keys_nodup|exact mixed_case_distinct].
Defined.

Lemma app1_only_nodup : NoDup (Dict.keys [("app1", mixed_case_record)]).
Proof. repeat constructor. intros []. Defined.

Lemma clean_inventory_idempotent_witness :
  exists w1 w2,
    Clean.clean_inventory "inv" [("app1", mixed_case_record)] mixed_case = (w1, Ok tt)
    /\ Clean.clean_inventory "inv" [("app1", mixed_case_record)] w1 = (w2, Ok tt)
    /\ fs_hosts w2 = fs_hosts w1
    /\ fs_group_vars w2 = fs_group_vars w1
    /\ fs_host_vars w2 = fs_host_vars w1.
Proof.
  exact (clean_inventory_idempotent "inv" [("app1", mixed_case_record)] mixed_case
           ("[web]" ++ nl ++ "app1" ++ nl) eq_refl app1_only_nodup
           mixed_case_plain_docs).
Defined.

(** ** A host file the reader gives up on *)


